(** * YouTube Lounge media player entity (media_player.py)

    A shallow embedding of [YtMediaPlayer]: the playback state cache, the
    metadata resolver, the read-only facade properties, the supervision
    task that keeps the lounge subscription alive, and the manual
    reconnect service.

    Coroutines are resumptions: a finite tree whose nodes are the calls
    the coroutine makes to its collaborators (the lounge client, asyncio,
    Home Assistant, the YouTube Data API) and whose branches are indexed
    by the answers.  The [while True] loops of the source are cut by a
    fuel argument; a loop that is still running when the fuel is gone
    ends in the [Spin] leaf.

    A run is the coroutine against a script: the answers of the
    collaborators in the order they are asked.  The entity object and the
    asyncio tasks live in a store shared by all coroutines.  A task is
    cancelled the way asyncio does it: the request is recorded, and
    [CancelledError] is thrown into the task's coroutine at the call it
    is suspended in when the task gets its next turn; awaiting a task
    that ended cancelled raises [CancelledError] in the awaiter. *)

From Stdlib Require Import ZArith Floats.SpecFloat.
From stdpp Require Import base tactics option list strings gmap.

Local Open Scope string_scope.
Local Open Scope Z_scope.
Local Open Scope list_scope.

(** ** Python values *)

Module Py.

(** Exceptions: [asyncio.CancelledError] and everything else. *)
Inductive exn : Type :=
| CancelledError
| Exception (name : string).

Inductive outcome (A : Type) : Type :=
| Ok (a : A)
| Exc (e : exn).
Arguments Ok {A} a.
Arguments Exc {A} e.

Definition is_cancelled (e : exn) : bool :=
  match e with CancelledError => true | Exception _ => false end.

(** [int(x)] on a float: truncation towards zero; [OverflowError] on an
    infinity and [ValueError] on a NaN. *)
Definition int (x : spec_float) : outcome Z :=
  match x with
  | S754_zero _ => Ok 0
  | S754_infinity _ => Exc (Exception "OverflowError")
  | S754_nan => Exc (Exception "ValueError")
  | S754_finite neg m e =>
      let mag := if 0 <=? e then Z.pos m * 2 ^ e else Z.pos m / 2 ^ (- e) in
      Ok (if neg then - mag else mag)
  end.

(** Truthiness of the values the facade tests. *)
Definition truthy_str (s : string) : bool :=
  match s with EmptyString => false | String _ _ => true end.

Definition truthy_int (z : Z) : bool := negb (z =? 0).

(** [x or None] where [x] is a string / an int. *)
Definition str_or_None (s : string) : option string :=
  if truthy_str s then Some s else None.

Definition int_or_None (z : Z) : option Z :=
  if truthy_int z then Some z else None.

End Py.
Export Py.

(** ** Data model *)

(** [pyytlounge.State]: the six members [YtMediaPlayer.state] tests. *)
Inductive YtState : Type :=
| Stopped | Buffering | Playing | Paused | Starting | Advertisement.

Definition YtState_eqb (a b : YtState) : bool :=
  match a, b with
  | Stopped, Stopped | Buffering, Buffering | Playing, Playing
  | Paused, Paused | Starting, Starting | Advertisement, Advertisement => true
  | _, _ => false
  end.

(** [pyytlounge.PlaybackState]: the snapshot delivered by the lounge.  The
    class defines neither [__bool__] nor [__len__], so an instance is
    always truthy; only [None] is falsy. *)
Record PlaybackState : Type := mkPlaybackState {
  ps_state : YtState;
  videoId : option string;
  currentTime : spec_float;
  duration : spec_float
}.

(** [homeassistant.components.media_player.MediaPlayerState]. *)
Inductive MediaPlayerState : Type :=
| OFF | ON | IDLE | PLAYING | PAUSED | STANDBY | BUFFERING.

(** [_VideoSnippet]: data schema as it comes from the API. *)
Record VideoSnippet : Type := mkVideoSnippet {
  sn_title : string;
  sn_description : string;
  sn_channelTitle : string
}.

(** [_VideoInfo].  The id is whatever [self._state.videoId] holds when
    the record is built. *)
Record VideoInfo : Type := mkVideoInfo {
  vi_id : option string;
  vi_title : string;
  vi_description : string;
  vi_channel_title : string
}.

(** [_VideoInfo.__init__]. *)
Definition VideoInfo_init (video_id : option string) (snippet : VideoSnippet) : VideoInfo :=
  {| vi_id := video_id;
     vi_title := sn_title snippet;
     vi_description := sn_description snippet;
     vi_channel_title := sn_channelTitle snippet |}.

Definition CONNECT_RETRY_INTERVAL : nat := 10.
Definition ERROR_RETRY_INTERVAL : nat := 30.
Definition SUBSCRIBE_RETRY_INTERVAL : nat := 1.

(** A reading of [homeassistant.util.dt.utcnow()]. *)
Definition datetime : Type := Z.

(** Handle of an asyncio task: its index in the event loop's task table. *)
Definition task_id : Type := nat.

(** The discovered YouTube Data API object ([aiogoogle.discover]). *)
Inductive YtApi : Type := YoutubeV3.

(** The fields of a [YtMediaPlayer] instance. *)
Record Entity : Type := mkEntity {
  _google_api_key : option string;
  _yt_api : option YtApi;
  _state_time : datetime;
  _state : option PlaybackState;
  _video_info : option VideoInfo;
  _subscription : option task_id
}.

(** [YtMediaPlayer.__init__]; [now] is the reading of [utcnow()]. *)
Definition YtMediaPlayer_init (api_key : option string) (now : datetime) : Entity :=
  {| _google_api_key := api_key;
     _yt_api := None;
     _state_time := now;
     _state := None;
     _video_info := None;
     _subscription := None |}.

Definition set_yt_api (v : option YtApi) (self : Entity) : Entity :=
  {| _google_api_key := _google_api_key self; _yt_api := v;
     _state_time := _state_time self; _state := _state self;
     _video_info := _video_info self; _subscription := _subscription self |}.

Definition set_state_time (v : datetime) (self : Entity) : Entity :=
  {| _google_api_key := _google_api_key self; _yt_api := _yt_api self;
     _state_time := v; _state := _state self;
     _video_info := _video_info self; _subscription := _subscription self |}.

Definition set_state (v : option PlaybackState) (self : Entity) : Entity :=
  {| _google_api_key := _google_api_key self; _yt_api := _yt_api self;
     _state_time := _state_time self; _state := v;
     _video_info := _video_info self; _subscription := _subscription self |}.

Definition set_video_info (v : option VideoInfo) (self : Entity) : Entity :=
  {| _google_api_key := _google_api_key self; _yt_api := _yt_api self;
     _state_time := _state_time self; _state := _state self;
     _video_info := v; _subscription := _subscription self |}.

Definition set_subscription (v : option task_id) (self : Entity) : Entity :=
  {| _google_api_key := _google_api_key self; _yt_api := _yt_api self;
     _state_time := _state_time self; _state := _state self;
     _video_info := _video_info self; _subscription := v |}.

(** [self._state and self._state.videoId]: the media id when the snapshot
    is present and its id is a non-empty string. *)
Definition current_video_id (self : Entity) : option string :=
  match _state self with
  | None => None
  | Some st =>
      match videoId st with
      | None => None
      | Some vid => if truthy_str vid then Some vid else None
      end
  end.

(** ** The facade: read-only properties *)

Module Facade.

(** [YtMediaPlayer.state]. *)
Definition state (self : Entity) : MediaPlayerState :=
  match _state self with
  | None => OFF
  | Some st =>
      if existsb (YtState_eqb (ps_state st)) [Playing; Starting; Buffering; Advertisement]
      then PLAYING
      else if YtState_eqb (ps_state st) Paused then PAUSED
      else if YtState_eqb (ps_state st) Stopped then ON
      else OFF
  end.

(** [YtMediaPlayer.media_title]. *)
Definition media_title (self : Entity) : option string :=
  match _video_info self with
  | None => None
  | Some info => str_or_None (vi_title info)
  end.

(** [YtMediaPlayer.media_channel]. *)
Definition media_channel (self : Entity) : option string :=
  match _video_info self with
  | None => None
  | Some info => str_or_None (vi_channel_title info)
  end.

(** [YtMediaPlayer.media_position]; [Exc] when [int] raises. *)
Definition media_position (self : Entity) : outcome (option Z) :=
  match _state self with
  | None => Ok None
  | Some st =>
      match Py.int (currentTime st) with
      | Ok z => Ok (int_or_None z)
      | Exc e => Exc e
      end
  end.

(** [YtMediaPlayer.media_position_updated_at]. *)
Definition media_position_updated_at (self : Entity) : option datetime :=
  match _state self with
  | None => None
  | Some _ => Some (_state_time self)
  end.

(** [YtMediaPlayer.media_duration]. *)
Definition media_duration (self : Entity) : outcome (option Z) :=
  match _state self with
  | None => Ok None
  | Some st =>
      match Py.int (duration st) with
      | Ok z => Ok (int_or_None z)
      | Exc e => Exc e
      end
  end.

End Facade.

(** ** Coroutines *)

(** The two coroutines the entity hands to [hass.async_create_task]. *)
Inductive task_kind : Type := SubscriptionTask | SetupYoutubeApi.

(** What the lounge channel produces while a subscription is open: a
    snapshot (or null) for the callback, or the end of the subscription. *)
Inductive channel_event : Type :=
| Notify (state : option PlaybackState)
| Closed.

Inductive log_level : Type := DEBUG | ERROR.

(** What [subscribe] does when the callback raised: the lounge client is
    not part of the component, and nothing in it says whether the
    client lets the exception through, raises one of its own, swallows
    it and returns, or swallows it and goes on with the channel. *)
Inductive reaction : Type :=
| Raises (name : string)
| Returns
| Continues.

(** An attribute assignment [self.<name> = v]. *)
Inductive attr : Type :=
| A_yt_api (v : option YtApi)
| A_state_time (v : datetime)
| A_state (v : option PlaybackState)
| A_video_info (v : option VideoInfo)
| A_subscription (v : option task_id).

Definition setattr (a : attr) : Entity -> Entity :=
  match a with
  | A_yt_api v => set_yt_api v
  | A_state_time v => set_state_time v
  | A_state v => set_state v
  | A_video_info v => set_video_info v
  | A_subscription v => set_subscription v
  end.

(** Everything a coroutine of the entity does besides computing. *)
Inductive call : Type :=
(* the lounge client, [self._api] *)
| ApiConnected
| ApiLinked
| ApiConnect
| ApiRefreshAuth
| ApiSubscribeNext
| ApiCallbackRaised (name : string)
(* asyncio *)
| Sleep (seconds : nat)
| CreateTask (kind : task_kind)
| TaskCancel (t : task_id)
| TaskAwait (t : task_id)
(* Home Assistant *)
| UtcNow
| WriteHaState
| OnRemove
| Log (level : log_level) (msg : string)
(* YouTube Data API through aiogoogle *)
| Discover
| VideosList (id : string)
(* the entity object *)
| GetSelf
| SetAttr (a : attr).

Definition answer (c : call) : Type :=
  match c with
  | ApiConnected | ApiLinked => bool
  | ApiConnect | ApiRefreshAuth => outcome bool
  | ApiSubscribeNext => outcome channel_event
  | ApiCallbackRaised _ => reaction
  | Sleep _ => outcome unit
  | CreateTask _ => task_id
  | TaskCancel _ => bool
  | TaskAwait _ => outcome unit
  | UtcNow => datetime
  | WriteHaState | OnRemove | Log _ _ => unit
  | Discover => outcome YtApi
  | VideosList _ => outcome (list VideoSnippet)
  | GetSelf => Entity
  | SetAttr _ => unit
  end.

(** The suspension points: the calls that are awaited on something
    outside the coroutine.  A cancellation is delivered there. *)
Definition awaitable (c : call) : bool :=
  match c with
  | ApiConnect | ApiRefreshAuth | ApiSubscribeNext | Sleep _ | TaskAwait _
  | Discover | VideosList _ => true
  | _ => false
  end.

Inductive coro (R : Type) : Type :=
| Ret (r : R)
| Vis (c : call) (k : answer c -> coro R)
| Spin.
Arguments Ret {R} r.
Arguments Vis {R} c k.
Arguments Spin {R}.

Fixpoint coro_bind {A B : Type} (m : coro A) (f : A -> coro B) : coro B :=
  match m with
  | Ret a => f a
  | Vis c k => Vis c (fun x => coro_bind (k x) f)
  | Spin => Spin
  end.

(** A coroutine that returns an [A] or raises. *)
Definition M (A : Type) : Type := coro (outcome A).

Definition raise {A : Type} (e : exn) : M A := Ret (Exc e).

Definition M_bind {A B : Type} (m : M A) (f : A -> M B) : M B :=
  coro_bind m (fun o => match o with Ok a => f a | Exc e => Ret (Exc e) end).

#[global] Instance M_mret : MRet M := fun A a => Ret (Ok a).
#[global] Instance M_mbind : MBind M := fun A B f m => M_bind m f.

(** [try: body except e: handler e].  An exception raised by the handler
    is not caught. *)
Definition try_except {A : Type} (body : M A) (handler : exn -> M A) : M A :=
  coro_bind body (fun o => match o with Ok a => Ret (Ok a) | Exc e => handler e end).

(** A call that cannot raise. *)
Definition invoke (c : call) : M (answer c) := Vis c (fun a => Ret (Ok a)).

Definition api_connected : M bool := invoke ApiConnected.
Definition api_linked : M bool := invoke ApiLinked.
Definition api_connect : M bool := Vis ApiConnect Ret.
Definition api_refresh_auth : M bool := Vis ApiRefreshAuth Ret.
Definition subscribe_next : M channel_event := Vis ApiSubscribeNext Ret.
Definition callback_raised (name : string) : M reaction := invoke (ApiCallbackRaised name).
Definition sleep (seconds : nat) : M unit := Vis (Sleep seconds) Ret.
Definition create_task (kind : task_kind) : M task_id := invoke (CreateTask kind).
Definition task_cancel (t : task_id) : M bool := invoke (TaskCancel t).
Definition task_await (t : task_id) : M unit := Vis (TaskAwait t) Ret.
Definition utcnow : M datetime := invoke UtcNow.
Definition async_write_ha_state : M unit := invoke WriteHaState.
Definition async_on_remove : M unit := invoke OnRemove.
Definition log_debug (msg : string) : M unit := invoke (Log DEBUG msg).
Definition log_exception (msg : string) : M unit := invoke (Log ERROR msg).
Definition discover : M YtApi := Vis Discover Ret.
Definition videos_list (id : string) : M (list VideoSnippet) := Vis (VideosList id) Ret.
Definition get_self : M Entity := invoke GetSelf.
Definition assign (a : attr) : M unit := invoke (SetAttr a).

(** ** The entity's coroutines *)

(** [YtMediaPlayer.__update_video_snippet]. *)
Definition update_video_snippet : M unit :=
  self ← get_self;
  match _yt_api self, current_video_id self with
  | Some _, Some vid =>
      if match _video_info self with
         | Some info => bool_decide (Some vid = vi_id info)
         | None => false
         end
      then mret tt (* already have this video info *)
      else
        items ← videos_list vid;
        match items with
        | [] => raise (Exception "IndexError")
        | snippet :: _ =>
            self' ← get_self;
            match _state self' with
            | None => raise (Exception "AttributeError")
            | Some st => assign (A_video_info (Some (VideoInfo_init (videoId st) snippet)))
            end
        end
  | _, _ => assign (A_video_info None)
  end.

(** [YtMediaPlayer.__new_state]: the subscription callback. *)
Definition new_state (state : option PlaybackState) : M unit :=
  now ← utcnow;
  assign (A_state_time now);;
  assign (A_state state);;
  update_video_snippet;;
  async_write_ha_state.

(** What [subscribe] goes on with after a run of the callback, [next]
    being the rest of the subscription.  When the callback raised an
    exception, the client's [reaction] decides; it is one more answer of
    the collaborators.  For [CancelledError] the model takes the client
    to do what asyncio asks of a library, and to let it through. *)
Definition after_callback (next : M unit) (o : outcome unit) : M unit :=
  match o with
  | Ok _ => next
  | Exc CancelledError => raise CancelledError
  | Exc (Exception name) =>
      r ← callback_raised name;
      match r with
      | Raises name' => raise (Exception name')
      | Returns => mret tt
      | Continues => next
      end
  end.

(** [YtLoungeApi.subscribe(callback)]: an external collaborator.  It
    awaits the channel, hands every snapshot to the callback and returns
    when the subscription ends. *)
Fixpoint api_subscribe (fuel : nat) (callback : option PlaybackState -> M unit) : M unit :=
  match fuel with
  | O => Spin
  | S fuel' =>
      ev ← subscribe_next;
      match ev with
      | Notify state =>
          coro_bind (callback state) (after_callback (api_subscribe fuel' callback))
      | Closed => mret tt
      end
  end.

(** Lines 114-119: the body of [while not self._api.connected()]. *)
Definition reconnect_pass : M unit :=
  log_debug "subscribe_and_keep_alive: reconnecting";;
  new_state None;;
  sleep CONNECT_RETRY_INTERVAL;;
  linked ← api_linked;
  (if negb linked then _ ← api_refresh_auth; mret tt else mret tt);;
  _ ← api_connect;
  mret tt.

(** Lines 113-119: [while not self._api.connected(): ...]. *)
Fixpoint reconnect_loop (fuel : nat) : M unit :=
  match fuel with
  | O => Spin
  | S fuel' =>
      connected ← api_connected;
      if negb connected then reconnect_pass;; reconnect_loop fuel' else mret tt
  end.

(** Lines 112-122: the steady state, [while True: ...]. *)
Fixpoint steady_state (fuel : nat) : M unit :=
  match fuel with
  | O => Spin
  | S fuel' =>
      reconnect_loop fuel';;
      log_debug "subscribe_and_keep_alive: subscribing";;
      api_subscribe fuel' new_state;;
      sleep SUBSCRIBE_RETRY_INTERVAL;;
      steady_state fuel'
  end.

(** [YtMediaPlayer.__subscribe_and_keep_alive]. *)
Definition subscribe_and_keep_alive (fuel : nat) : M unit :=
  connected ← api_connected;
  (if negb connected then _ ← api_connect; mret tt else mret tt);;
  steady_state fuel.

(** [YtMediaPlayer.__subscription_task]: lines 97-98, the body of the
    [try] statement; it yields whether the loop is left ([break]). *)
Definition supervised (fuel : nat) : M bool :=
  log_debug "Starting subscribe and keep alive";;
  subscribe_and_keep_alive fuel;;
  mret false.

(** Lines 99-106, the two [except] clauses. *)
Definition on_error (e : exn) : M bool :=
  if is_cancelled e then mret true (* break *)
  else
    log_exception "Subscribe and keep alive encountered error, waiting %.0f seconds";;
    sleep ERROR_RETRY_INTERVAL;;
    mret false.

(** Lines 95-106, [while True: try: ... except ...]. *)
Fixpoint subscription_task (fuel : nat) : M unit :=
  match fuel with
  | O => Spin
  | S fuel' =>
      leave ← try_except (supervised fuel') on_error;
      if leave : bool then mret tt else subscription_task fuel'
  end.

(** [YtMediaPlayer.__setup_youtube_api]. *)
Definition setup_youtube_api : M unit :=
  api ← discover;
  assign (A_yt_api (Some api));;
  self ← get_self;
  match current_video_id self with
  | Some _ => update_video_snippet;; async_write_ha_state
  | None => mret tt
  end.

(** [YtMediaPlayer.manual_reconnect]. *)
Definition manual_reconnect : M unit :=
  self ← get_self;
  match _subscription self with
  | Some subscription =>
      log_debug "manual_reconnect: cancelling subscription";;
      _ ← task_cancel subscription;
      log_debug "manual_reconnect: waiting for subscription to end";;
      task_await subscription;;
      refreshed ← api_refresh_auth;
      log_debug "manual_reconnect: refresh auth %s";;
      connected ← api_connect;
      log_debug "manual_reconnect: connect %s"
  | None => mret tt
  end;;
  t ← create_task SubscriptionTask;
  assign (A_subscription (Some t)).

(** [YtMediaPlayer.async_added_to_hass]; the call to the base class
    does nothing and is left out. *)
Definition async_added_to_hass : M unit :=
  t ← create_task SubscriptionTask;
  assign (A_subscription (Some t));;
  self ← get_self;
  match _google_api_key self with
  | Some key => if truthy_str key then _ ← create_task SetupYoutubeApi; mret tt else mret tt
  | None => mret tt
  end;;
  async_on_remove.

(** [YtMediaPlayer.__removed_from_hass]. *)
Definition removed_from_hass : M unit :=
  self ← get_self;
  match _subscription self with
  | Some subscription =>
      _ ← task_cancel subscription;
      assign (A_subscription None)
  | None => mret tt
  end.

(** The coroutine behind a task. *)
Definition task_body (fuel : nat) (kind : task_kind) : M unit :=
  match kind with
  | SubscriptionTask => subscription_task fuel
  | SetupYoutubeApi => setup_youtube_api
  end.

(** ** The event loop *)

(** How far a coroutine got.  [Waiting c k]: it is suspended at [c] and
    goes on with [k]; at a call that is not awaitable this only happens
    when the script of answers has run out. *)
Inductive status (R : Type) : Type :=
| Returned (r : R)
| Waiting (c : call) (k : answer c -> coro R)
| Spinning                                     (* a loop outlived its fuel *)
| Rejected.                                    (* an answer of the wrong type *)
Arguments Returned {R} r.
Arguments Waiting {R} c k.
Arguments Spinning {R}.
Arguments Rejected {R}.

(** An asyncio task: the coroutine it wraps, how far it got ([None]: not
    started yet) and whether a cancellation is requested but not yet
    delivered. *)
Record Task : Type := mkTask {
  t_kind : task_kind;
  t_status : option (status (outcome unit));
  t_must_cancel : bool
}.

Definition task_done (t : Task) : bool :=
  match t_status t with Some (Returned _) => true | _ => false end.

Definition task_alive (t : Task) : bool := negb (task_done t).

(** The shared store: the entity object and the loop's tasks. *)
Record World : Type := mkWorld {
  w_self : Entity;
  w_tasks : list Task
}.

(** One recorded call with its answer. *)
Record event : Type := Ev { ev_call : call; ev_answer : answer ev_call }.

(** What the collaborators answer, in the order they are asked. *)
Inductive reply : Type :=
| RBool (b : bool)
| RUnit
| RRaise (e : exn)
| RTime (t : datetime)
| RChannel (ev : channel_event)
| RReaction (r : reaction)
| RApi (api : YtApi)
| RItems (items : list VideoSnippet).

Definition decode (c : call) (r : reply) : option (answer c) :=
  match c return option (answer c) with
  | ApiConnected | ApiLinked => match r with RBool b => Some b | _ => None end
  | ApiConnect | ApiRefreshAuth =>
      match r with RBool b => Some (Ok b) | RRaise e => Some (Exc e) | _ => None end
  | ApiSubscribeNext =>
      match r with RChannel ev => Some (Ok ev) | RRaise e => Some (Exc e) | _ => None end
  | ApiCallbackRaised _ => match r with RReaction x => Some x | _ => None end
  | Sleep _ => match r with RUnit => Some (Ok tt) | RRaise e => Some (Exc e) | _ => None end
  | UtcNow => match r with RTime t => Some t | _ => None end
  | WriteHaState | OnRemove | Log _ _ => match r with RUnit => Some tt | _ => None end
  | Discover => match r with RApi api => Some (Ok api) | RRaise e => Some (Exc e) | _ => None end
  | VideosList _ =>
      match r with RItems items => Some (Ok items) | RRaise e => Some (Exc e) | _ => None end
  | CreateTask _ | TaskCancel _ | TaskAwait _ | GetSelf | SetAttr _ => None
  end.

(** Throwing an exception into a coroutine suspended at [c]. *)
Definition throw_in (e : exn) (c : call) : option (answer c) :=
  match c return option (answer c) with
  | ApiConnect | ApiRefreshAuth => Some (Exc e)
  | ApiSubscribeNext => Some (Exc e)
  | Sleep _ => Some (Exc e)
  | TaskAwait _ => Some (Exc e)
  | Discover => Some (Exc e)
  | VideosList _ => Some (Exc e)
  | _ => None
  end.

Inductive handled (A : Type) : Type :=
| Answered (a : A) (w : World)
| Blocked
| External.
Arguments Answered {A} a w.
Arguments Blocked {A}.
Arguments External {A}.

Definition with_self (f : Entity -> Entity) (w : World) : World :=
  {| w_self := f (w_self w); w_tasks := w_tasks w |}.

Definition with_tasks (f : list Task -> list Task) (w : World) : World :=
  {| w_self := w_self w; w_tasks := f (w_tasks w) |}.

Definition request_cancel (t : Task) : Task :=
  {| t_kind := t_kind t; t_status := t_status t; t_must_cancel := true |}.

(** [await task] on a task that is done: its result, or its exception. *)
Definition task_result (t : Task) : option (outcome unit) :=
  match t_status t with Some (Returned o) => Some o | _ => None end.

(** The calls the loop answers from the shared store.  A created task
    is scheduled and has not run yet; [Task.cancel()] returns [False] on
    a task that is done and otherwise requests the cancellation; awaiting
    a task that is not done blocks. *)
Definition internal (c : call) (w : World) : handled (answer c) :=
  match c return handled (answer c) with
  | GetSelf => Answered (w_self w) w
  | SetAttr a => Answered tt (with_self (setattr a) w)
  | CreateTask kind =>
      Answered (length (w_tasks w))
               (with_tasks (fun ts => ts ++ [mkTask kind None false]) w)
  | TaskCancel t =>
      match w_tasks w !! t with
      | Some task =>
          if task_done task then Answered false w
          else Answered true (with_tasks (fun ts => <[t := request_cancel task]> ts) w)
      | None => Answered false w
      end
  | TaskAwait t =>
      match w_tasks w !! t with
      | Some task =>
          match task_result task with
          | Some o => Answered o w
          | None => Blocked
          end
      | None => Blocked
      end
  | _ => External
  end.

(** Accesses to the entity object are not recorded, and neither is what
    happens inside the lounge client. *)
Definition traced (c : call) : bool :=
  match c with GetSelf | SetAttr _ | ApiCallbackRaised _ => false | _ => true end.

Record Result (R : Type) : Type := mkResult {
  r_trace : list event;
  r_world : World;
  r_status : status R;
  r_rest : list reply
}.
Arguments mkResult {R} _ _ _ _.
Arguments r_trace {R} _.
Arguments r_world {R} _.
Arguments r_status {R} _.
Arguments r_rest {R} _.

Definition emit {R : Type} (c : call) (a : answer c) (r : Result R) : Result R :=
  if traced c
  then mkResult (Ev c a :: r_trace r) (r_world r) (r_status r) (r_rest r)
  else r.

Definition prepend {R : Type} (tr : list event) (r : Result R) : Result R :=
  mkResult (tr ++ r_trace r) (r_world r) (r_status r) (r_rest r).

(** Run a coroutine until it returns or has to wait: for a task that is
    not done, or for an answer the script does not hold yet. *)
Fixpoint exec {R : Type} (w : World) (p : coro R) (s : list reply) : Result R :=
  match p with
  | Ret r => mkResult [] w (Returned r) s
  | Spin => mkResult [] w Spinning s
  | Vis c k =>
      match internal c w with
      | Answered a w' => emit c a (exec w' (k a) s)
      | Blocked => mkResult [] w (Waiting c k) s
      | External =>
          match s with
          | [] => mkResult [] w (Waiting c k) []
          | r :: s' =>
              match decode c r with
              | Some a => emit c a (exec w (k a) s')
              | None => mkResult [] w Rejected s
              end
          end
      end
  end.

(** Record in the task table how far task [t] got. *)
Definition commit (t : task_id) (kind : task_kind) (r : Result (outcome unit))
  : Result (outcome unit) :=
  mkResult (r_trace r)
           (with_tasks (fun ts => <[t := mkTask kind (Some (r_status r)) false]> ts) (r_world r))
           (r_status r) (r_rest r).

(** The loop gives task [t] its turn.  A task cancelled before it started
    never runs its coroutine; a suspended task with a pending cancellation
    gets [CancelledError] thrown in at its suspension point; otherwise the
    task goes on with the next answers. *)
Definition step_task (fuel : nat) (t : task_id) (w : World) (s : list reply)
  : option (Result (outcome unit)) :=
  match w_tasks w !! t with
  | None => None
  | Some task =>
      match t_status task with
      | None =>
          if t_must_cancel task
          then Some (commit t (t_kind task) (mkResult [] w (Returned (Exc CancelledError)) s))
          else Some (commit t (t_kind task) (exec w (task_body fuel (t_kind task)) s))
      | Some (Waiting c k) =>
          if t_must_cancel task
          then match throw_in CancelledError c with
               | Some a => Some (commit t (t_kind task) (emit c a (exec w (k a) s)))
               | None => None
               end
          else Some (commit t (t_kind task) (exec w (Vis c k) s))
      | Some _ => None
      end
  end.

(** Run an operation of the entity to its end; whenever it waits for a
    task, the loop runs that task. *)
Fixpoint run_until_complete {R : Type} (turns fuel : nat) (w : World) (op : coro R)
    (s : list reply) : Result R :=
  let r := exec w op s in
  match turns with
  | O => r
  | S turns' =>
      match r_status r with
      | Waiting c k =>
          match c as c0 return (answer c0 -> coro R) -> Result R with
          | TaskAwait t => fun k' =>
              match step_task fuel t (r_world r) (r_rest r) with
              | Some r' =>
                  prepend (r_trace r ++ r_trace r')
                    (run_until_complete turns' fuel (r_world r') (Vis (TaskAwait t) k') (r_rest r'))
              | None => r
              end
          | _ => fun _ => r
          end k
      | _ => r
      end
  end.

(** Go on with an operation that was left waiting, in the world and with
    the answers of a later moment. *)
Definition resume {R : Type} (r : Result R) (w : World) (s : list reply) : Result R :=
  match r_status r with
  | Waiting c k => exec w (Vis c k) s
  | _ => r
  end.

(** The calls of a trace, without their answers. *)
Definition calls (tr : list event) : list call := map ev_call tr.

Definition world0 (self : Entity) : World := {| w_self := self; w_tasks := [] |}.

(** ** Monitors

    A monitor reads a trace event by event and stops at the first event
    it does not allow.  [wp step p Q q] says that, started in state [q],
    the monitor allows every call the coroutine [p] can make, whatever
    the answers are, and that [Q] holds of the result and the monitor's
    state wherever [p] returns. *)

Section Monitor.
Context {St : Type} (step : St -> event -> option St).

Fixpoint monitor (q : St) (tr : list event) : option St :=
  match tr with
  | [] => Some q
  | e :: tr' =>
      match step q e with
      | Some q' => monitor q' tr'
      | None => None
      end
  end.

Fixpoint wp {R : Type} (p : coro R) (Q : R -> St -> Prop) (q : St) : Prop :=
  match p with
  | Ret r => Q r q
  | Spin => True
  | Vis c k =>
      forall a : answer c,
        if traced c
        then match step q (Ev c a) with
             | Some q' => wp (k a) Q q'
             | None => False
             end
        else wp (k a) Q q
  end.

End Monitor.

(** The lounge client's calls as a monitor sees them; [ok] tells whether
    the call returned (rather than raised). *)
Inductive api_event : Type :=
| EConnected (b : bool)
| ELinked (b : bool)
| ERefreshAuth (ok : bool)
| EConnect (ok : bool)
| ESubscribeNext (ev : outcome channel_event)
| ESleep (seconds : nat) (ok : bool)
| EOther.

Definition returned {A : Type} (o : outcome A) : bool :=
  match o with Ok _ => true | Exc _ => false end.

Definition view (e : event) : api_event :=
  match e with
  | Ev c a =>
      match c return answer c -> api_event with
      | ApiConnected => fun b => EConnected b
      | ApiLinked => fun b => ELinked b
      | ApiRefreshAuth => fun o => ERefreshAuth (returned o)
      | ApiConnect => fun o => EConnect (returned o)
      | ApiSubscribeNext => fun o => ESubscribeNext o
      | Sleep n => fun o => ESleep n (returned o)
      | _ => fun _ => EOther
      end a
  end.

(** The monitor of the reconnect sub-loop's credential handling: after
    [linked()] answered true the next call is [connect()]; after it
    answered false the next call is [refresh_auth()] and, when that
    returns, the next one is [connect()]; no [refresh_auth()] and no
    [connect()] happens otherwise. *)
Inductive refresh_phase : Type :=
| Free
| Linked (b : bool)
| Refreshed
| Over.

Definition refresh_step (q : refresh_phase) (e : event) : option refresh_phase :=
  match q, view e with
  | Free, ELinked b => Some (Linked b)
  | Free, (ERefreshAuth _ | EConnect _) => None
  | Free, _ => Some Free
  | Linked true, EConnect _ => Some Free
  | Linked false, ERefreshAuth ok => Some (if ok then Refreshed else Over)
  | Refreshed, EConnect _ => Some Free
  | _, _ => None
  end.

(** How a run of [m] goes on when [m] is followed by [f]. *)
Definition then_run {A B : Type} (f : A -> coro B) (r : Result A) : Result B :=
  match r_status r with
  | Returned a => prepend (r_trace r) (exec (r_world r) (f a) (r_rest r))
  | Waiting c k =>
      mkResult (r_trace r) (r_world r) (Waiting c (fun x => coro_bind (k x) f)) (r_rest r)
  | Spinning => mkResult (r_trace r) (r_world r) Spinning (r_rest r)
  | Rejected => mkResult (r_trace r) (r_world r) Rejected (r_rest r)
  end.

Definition is_returned {R : Type} (st : status R) : bool :=
  match st with Returned _ => true | _ => false end.

(** The snapshots a trace delivered to the callback, the clock readings
    it took and the media ids it looked up. *)
Definition notification (e : event) : option (option PlaybackState) :=
  match view e with
  | ESubscribeNext (Ok (Notify st)) => Some st
  | _ => None
  end.

Definition clock_reading (e : event) : option datetime :=
  match e with
  | Ev c a =>
      match c return answer c -> option datetime with
      | UtcNow => fun t => Some t
      | _ => fun _ => None
      end a
  end.

Definition lookup_of (e : event) : option string :=
  match ev_call e with
  | VideosList id => Some id
  | _ => None
  end.

Definition notifications (tr : list event) : list (option PlaybackState) :=
  omap notification tr.
Definition clock_readings (tr : list event) : list datetime := omap clock_reading tr.
Definition lookups (tr : list event) : list string := omap lookup_of tr.

Definition is_connect (e : event) : bool :=
  match view e with EConnect _ => true | _ => false end.

(** The cache after a null snapshot was published at time [t]. *)
Definition cleared (t : datetime) (w : World) : World :=
  with_self (fun self => set_video_info None (set_state None (set_state_time t self))) w.

(** The monitor that keeps the whole history, latest call first. *)
Definition history_step (q : list event) (e : event) : option (list event) := Some (e :: q).

(** ** Sample runs *)

Module Sample.

Definition player : Entity := YtMediaPlayer_init None 0.

(** Finite floats with an integral value. *)
Definition seconds (n : positive) : spec_float := S754_finite false n 0.

Definition playing (id : string) (pos : spec_float) : PlaybackState :=
  mkPlaybackState Playing (Some id) pos (seconds 100).

(** Answers for one pass of the reconnect sub-loop entered with
    [connected()] false: the log line, the clock, the state write, the
    sleep, [linked()], [refresh_auth()] when not linked, [connect()]. *)
Definition pass_replies (t : datetime) (linked refreshed connect : bool) : list reply :=
  [RBool false; RUnit; RTime t; RUnit; RUnit; RBool linked]
  ++ (if linked then [] else [RBool refreshed]) ++ [RBool connect].

(** The calls of such a pass with their answers. *)
Definition pass_trace (t : datetime) (linked refreshed connect : bool) : list event :=
  [Ev ApiConnected false;
   Ev (Log DEBUG "subscribe_and_keep_alive: reconnecting") tt;
   Ev UtcNow t; Ev WriteHaState tt;
   Ev (Sleep CONNECT_RETRY_INTERVAL) (Ok tt);
   Ev ApiLinked linked]
  ++ (if linked then [] else [Ev ApiRefreshAuth (Ok refreshed)])
  ++ [Ev ApiConnect (Ok connect)].

(** Two passes, the first linked and the second not, then connected. *)
Definition two_passes : list reply :=
  pass_replies 1 true true false ++ pass_replies 2 false true true ++ [RBool true].

(** Scenario B: [connect()] fails three times in a row, then succeeds;
    the subscription then ends at once. *)
Definition connect_fails_thrice : list reply :=
  [RBool false; RBool false]
  ++ pass_replies 1 true true false
  ++ pass_replies 2 true true false
  ++ pass_replies 3 true true true
  ++ [RBool true; RUnit; RChannel Closed; RUnit; RBool true].

(** A round of the supervisor that fails: connected, subscribed, and
    the channel raises; the error is logged and the backoff slept. *)
Definition failing_round (name : string) : list reply :=
  [RUnit; RBool true; RBool true; RUnit; RRaise (Exception name); RUnit; RUnit].

Definition failing_round_trace (name : string) : list event :=
  [Ev (Log DEBUG "Starting subscribe and keep alive") tt;
   Ev ApiConnected true; Ev ApiConnected true;
   Ev (Log DEBUG "subscribe_and_keep_alive: subscribing") tt;
   Ev ApiSubscribeNext (Exc (Exception name));
   Ev (Log ERROR "Subscribe and keep alive encountered error, waiting %.0f seconds") tt;
   Ev (Sleep ERROR_RETRY_INTERVAL) (Ok tt)].

Fixpoint times {A : Type} (k : nat) (l : list A) : list A :=
  match k with
  | O => []
  | S k' => l ++ times k' l
  end.

(** The inner loop up to a subscription that is cancelled, and up to
    one that raises. *)
Definition cancelled_in_subscribe : list reply :=
  [RBool true; RBool true; RUnit; RRaise CancelledError].

Definition error_in_subscribe (name : string) : list reply :=
  [RBool true; RBool true; RUnit; RRaise (Exception name)].

(** Scenario C with a connection that stays up: a snapshot arrives,
    the channel raises, the supervisor backs off and subscribes again. *)
Definition error_while_playing : list reply :=
  [RUnit; RBool true; RBool true; RUnit;
   RChannel (Notify (Some (playing "v1" (seconds 5)))); RTime 7; RUnit;
   RRaise (Exception "ClientError"); RUnit; RUnit;
   RUnit; RBool true; RBool true; RUnit].

(** Scenario A: a null notification, then two snapshots of the same
    video; no metadata service. *)
Definition scenario_A : list reply :=
  [RChannel (Notify None); RTime 1; RUnit;
   RChannel (Notify (Some (playing "v1" (S754_zero false)))); RTime 2; RUnit;
   RChannel (Notify (Some (playing "v1" (seconds 5)))); RTime 3; RUnit].

(** An entity whose metadata service is set up. *)
Definition with_service : Entity := set_yt_api (Some YoutubeV3) player.

Definition snippet (title : string) : VideoSnippet :=
  mkVideoSnippet title "" "Some channel".

(** One notification of video [id] at time [t] whose lookup succeeds. *)
Definition looked_up (id : string) (t : datetime) : list reply :=
  [RChannel (Notify (Some (playing id (seconds 5)))); RTime t;
   RItems [snippet ("Title of " +:+ id)]; RUnit].


(** An entity that shows v1 with its metadata resolved. *)
Definition showing_v1 : Entity :=
  set_video_info (Some (VideoInfo_init (Some "v1") (snippet "Old title")))
    (set_state (Some (playing "v1" (seconds 5))) with_service).

(** The supervisor subscribes, v2 starts and its lookup raises; the
    client lets the exception through. *)
Definition lookup_fails : list reply :=
  [RUnit; RBool true; RBool true; RUnit;
   RChannel (Notify (Some (playing "v2" (seconds 1)))); RTime 9;
   RRaise (Exception "HTTPError"); RReaction (Raises "HTTPError"); RUnit].

(** The same with a client that swallows the exception and returns: the
    supervisor sleeps a second and subscribes again. *)
Definition lookup_fails_quietly : list reply :=
  [RUnit; RBool true; RBool true; RUnit;
   RChannel (Notify (Some (playing "v2" (seconds 1)))); RTime 9;
   RRaise (Exception "HTTPError"); RReaction Returns; RUnit; RBool true; RUnit].

(** After the backoff the supervisor subscribes again, and the next
    snapshot is again one of v2; this time the lookup succeeds. *)
Definition lookup_retried : list reply :=
  lookup_fails ++ [RUnit; RUnit; RBool true; RBool true; RUnit] ++ looked_up "v2" 40.

(** The entity after [async_added_to_hass]: the supervision task is
    task 0 and has not run yet. *)
Definition added : World := r_world (exec (world0 player) async_added_to_hass [RUnit]).

(** The loop lets task [t] run on the answers [s]. *)
Definition let_run (fuel : nat) (t : task_id) (s : list reply) (w : World) : World :=
  match step_task fuel t w s with
  | Some r => r_world r
  | None => w
  end.

(** The supervision task is suspended in [subscribe], waiting for the
    channel. *)
Definition subscribed : World := let_run 4 0%nat [RUnit; RBool true; RBool true; RUnit] added.

(** The supervision task is suspended in its 30 second backoff after
    the channel raised [name]. *)
Definition backing_off (name : string) : World :=
  let_run 4 0%nat (RUnit :: error_in_subscribe name ++ [RUnit]) added.

(** The answers a manual reconnect needs: two log lines, then
    [refresh_auth()], a log line, [connect()], a log line. *)
Definition reconnect_replies : list reply :=
  [RUnit; RUnit; RBool true; RUnit; RBool true; RUnit].

End Sample.

(** ** The single-slot metadata cache

    A lookup is due for a snapshot when a metadata service is configured,
    the snapshot carries a media id and the record in the slot is not for
    that id. *)

Definition media_id (n : option PlaybackState) : option string :=
  match n with
  | Some st =>
      match videoId st with
      | Some v => if truthy_str v then Some v else None
      | None => None
      end
  | None => None
  end.

Definition cached_id (self : Entity) : option string :=
  match _video_info self with
  | Some info => vi_id info
  | None => None
  end.

Definition due_lookup (service : option YtApi) (cached : option string)
    (n : option PlaybackState) : list string :=
  match service, media_id n with
  | Some _, Some v => if bool_decide (Some v = cached) then [] else [v]
  | _, _ => []
  end.

(** The slot after a snapshot for which no lookup is due: the record is
    kept when it is the one of the snapshot's id, and dropped when there
    is no service or no media id. *)
Definition kept_slot (service : option YtApi) (cached : option string)
    (n : option PlaybackState) : option string :=
  match service, media_id n with
  | Some _, Some _ => cached
  | _, _ => None
  end.

(** A lookup brings a record when it returns at least one item. *)
Definition found (o : outcome (list VideoSnippet)) : bool :=
  match o with Ok (_ :: _) => true | _ => false end.

(** The monitor of the metadata cache.  It carries the id of the record
    in the slot, the snapshot the channel delivered and the callback has
    not started on ([None] also in the reconnect pass, which hands the
    callback a null snapshot), and the id whose lookup is due.

    The callback starts by reading the clock.  At that call the monitor
    decides from the slot and the snapshot whether a lookup is due.  When
    one is, the very next call has to be the lookup of that id; its
    result goes into the slot when the lookup brings a record, and the
    slot stays as it is when the lookup raises or brings nothing.  When
    none is due no lookup is allowed before the callback starts on the
    next snapshot. *)
Record cache_state : Type := mkCache {
  slot : option string;
  incoming : option PlaybackState;
  due : option string
}.

Definition at_rest (cached : option string) : cache_state := mkCache cached None None.

Definition cache_step (service : option YtApi) (q : cache_state) (e : event)
  : option cache_state :=
  match e with
  | Ev c a =>
      match c return answer c -> option cache_state with
      | VideosList id => fun o =>
          match due q with
          | Some v =>
              if String.eqb id v
              then Some (at_rest (if found o then Some v else slot q))
              else None
          | None => None
          end
      | UtcNow => fun _ =>
          match due q with
          | Some _ => None
          | None =>
              match due_lookup service (slot q) (incoming q) with
              | v :: _ => Some (mkCache (slot q) None (Some v))
              | [] => Some (at_rest (kept_slot service (slot q) (incoming q)))
              end
          end
      | ApiSubscribeNext => fun o =>
          match due q with
          | Some _ => None
          | None =>
              Some (mkCache (slot q) (match o with Ok (Notify n) => n | _ => None end) None)
          end
      | _ => fun _ => match due q with Some _ => None | None => Some q end
      end a
  end.




(** The last element of a list, or [d] when there is none. *)
Definition last_or {A : Type} (d : A) (l : list A) : A := default d (last l).

(** A run of the subscription has settled when it returned or waits for
    the next event of the channel: no callback is under way. *)
Definition settled {R : Type} (st : status R) : bool :=
  match st with
  | Returned _ => true
  | Waiting ApiSubscribeNext _ => true
  | _ => false
  end.

(** One step of a [wp] proof over an unfolded coroutine; [bind_tac]
    applies the rule for a coroutine followed by another. *)
Ltac wp_step bind_tac :=
  match goal with
  | |- forall _, _ => intro
  | |- True => exact I
  | |- _ = _ => reflexivity
  | _ => progress cbn
  | |- wp _ (coro_bind _ _) _ _ => bind_tac
  | |- wp _ (_ ≫= _) _ _ => bind_tac
  | |- context [match ?x with _ => _ end] => is_var x; destruct x
  | |- context [negb ?x] => is_var x; destruct x
  | |- context [returned ?x] => is_var x; destruct x
  | |- wp _ (match ?x with _ => _ end) _ _ => destruct x
  end.

(** ** Cancellation

    [on_cancel P p]: wherever [p] is suspended, at a call [c], throwing
    [CancelledError] in there leaves a coroutine [t] with [P c t]. *)
Fixpoint on_cancel {R : Type} (P : call -> coro R -> Prop) (p : coro R) : Prop :=
  match p with
  | Vis c k =>
      (forall a, on_cancel P (k a))
      /\ (forall a, throw_in CancelledError c = Some a -> P c (k a))
  | _ => True
  end.

(** [point_of p c k]: the coroutine [p] can get to the call [c], with
    [k] as what follows. *)
Inductive point_of {R : Type} : coro R -> forall c : call, (answer c -> coro R) -> Prop :=
| point_here (c : call) (k : answer c -> coro R) : point_of (Vis c k) c k
| point_later (c : call) (k : answer c -> coro R) (a : answer c)
    (c' : call) (k' : answer c' -> coro R) :
    point_of (k a) c' k' -> point_of (Vis c k) c' k'.

(** The cancellation comes out of the coroutine as its exception, and
    the suspension point is not the supervisor's backoff sleep. *)
Definition raises_cancelled {A : Type} (c : call) (t : M A) : Prop :=
  c <> Sleep ERROR_RETRY_INTERVAL /\ t = Ret (Exc CancelledError).

(** The cancellation ends the supervision task at once: cancelled when
    it hits the backoff sleep, with a plain return anywhere else. *)
Definition ends_task (c : call) (t : M unit) : Prop :=
  match c with
  | Sleep seconds =>
      if decide (seconds = ERROR_RETRY_INTERVAL)
      then t = Ret (Exc CancelledError)
      else t = Ret (Ok tt)
  | _ => t = Ret (Ok tt)
  end.

(** One step of an [on_cancel] proof; [bind_tac] applies the rule for a
    coroutine followed by another. *)
Ltac raises_step bind_tac :=
  match goal with
  | |- on_cancel _ (_ ≫= _) => bind_tac
  | |- on_cancel _ (match ?x with _ => _ end) => destruct x
  | |- _ = Some _ -> _ => injection 1 as <-
  | |- forall _, _ => intro
  | |- _ /\ _ => split
  | _ => done
  | _ => progress cbn
  end.

(** ** Pacing of the supervision task

    What the pacing monitor looks at: a [connect()] attempt, the entry
    into [subscribe()] (the log line right before the awaited call), a
    sleep that ran to its end, and the answers of [connected()]. *)
Inductive pace_event : Type :=
| PConnect
| PSubscribe
| PSlept
| PConnected (b : bool)
| POther.

Definition pace_view (e : event) : pace_event :=
  match e with
  | Ev c a =>
      match c return answer c -> pace_event with
      | ApiConnect => fun _ => PConnect
      | Sleep _ => fun o => if returned o then PSlept else POther
      | ApiConnected => fun b => PConnected b
      | Log DEBUG msg => fun _ =>
          if String.eqb msg "subscribe_and_keep_alive: subscribing" then PSubscribe else POther
      | _ => fun _ => POther
      end a
  end.

(** The monitor's state: whether a sleep ran to its end since the last
    [connect()], whether one did since the last entry into
    [subscribe()], and whether the latest call was a [connected()] that
    answered true. *)
Record pace : Type := mkPace {
  may_connect : bool;
  may_subscribe : bool;
  just_connected : bool
}.

Definition pace_step (q : pace) (e : event) : option pace :=
  match pace_view e with
  | PConnect => if may_connect q then Some (mkPace false (may_subscribe q) false) else None
  | PSubscribe =>
      if may_subscribe q && just_connected q
      then Some (mkPace (may_connect q) false false)
      else None
  | PSlept => Some (mkPace true true false)
  | PConnected b => Some (mkPace (may_connect q) (may_subscribe q) b)
  | POther => Some (mkPace (may_connect q) (may_subscribe q) false)
  end.

Definition rested : pace := mkPace true true false.

Definition is_slept (e : event) : bool :=
  match pace_view e with PSlept => true | _ => false end.

Definition is_subscribe (e : event) : bool :=
  match pace_view e with PSubscribe => true | _ => false end.

Definition keeps_pace (q : pace) : outcome unit -> pace -> Prop :=
  fun _ q' => may_connect q' = may_connect q /\ may_subscribe q' = may_subscribe q.

Definition never_returns (o : outcome unit) (q : pace) : Prop :=
  match o with Ok _ => False | Exc _ => True end.

(** The log line that precedes the awaited [subscribe()] call. *)
Definition subscribing : event := Ev (Log DEBUG "subscribe_and_keep_alive: subscribing") tt.

(** ** Suspended tasks *)

(** The status of a coroutine that is suspended at an awaitable call. *)
Definition waits_awaitable {R : Type} (st : status R) : bool :=
  match st with
  | Waiting c _ => awaitable c
  | _ => false
  end.

(** [st] is the status of the coroutine [p] suspended at one of its
    awaitable calls. *)
Definition suspended_in {R : Type} (p : coro R) (st : status R) : Prop :=
  match st with
  | Waiting c k => point_of p c k /\ awaitable c = true
  | _ => False
  end.

(** [if self._google_api_key:]. *)
Definition key_given (self : Entity) : bool :=
  match _google_api_key self with
  | Some key => truthy_str key
  | None => false
  end.

(** How the supervision task ends when the cancellation is delivered at
    the call [c]: cancelled in the backoff sleep of the [except] clause,
    with a plain return anywhere else. *)
Definition cancel_outcome (c : call) : outcome unit :=
  match c with
  | Sleep seconds =>
      if decide (seconds = ERROR_RETRY_INTERVAL) then Exc CancelledError else Ok tt
  | _ => Ok tt
  end.

(** The tasks [async_added_to_hass] schedules for an entity. *)
Definition scheduled (self : Entity) : list Task :=
  mkTask SubscriptionTask None false
    :: (if key_given self then [mkTask SetupYoutubeApi None false] else []).

(** ** Writes to Home Assistant *)

Definition is_write (e : event) : bool :=
  match ev_call e with WriteHaState => true | _ => false end.

(** The number of [async_write_ha_state()] calls in a trace. *)
Definition writes (tr : list event) : nat := length (List.filter is_write tr).

(** A lookup that brought no record: it raised or returned no item. *)
Definition is_failed_lookup (e : event) : bool :=
  match e with
  | Ev c a =>
      match c return answer c -> bool with
      | VideosList _ => fun o => negb (found o)
      | _ => fun _ => false
      end a
  end.

Definition failed_lookups (tr : list event) : nat :=
  length (List.filter is_failed_lookup tr).

(** A run of the subscription is quiet when it returned without an
    exception or waits for the next event of the channel: every callback
    so far ran to its end. *)
Definition quiet {R : Type} (st : status (outcome R)) : bool :=
  match st with
  | Returned (Ok _) => true
  | Waiting ApiSubscribeNext _ => true
  | _ => false
  end.

(** The metadata record after a snapshot that needs no lookup: kept when
    the snapshot is for the cached video, dropped when there is no
    service or no media id. *)
Definition kept_info (self : Entity) (n : option PlaybackState) : option VideoInfo :=
  match _yt_api self, media_id n with
  | Some _, Some _ => _video_info self
  | _, _ => None
  end.

(** ** Floats below one *)

(** A float that is a number: not an infinity and not a NaN. *)
Definition is_number (x : spec_float) : bool :=
  match x with
  | S754_zero _ | S754_finite _ _ _ => true
  | S754_infinity _ | S754_nan => false
  end.

(** [|x| < 1] for the float [m * 2^e]. *)
Definition below_one (x : spec_float) : bool :=
  match x with
  | S754_zero _ => true
  | S754_finite _ m e => (e <? 0) && (Z.pos m <? 2 ^ (- e))
  | S754_infinity _ | S754_nan => false
  end.

(** [1.0] as a binary64 float. *)
Definition one64 : spec_float := S754_finite false (2 ^ 52) (-52).

Definition reads_null (o : outcome (option Z)) : bool :=
  match o with Ok None => true | _ => false end.

Definition is_off (s : MediaPlayerState) : bool :=
  match s with OFF => true | _ => false end.

(** ** How the supervision task ends *)

Definition exn_of {A : Type} (o : outcome A) : option exn :=
  match o with Ok _ => None | Exc e => Some e end.

(** The exception a recorded call raised, if it raised. *)
Definition raised (e : event) : option exn :=
  match e with
  | Ev c a =>
      match c return answer c -> option exn with
      | ApiConnect | ApiRefreshAuth => exn_of
      | ApiSubscribeNext => exn_of
      | Sleep _ | TaskAwait _ => exn_of
      | Discover => exn_of
      | VideosList _ => exn_of
      | _ => fun _ => None
      end a
  end.

(** The monitor that remembers the latest call. *)
Definition last_step (q : option event) (e : event) : option (option event) := Some (Some e).

(** The latest call raised [CancelledError] and is not the backoff sleep. *)
Definition cancelled_outside_backoff (q : option event) : Prop :=
  exists ev, q = Some ev /\ raised ev = Some CancelledError
             /\ ev_call ev <> Sleep ERROR_RETRY_INTERVAL.

(** What the body of the [try] statement guarantees: a cancellation
    that comes out of it was raised by its latest call. *)
Definition cancelled_by_last {A : Type} (o : outcome A) (q : option event) : Prop :=
  match o with
  | Exc CancelledError => cancelled_outside_backoff q
  | _ => True
  end.

(** ** What a coroutine leaves alone *)

(** Every call the coroutine can make satisfies [P]. *)
Fixpoint all_calls {R : Type} (P : call -> bool) (p : coro R) : Prop :=
  match p with
  | Vis c k => P c = true /\ forall a, all_calls P (k a)
  | _ => True
  end.

(** The calls that leave the handle, the service, the key and the task
    table alone. *)
Definition keeps_handle (c : call) : bool :=
  match c with
  | CreateTask _ | TaskCancel _ => false
  | SetAttr (A_subscription _) | SetAttr (A_yt_api _) => false
  | _ => true
  end.

Definition same_frame (w w' : World) : Prop :=
  _subscription (w_self w') = _subscription (w_self w)
  /\ _yt_api (w_self w') = _yt_api (w_self w)
  /\ _google_api_key (w_self w') = _google_api_key (w_self w)
  /\ w_tasks w' = w_tasks w.

(** One step of an [all_calls] proof. *)
Ltac calls_step bind_tac :=
  match goal with
  | |- all_calls _ (_ ≫= _) => bind_tac
  | |- all_calls _ (coro_bind _ _) => bind_tac
  | |- all_calls _ (match ?x with _ => _ end) => destruct x
  | |- all_calls _ (if ?x then _ else _) => destruct x
  | |- forall _, _ => intro
  | |- _ /\ _ => split
  | _ => done
  | _ => progress cbn
  end.

(** ** Manual reconnect, after the await *)

(** Lines 131-135 of [manual_reconnect]: what follows
    [await self._subscription]. *)
Definition reconnect_tail : M unit :=
  (refreshed ← api_refresh_auth;
   log_debug "manual_reconnect: refresh auth %s";;
   connected ← api_connect;
   log_debug "manual_reconnect: connect %s");;
  t ← create_task SubscriptionTask;
  assign (A_subscription (Some t)).

(** * The integration's entry points and its config flow

    [__init__.py], [config_flow.py], [util.py] and the platform setup
    of [media_player.py].  None of this code loops, so a coroutine is a
    finite tree of calls and a run is total.  The environment is an
    oracle that answers the n-th call; [hass.data] and the flow handler's
    [connect_result] are threaded as state, and exceptions are values of
    a type that keeps the classes the [except] clauses tell apart.  The
    context managers ([async with Aiogoogle(...)], [async with
    YtLoungeApi(...)]) catch nothing and are left out. *)

Module Integration.

(** ** Exceptions *)

Inductive error : Type :=
| Cancelled                          (* asyncio.CancelledError: a BaseException *)
| HTTPError (status : option nat)    (* aiogoogle.excs.HTTPError; [res] may be missing *)
| ClientConnectionError              (* aiohttp: a ClientError *)
| ClientError                        (* aiohttp: any other ClientError *)
| CannotConnect                      (* config_flow.CannotConnect *)
| InvalidAuth                        (* config_flow.InvalidAuth *)
| ConfigEntryAuthFailed (msg : string)
| AbortFlow (reason : string)
| KeyError (key : string)
| AttributeError
| OtherError (name : string).        (* any other subclass of Exception *)

(** [isinstance(e, Exception)]. *)
Definition is_exception (e : error) : bool :=
  match e with Cancelled => false | _ => true end.

Inductive res (A : Type) : Type :=
| Val (a : A)
| Raise (e : error).
Arguments Val {A} a.
Arguments Raise {A} e.

Definition raises {A : Type} (r : res A) : option error :=
  match r with Val _ => None | Raise e => Some e end.

(** ** Data *)

(** [config_flow.ConnectResult]. *)
Record ConnectResult : Type := mkConnectResult {
  screen_name : string;
  screen_id : string;
  auth : string
}.

(** What [get_screen_id_from_dial] finds. *)
Record DialResult : Type := mkDialResult {
  dial_screen_id : string;
  dial_screen_name : string
}.

(** A [YtLoungeApi] object: the name it was created with and the
    authorization it was given. *)
Record Api : Type := mkApi {
  api_device_name : string;
  api_auth : string
}.

Record ConfigEntry : Type := mkConfigEntry {
  entry_id : string;
  entry_data : gmap string string
}.

(** [hass.data]: per domain, the objects of its entries. *)
Abbreviation hass_data := (gmap string (gmap string Api)).

(** [const.DOMAIN]. *)
Definition DOMAIN : string := "youtube_lounge".

(** [util.device_name]. *)
Definition device_name (location_name : string) : string :=
  "Home Assistant " +:+ location_name.

(** The forms of the flow and their schemas. *)
Inductive schema : Type := NoSchema | STEP_PAIR_DATA_SCHEMA | STEP_GOOGLE_API_DATA_SCHEMA.

Inductive FlowResult : Type :=
| ShowForm (step_id : option string) (data_schema : schema) (errors : gmap string string)
           (name : option string)
| Abort (reason : string)
| CreateEntry (title : string) (data : gmap string string).

(** The flow handler's fields. *)
Record ConfigFlow : Type := mkConfigFlow {
  connect_result : option ConnectResult
}.

(** ** Calls *)

(** What the call expression [api.close()] gives.  A plain method has
    run, and closed the client, when the call returns; a coroutine
    function has only built a coroutine object, whose body runs when the
    object is awaited.  The client's class is not part of the
    integration. *)
Inductive close_value : Type :=
| ClosedNow
| CoroutineObject.

Inductive cmd : Type :=
(* the lounge client *)
| ApiPaired
| ApiConnect
| ApiRefreshAuth
| ApiClose
| ApiPair (pairing_code : string)
| ApiPairWithScreenId (id name : string)
| ApiReadResult
(* Home Assistant *)
| ForwardEntrySetups
| UnloadPlatforms
| SetUniqueId (id : string)
| AbortIfUniqueIdConfigured
| LogDebug
| LogInfo
| LogException
(* aiogoogle *)
| GoogleDiscover (api_key : string)
| GoogleAsApiKey
(* DIAL *)
| GetScreenIdFromDial (location : string).

Definition ans (c : cmd) : Type :=
  match c with
  | ApiPaired => bool
  | ApiConnect | ApiRefreshAuth => res bool
  | ApiClose => close_value
  | ApiPair _ | ApiPairWithScreenId _ _ => res bool
  | ApiReadResult => ConnectResult
  | ForwardEntrySetups => res unit
  | UnloadPlatforms => res bool
  | SetUniqueId _ | AbortIfUniqueIdConfigured => res unit
  | LogDebug | LogInfo | LogException => unit
  | GoogleDiscover _ | GoogleAsApiKey => res unit
  | GetScreenIdFromDial _ => res (option DialResult)
  end.

Inductive prog (R : Type) : Type :=
| Done (r : R)
| Ask (c : cmd) (k : ans c -> prog R).
Arguments Done {R} r.
Arguments Ask {R} c k.

Fixpoint prog_bind {A B : Type} (m : prog A) (f : A -> prog B) : prog B :=
  match m with
  | Done a => f a
  | Ask c k => Ask c (fun x => prog_bind (k x) f)
  end.

(** A coroutine over the state [St] that returns an [A] or raises; the
    state it leaves is kept in both cases. *)
Definition F (St A : Type) : Type := St -> prog (res A * St).

Definition F_bind {St A B : Type} (m : F St A) (f : A -> F St B) : F St B :=
  fun st => prog_bind (m st) (fun out =>
    match out.1 with
    | Val a => f a out.2
    | Raise e => Done (Raise e, out.2)
    end).

#[global] Instance F_mret {St : Type} : MRet (F St) := fun A a st => Done (Val a, st).
#[global] Instance F_mbind {St : Type} : MBind (F St) := fun A B f m => F_bind m f.

Definition raise {St A : Type} (e : error) : F St A := fun st => Done (Raise e, st).

(** The body of a [try] statement: its outcome as a value. *)
Definition attempt {St A : Type} (m : F St A) : F St (res A) :=
  fun st => prog_bind (m st) (fun out => Done (Val out.1, out.2)).

Definition ask {St : Type} (c : cmd) : F St (ans c) :=
  fun st => Ask c (fun a => Done (Val a, st)).

(** A call that may raise. *)
Definition await {St A : Type} (m : F St (res A)) : F St A :=
  F_bind m (fun r => match r with Val a => mret a | Raise e => raise e end).

Definition get {St : Type} : F St St := fun st => Done (Val st, st).
Definition put {St : Type} (st : St) : F St unit := fun _ => Done (Val tt, st).

(** ** [__init__.py] *)

(** [hass.data] after [hass.data.setdefault(DOMAIN, {})]. *)
Definition with_domain (data : hass_data) : hass_data :=
  match data !! DOMAIN with
  | Some _ => data
  | None => <[DOMAIN := ∅]> data
  end.

(** [create_entry], the closure of [async_setup_entry]. *)
Definition create_entry (entry : ConfigEntry) (api : Api) : F hass_data unit :=
  data ← get;
  match data !! DOMAIN with
  | None => raise (KeyError DOMAIN)
  | Some apis => put (<[DOMAIN := <[entry_id entry := api]> apis]> data)
  end;;
  await (ask ForwardEntrySetups).

(** [async_setup_entry]. *)
Definition async_setup_entry (location_name : string) (entry : ConfigEntry)
  : F hass_data bool :=
  data ← get;
  put (with_domain data);;
  match entry_data entry !! "auth" with
  | None => raise (KeyError "auth")
  | Some serialized =>
      let api := mkApi (device_name location_name) serialized in
      paired ← ask ApiPaired;
      if negb paired then raise (ConfigEntryAuthFailed "Not paired")
      else
        connected ← await (ask ApiConnect);
        if connected : bool then create_entry entry api;; mret true
        else
          (* try refresh auth first *)
          refreshed ← await (ask ApiRefreshAuth);
          if refreshed : bool then
            connected' ← await (ask ApiConnect);
            if connected' : bool then create_entry entry api;; mret true
            else mret false
          else mret false
  end.

(** [async_unload_entry].  What [api.close()] gives is dropped: the
    statement has no [await]. *)
Definition async_unload_entry (entry : ConfigEntry) : F hass_data bool :=
  unload_ok ← await (ask UnloadPlatforms);
  (if unload_ok : bool then
     data ← get;
     match data !! DOMAIN with
     | None => raise (KeyError DOMAIN)
     | Some apis =>
         match apis !! entry_id entry with
         | None => raise (KeyError (entry_id entry))
         | Some api =>
             put (<[DOMAIN := delete (entry_id entry) apis]> data);;
             _ ← ask ApiClose;  (* line 48: called, not awaited *)
             mret tt
         end
     end
   else mret tt);;
  mret unload_ok.

(** ** [media_player.async_setup_entry]

    The entity the platform adds for an entry; [now] is the reading of
    [utcnow()] in [YtMediaPlayer.__init__]. *)
Definition platform_setup_entry (data : hass_data) (entry : ConfigEntry) (now : datetime)
  : res Entity :=
  match data !! DOMAIN with
  | None => Raise (KeyError DOMAIN)
  | Some apis =>
      match apis !! entry_id entry with
      | None => Raise (KeyError (entry_id entry))
      | Some api => Val (YtMediaPlayer_init (entry_data entry !! "google_api_key") now)
      end
  end.

(** ** [config_flow.py]: the validators *)

(** [ex.res and ex.res.status_code == 400]. *)
Definition bad_request (status : option nat) : bool :=
  match status with
  | Some status_code => Nat.eqb status_code 400
  | None => false
  end.

(** [validate_google_api_key]; the discovery is outside the [try]. *)
Definition validate_google_api_key {St : Type} (api_key : string) : F St unit :=
  if truthy_str api_key then
    await (ask (GoogleDiscover api_key));;
    r ← attempt (await (ask GoogleAsApiKey));
    match r with
    | Val _ => mret tt
    | Raise (HTTPError status) =>
        if bad_request status then raise InvalidAuth else raise CannotConnect
    | Raise e => if is_exception e then raise CannotConnect else raise e
    end
  else mret tt.

(** Lines 81-86 and 105-110: the body of the [try] statement of the two
    pairing validators; [None] is the implicit return when pairing is
    refused. *)
Definition pairing_result {St : Type} (paired : bool) : F St (option ConnectResult) :=
  if paired then result ← ask ApiReadResult; mret (Some result) else mret None.

(** [validate_pairing_code]. *)
Definition validate_pairing_code {St : Type} (pairing_code : string)
  : F St (option ConnectResult) :=
  r ← attempt (paired ← await (ask (ApiPair pairing_code)); pairing_result paired);
  match r with
  | Val result => mret result
  | Raise ClientConnectionError => raise CannotConnect
  | Raise ClientError => raise InvalidAuth
  | Raise e => if is_exception e then raise InvalidAuth else raise e
  end.

(** [validate_screen_id]; its last clause is a bare [except:]. *)
Definition validate_screen_id {St : Type} (id name : string) : F St (option ConnectResult) :=
  r ← attempt (paired ← await (ask (ApiPairWithScreenId id name)); pairing_result paired);
  match r with
  | Val result => mret result
  | Raise ClientConnectionError => raise CannotConnect
  | Raise ClientError => raise InvalidAuth
  | Raise _ => raise InvalidAuth
  end.

(** ** [config_flow.py]: the steps *)

(** [errors = {}; errors["base"] = reason]. *)
Definition base_error (reason : string) : gmap string string := <["base" := reason]> ∅.

(** The three [except] clauses the steps share: the error the form
    shows, or the exception that goes on. *)
Definition step_error (e : error) : F ConfigFlow (gmap string string) :=
  match e with
  | CannotConnect => mret (base_error "cannot_connect")
  | InvalidAuth => mret (base_error "invalid_auth")
  | _ =>
      if is_exception e
      then ask LogException;; mret (base_error "unknown")
      else raise e
  end.

(** The two forms with a schema; [async_step_pair] names no step. *)
Definition pair_form (errors : gmap string string) : FlowResult :=
  ShowForm None STEP_PAIR_DATA_SCHEMA errors None.

Definition key_form (errors : gmap string string) : FlowResult :=
  ShowForm (Some "google_api_key") STEP_GOOGLE_API_DATA_SCHEMA errors None.

(** [self.connect_result.<attribute>]. *)
Definition the_connect_result : F ConfigFlow ConnectResult :=
  self ← get;
  match connect_result self with
  | Some result => mret result
  | None => raise AttributeError
  end.

(** [ConfigFlow.async_step_google_api_key].  The entry's data always
    hold the key: the step gets past the form only with a key in the
    input. *)
Definition async_step_google_api_key (user_input : option (gmap string string))
  : F ConfigFlow FlowResult :=
  match user_input ≫= (.!! "google_api_key") with
  | None => mret (key_form ∅)
  | Some _ =>
      r ← attempt (match user_input ≫= (.!! "google_api_key") with
                   | Some api_key => validate_google_api_key api_key
                   | None => mret tt
                   end);
      match r with
      | Raise e =>
          errors ← step_error e;
          mret (key_form errors)
      | Val _ =>
          result ← the_connect_result;
          mret (CreateEntry (screen_name result)
                  (<["auth" := auth result]>
                     (match user_input ≫= (.!! "google_api_key") with
                      | Some api_key => <["google_api_key" := api_key]> ∅
                      | None => ∅
                      end)))
      end
  end.

(** [ConfigFlow.async_step_confirm_discovery]. *)
Definition async_step_confirm_discovery (user_input : option (gmap string string))
  : F ConfigFlow FlowResult :=
  match user_input with
  | None =>
      result ← the_connect_result;
      mret (ShowForm (Some "confirm_discovery") NoSchema ∅ (Some (screen_name result)))
  | Some _ => async_step_google_api_key None
  end.

(** [ConfigFlow._connect_with_screen_id]; the errors it collects are not
    shown. *)
Definition connect_with_screen_id (id name : string) : F ConfigFlow FlowResult :=
  if negb (truthy_str id) then mret (Abort "Screen id missing")
  else
    await (ask (SetUniqueId id));;
    await (ask AbortIfUniqueIdConfigured);;
    r ← attempt (result ← validate_screen_id id name; put (mkConfigFlow result));
    match r with
    | Raise e => _ ← step_error e; mret (Abort "Screen id failed")
    | Val _ => async_step_confirm_discovery None
    end.

(** [ConfigFlow.async_step_ssdp]. *)
Definition async_step_ssdp (ssdp_location : string) : F ConfigFlow FlowResult :=
  ask LogDebug;;
  dial_result ← await (ask (GetScreenIdFromDial ssdp_location));
  match dial_result with
  | Some found =>
      ask LogInfo;;
      connect_with_screen_id (dial_screen_id found) (dial_screen_name found)
  | None => mret (Abort "Could not find YouTube on DIAL device")
  end.

(** [ConfigFlow.async_step_pair]. *)
Definition async_step_pair (user_input : option (gmap string string))
  : F ConfigFlow FlowResult :=
  match user_input ≫= (.!! "pairing_code") with
  | None => mret (pair_form ∅)
  | Some pairing_code =>
      r ← attempt (result ← validate_pairing_code pairing_code; put (mkConfigFlow result));
      match r with
      | Raise e =>
          errors ← step_error e;
          mret (pair_form errors)
      | Val _ =>
          result ← the_connect_result;
          await (ask (SetUniqueId (screen_id result)));;
          await (ask AbortIfUniqueIdConfigured);;
          async_step_google_api_key user_input
      end
  end.

(** [ConfigFlow.async_step_user]. *)
Definition async_step_user (user_input : option (gmap string string))
  : F ConfigFlow FlowResult :=
  async_step_pair user_input.

(** [ConfigFlow.__init__]. *)
Definition ConfigFlow_init : ConfigFlow := mkConfigFlow None.

(** The steps as the flow manager calls them: by name, with the user's
    input or the discovery. *)
Inductive invocation : Type :=
| StepUser (user_input : option (gmap string string))
| StepPair (user_input : option (gmap string string))
| StepGoogleApiKey (user_input : option (gmap string string))
| StepConfirmDiscovery (user_input : option (gmap string string))
| StepSsdp (ssdp_location : string).

Definition invoke (i : invocation) : F ConfigFlow FlowResult :=
  match i with
  | StepUser user_input => async_step_user user_input
  | StepPair user_input => async_step_pair user_input
  | StepGoogleApiKey user_input => async_step_google_api_key user_input
  | StepConfirmDiscovery user_input => async_step_confirm_discovery user_input
  | StepSsdp ssdp_location => async_step_ssdp ssdp_location
  end.

(** The API key a step is given, if it is given one and uses it. *)
Definition key_of (i : invocation) : option string :=
  match i with
  | StepUser user_input | StepPair user_input | StepGoogleApiKey user_input =>
      user_input ≫= (.!! "google_api_key")
  | StepConfirmDiscovery _ | StepSsdp _ => None
  end.

(** ** Runs *)

(** One call with its answer. *)
Record occ : Type := Occ { occ_cmd : cmd; occ_ans : ans occ_cmd }.

(** The environment: what the n-th call is answered, whatever it is. *)
Definition oracle : Type := nat -> forall c : cmd, ans c.

Fixpoint run {R : Type} (o : oracle) (n : nat) (p : prog R) : list occ * R :=
  match p with
  | Done r => ([], r)
  | Ask c k =>
      let out := run o (S n) (k (o n c)) in
      (Occ c (o n c) :: out.1, out.2)
  end.

(** The calls of a run, what it returned or raised, and the state it
    left. *)
Definition asked {St A : Type} (o : oracle) (m : F St A) (st : St) : list cmd :=
  map occ_cmd (run o 0 (m st)).1.

Definition outcome_of {St A : Type} (o : oracle) (m : F St A) (st : St) : res A :=
  (run o 0 (m st)).2.1.

Definition state_of {St A : Type} (o : oracle) (m : F St A) (st : St) : St :=
  (run o 0 (m st)).2.2.

(** The environment in which everything succeeds. *)
Definition obliging (found : option DialResult) (result : ConnectResult) : forall c : cmd, ans c :=
  fun c =>
    match c return ans c with
    | ApiPaired => true
    | ApiConnect | ApiRefreshAuth => Val true
    | ApiClose => CoroutineObject
    | ApiPair _ | ApiPairWithScreenId _ _ => Val true
    | ApiReadResult => result
    | ForwardEntrySetups => Val tt
    | UnloadPlatforms => Val true
    | SetUniqueId _ | AbortIfUniqueIdConfigured => Val tt
    | LogDebug | LogInfo | LogException => tt
    | GoogleDiscover _ | GoogleAsApiKey => Val tt
    | GetScreenIdFromDial _ => Val found
    end.

(** The exception a recorded call raised, if it raised. *)
Definition failure (x : occ) : option error :=
  match x with
  | Occ c a =>
      match c return ans c -> option error with
      | ApiConnect | ApiRefreshAuth => raises
      | ApiPair _ | ApiPairWithScreenId _ _ => raises
      | ForwardEntrySetups => raises
      | UnloadPlatforms => raises
      | SetUniqueId _ | AbortIfUniqueIdConfigured => raises
      | GoogleDiscover _ | GoogleAsApiKey => raises
      | GetScreenIdFromDial _ => raises
      | _ => fun _ => None
      end a
  end.

(** The exception of the last call of a run. *)
Definition last_failure {R : Type} (out : list occ * R) : option error :=
  last out.1 ≫= failure.

(** What [validate_google_api_key] makes of an exception of the test
    request. *)
Definition request_error (e : error) : error :=
  match e with
  | HTTPError status => if bad_request status then InvalidAuth else CannotConnect
  | Cancelled => Cancelled
  | _ => CannotConnect
  end.

(** What [validate_pairing_code] makes of an exception of the pairing. *)
Definition pairing_error (e : error) : error :=
  match e with
  | ClientConnectionError => CannotConnect
  | Cancelled => Cancelled
  | _ => InvalidAuth
  end.

(** What a step tells the user about an exception of its [try] body:
    the key of the message, or nothing when the exception goes on. *)
Definition reported (e : error) : option string :=
  match e with
  | CannotConnect => Some "cannot_connect"
  | InvalidAuth => Some "invalid_auth"
  | Cancelled => None
  | _ => Some "unknown"
  end.

(** The data of the entry a flow result creates. *)
Definition created (r : res FlowResult) : option (gmap string string) :=
  match r with
  | Val (CreateEntry _ data) => Some data
  | _ => None
  end.

(** [hass.data] with [api] stored for the entry [id]. *)
Definition stored (id : string) (api : Api) (data : hass_data) : hass_data :=
  <[DOMAIN := <[id := api]> (default ∅ (data !! DOMAIN))]> data.

(** [hass.data[DOMAIN].get(id)]. *)
Definition api_of (id : string) (data : hass_data) : option Api :=
  data !! DOMAIN ≫= (.!! id).

(** A call that closed the client: [close()] ran as a plain method.  A
    coroutine object closes nothing unless it is awaited, and the
    integration awaits none. *)
Definition closes (x : occ) : bool :=
  match x with
  | Occ c a =>
      match c return ans c -> bool with
      | ApiClose => fun v => match v with ClosedNow => true | CoroutineObject => false end
      | _ => fun _ => false
      end a
  end.

(** The call sequences of [async_setup_entry]. *)
Definition setup_shapes : list (list cmd) :=
  [ [ApiPaired];
    [ApiPaired; ApiConnect];
    [ApiPaired; ApiConnect; ForwardEntrySetups];
    [ApiPaired; ApiConnect; ApiRefreshAuth];
    [ApiPaired; ApiConnect; ApiRefreshAuth; ApiConnect];
    [ApiPaired; ApiConnect; ApiRefreshAuth; ApiConnect; ForwardEntrySetups] ].

Definition is_network (c : cmd) : bool :=
  match c with
  | GoogleDiscover _ | GoogleAsApiKey | ApiPair _ | ApiPairWithScreenId _ _
  | GetScreenIdFromDial _ | ApiConnect | ApiRefreshAuth => true
  | _ => false
  end.

End Integration.

(** One step of a proof about a run: unfold the monad, then split on an
    answer of the oracle or on a value a branch depends on. *)
Ltac flow_cbn :=
  repeat (progress
    (unfold mbind, mret, Integration.F_mbind, Integration.F_mret, Integration.F_bind,
       Integration.get, Integration.put, Integration.ask, Integration.await,
       Integration.raise, Integration.attempt;
     cbn [Integration.prog_bind Integration.run Integration.connect_result
          fst snd negb map Integration.occ_cmd])).

Ltac flow_case :=
  match goal with
  | |- context [if ?x then _ else _] => is_var x; destruct x
  | |- context [match ?x with _ => _ end] => is_var x; destruct x
  | |- context [?f ?n ?c] =>
      lazymatch type of f with
      | Integration.oracle => let H := fresh "Hans" in destruct (f n c) eqn:H
      end
  end.

Ltac flow_crunch tac := repeat (flow_cbn; try tac; try flow_case).

Ltac elem_of_list := repeat first [apply list_elem_of_here | apply list_elem_of_further].

(** * Properties *)

(** ** The facade *)

Section FacadeFacts.
Import Facade.

Lemma state_depends_on_snapshot (self : Entity) (v : option PlaybackState) :
  _state (set_state v self) = v.
Proof. reflexivity. Qed.

Lemma set_state_same (self : Entity) : set_state (_state self) self = self.
Proof. by destruct self. Qed.

Lemma int_zero (neg : bool) : Py.int (S754_zero neg) = Ok 0.
Proof. reflexivity. Qed.

Example int_truncates :
  Py.int (S754_finite false 11 (-1)) = Ok 5 /\ Py.int (S754_finite true 11 (-1)) = Ok (-5)
  /\ Py.int (S754_finite false 1 (-1)) = Ok 0.
Proof. by vm_compute. Qed.
End FacadeFacts.

(** C7: a null snapshot is shown as OFF and an explicit Stopped snapshot
    as ON, which is another state; Playing, Starting, Buffering and
    Advertisement are shown as PLAYING and Paused as PAUSED. *)
Theorem state_null_is_not_stopped
    (self : Entity) (vid : option string) (pos dur : spec_float) :
  let shows s := Facade.state (set_state (Some (mkPlaybackState s vid pos dur)) self) in
  Facade.state (set_state None self) = OFF
  /\ shows Stopped = ON
  /\ shows Stopped <> Facade.state (set_state None self)
  /\ shows Playing = PLAYING /\ shows Starting = PLAYING
  /\ shows Buffering = PLAYING /\ shows Advertisement = PLAYING
  /\ shows Paused = PAUSED.
Proof. cbn. repeat split; done. Qed.

(** C9: a position of exactly 0.0 is reported as null and not as 0, and
    so is a duration of 0.0; an empty title and an empty channel name are
    reported as null. *)
Theorem zero_and_empty_read_as_null
    (self : Entity) (s : YtState) (vid : option string) (other : spec_float)
    (neg : bool) (id : option string) (text1 text2 : string) :
  Facade.media_position
    (set_state (Some (mkPlaybackState s vid (S754_zero neg) other)) self) = Ok None
  /\ Facade.media_duration
       (set_state (Some (mkPlaybackState s vid other (S754_zero neg))) self) = Ok None
  /\ Facade.media_title
       (set_video_info (Some (mkVideoInfo id "" text1 text2)) self) = None
  /\ Facade.media_channel
       (set_video_info (Some (mkVideoInfo id text1 text2 "")) self) = None.
Proof. repeat split. Qed.

(** ** Runs *)

Section ExecFacts.
Context {R : Type}.

Lemma prepend_nil (r : Result R) : prepend [] r = r.
Proof. by destruct r. Qed.

Lemma prepend_prepend (t1 t2 : list event) (r : Result R) :
  prepend t1 (prepend t2 r) = prepend (t1 ++ t2) r.
Proof. unfold prepend; simpl. by rewrite app_assoc. Qed.

Lemma emit_prepend (c : call) (a : answer c) (r : Result R) :
  emit c a r = prepend (if traced c then [Ev c a] else []) r.
Proof. unfold emit. destruct (traced c); [done|by rewrite prepend_nil]. Qed.
End ExecFacts.

Lemma then_run_prepend {A B} (f : A -> coro B) (tr : list event) (r : Result A) :
  then_run f (prepend tr r) = prepend tr (then_run f r).
Proof.
  unfold then_run; simpl. destruct (r_status r); simpl; try done.
  by rewrite prepend_prepend.
Qed.

(** Running [m] followed by [f] is running [m] and going on with [f]. *)
Lemma exec_coro_bind {A B} (m : coro A) (f : A -> coro B) w s :
  exec w (coro_bind m f) s = then_run f (exec w m s).
Proof.
  revert w s. induction m as [a|c k IH|]; intros w s; simpl.
  - unfold then_run; simpl. by rewrite prepend_nil.
  - destruct (internal c w) as [a w'| |].
    + rewrite IH, !emit_prepend. by rewrite then_run_prepend.
    + done.
    + destruct s as [|r s']; [done|]. destruct (decode c r) as [a|]; [|done].
      rewrite IH, !emit_prepend. by rewrite then_run_prepend.
  - done.
Qed.

(** ** Monitors *)

Section MonitorFacts.
Context {St : Type} (step : St -> event -> option St).

Lemma monitor_app (q q' : St) (t1 t2 : list event) :
  monitor step q (t1 ++ t2) = Some q' ->
  exists q1, monitor step q t1 = Some q1 /\ monitor step q1 t2 = Some q'.
Proof.
  revert q. induction t1 as [|e t1 IH]; simpl; intros q H; [by exists q|].
  destruct (step q e) as [q1|]; [by apply IH|done].
Qed.

Lemma wp_mono {R} (p : coro R) (Q Q' : R -> St -> Prop) q :
  (forall r q', Q r q' -> Q' r q') -> wp step p Q q -> wp step p Q' q.
Proof.
  intros HQ. revert q. induction p as [r|c k IH|]; simpl; intros q H; auto.
  intros a. specialize (H a). destruct (traced c); [|by apply IH].
  destruct (step q (Ev c a)); [by apply IH|done].
Qed.

Lemma wp_coro_bind {A B} (m : coro A) (f : A -> coro B) (Q : B -> St -> Prop) q :
  wp step m (fun a q' => wp step (f a) Q q') q -> wp step (coro_bind m f) Q q.
Proof.
  revert q. induction m as [r|c k IH|]; simpl; intros q H; auto.
  intros a. specialize (H a). destruct (traced c); [|by apply IH].
  destruct (step q (Ev c a)); [by apply IH|done].
Qed.

(** What [wp] promises holds of every run, whatever the script. *)
Lemma wp_exec {R} (p : coro R) (Q : R -> St -> Prop) q :
  wp step p Q q ->
  forall w s, exists q',
    monitor step q (r_trace (exec w p s)) = Some q'
    /\ forall x, r_status (exec w p s) = Returned x -> Q x q'.
Proof.
  revert q. induction p as [r|c k IH|]; simpl; intros q H w s.
  - exists q. split; [done|]. by intros x [= <-].
  - destruct (internal c w) as [a w'| |] eqn:Hi.
    + specialize (H a). unfold emit. destruct (traced c) eqn:Ht; simpl.
      * destruct (step q (Ev c a)) as [q1|]; [|done]. by apply IH.
      * by apply IH.
    + exists q. by split.
    + destruct s as [|r s']; [exists q; by split|].
      destruct (decode c r) as [a|]; [|exists q; by split].
      specialize (H a). unfold emit. destruct (traced c) eqn:Ht; simpl.
      * destruct (step q (Ev c a)) as [q1|]; [|done]. by apply IH.
      * by apply IH.
  - exists q. by split.
Qed.



End MonitorFacts.

(** ** The reconnect sub-loop and the credential *)

Lemma wp_reconnect_pass :
  wp refresh_step reconnect_pass
     (fun o q => match o with Ok _ => q = Free | Exc _ => True end) Free.
Proof.
  unfold reconnect_pass, new_state, update_video_snippet. cbn.
  repeat (wp_step ltac:(apply wp_coro_bind)).
Qed.

Lemma wp_reconnect_loop fuel :
  wp refresh_step (reconnect_loop fuel)
     (fun o q => match o with Ok _ => q = Free | Exc _ => True end) Free.
Proof.
  induction fuel as [|n IH]; [done|].
  cbn -[reconnect_pass]. intros [|]; cbn -[reconnect_pass]; [done|].
  apply wp_coro_bind. eapply wp_mono; [|apply wp_reconnect_pass].
  intros [[]|e] q; cbn; [intros ->; exact IH|done].
Qed.

Lemma view_connect (e : event) (ok : bool) : view e = EConnect ok -> is_connect e = true.
Proof. unfold is_connect. by intros ->. Qed.

Lemma view_refresh (e : event) (ok : bool) :
  view e = ERefreshAuth ok -> ev_call e = ApiRefreshAuth.
Proof. destruct e as [c a]; destruct c; simpl; congruence. Qed.

(** C2: in every run of the reconnect sub-loop, between a [linked()]
    check and the next [connect()] attempt there is exactly one
    [refresh_auth()] call when [linked()] answered false, and no call at
    all when it answered true. *)
Theorem refresh_auth_iff_not_linked
    (fuel : nat) (w : World) (s : list reply)
    (pre mid post : list event) (linked : bool) (o : outcome bool) :
  r_trace (exec w (reconnect_loop fuel) s)
    = pre ++ Ev ApiLinked linked :: mid ++ Ev ApiConnect o :: post ->
  existsb is_connect mid = false ->
  calls mid = if linked then [] else [ApiRefreshAuth].
Proof.
  intros Htr Hmid.
  destruct (wp_exec refresh_step _ _ _ (wp_reconnect_loop fuel) w s) as (q' & Hmon & _).
  rewrite Htr in Hmon. apply monitor_app in Hmon as (q1 & _ & Hmon).
  destruct q1 as [|[]| |]; simpl in Hmon; try done.
  destruct linked.
  - destruct mid as [|e mid]; [done|]. simpl in Hmon, Hmid.
    destruct (view e) eqn:Hv; try done.
    by rewrite (view_connect _ _ Hv) in Hmid.
  - destruct mid as [|e mid]; [done|]. simpl in Hmon.
    destruct (view e) eqn:Hv; try done.
    simpl. rewrite (view_refresh _ _ Hv). f_equal.
    destruct mid as [|e' mid]; [done|]. simpl in Hmon, Hmid.
    apply orb_false_elim in Hmid as [_ Hmid]. apply orb_false_elim in Hmid as [He' _].
    destruct ok; simpl in Hmon; [|done].
    destruct (view e') eqn:Hv'; try done.
    by rewrite (view_connect _ _ Hv') in He'.
Qed.

Lemma refresh_auth_iff_not_linked_witness :
  calls [Ev ApiRefreshAuth (Ok true)] = [ApiRefreshAuth].
Proof.
  apply (refresh_auth_iff_not_linked 3 (world0 Sample.player) Sample.two_passes
           [Ev ApiConnected false;
            Ev (Log DEBUG "subscribe_and_keep_alive: reconnecting") tt;
            Ev UtcNow 1; Ev WriteHaState tt; Ev (Sleep 10) (Ok tt);
            Ev ApiLinked true; Ev ApiConnect (Ok false);
            Ev ApiConnected false;
            Ev (Log DEBUG "subscribe_and_keep_alive: reconnecting") tt;
            Ev UtcNow 2; Ev WriteHaState tt; Ev (Sleep 10) (Ok tt)]
           [Ev ApiRefreshAuth (Ok true)]
           [Ev ApiConnected true]
           false (Ok true)).
  - reflexivity.
  - reflexivity.
Defined.

(** ** The reconnect sub-loop, pass by pass *)

Lemma reconnect_loop_pass (fuel : nat) (w : World) (t : datetime)
    (linked refreshed connect : bool) (rest : list reply) :
  exec w (reconnect_loop (S fuel)) (Sample.pass_replies t linked refreshed connect ++ rest)
  = prepend (Sample.pass_trace t linked refreshed connect)
            (exec (cleared t w) (reconnect_loop fuel) rest).
Proof.
  destruct w as [[key [api|] tm st vi sub] tasks]; destruct linked; reflexivity.
Qed.

(** The pass clears the cache before it writes the state, and writes
    it before it sleeps: the cache is cleared already while the write is
    pending, and while the 10 second sleep is awaited. *)
Lemma reconnect_pass_clears_before_sleep (fuel : nat) (w : World) (t : datetime) :
  (exists k,
     exec w (reconnect_loop (S fuel)) [RBool false; RUnit; RTime t]
     = mkResult [Ev ApiConnected false;
                 Ev (Log DEBUG "subscribe_and_keep_alive: reconnecting") tt;
                 Ev UtcNow t]
                (cleared t w) (Waiting WriteHaState k) [])
  /\ (exists k,
        exec w (reconnect_loop (S fuel)) [RBool false; RUnit; RTime t; RUnit]
        = mkResult [Ev ApiConnected false;
                    Ev (Log DEBUG "subscribe_and_keep_alive: reconnecting") tt;
                    Ev UtcNow t; Ev WriteHaState tt]
                   (cleared t w) (Waiting (Sleep CONNECT_RETRY_INTERVAL) k) []).
Proof. destruct w as [[key [api|] tm st vi sub] tasks]; split; by eexists. Qed.

Lemma reconnect_loop_exit (fuel : nat) (w : World) (rest : list reply) :
  exec w (reconnect_loop (S fuel)) (RBool true :: rest)
  = mkResult [Ev ApiConnected true] w (Returned (Ok tt)) rest.
Proof. reflexivity. Qed.

Lemma wp_history_pass (q : list event) :
  wp history_step reconnect_pass
     (fun o q' => match o with
                  | Ok _ => exists b rest, q' = Ev ApiConnect (Ok b) :: rest
                  | Exc _ => True
                  end) q.
Proof.
  unfold reconnect_pass, new_state, update_video_snippet. cbn.
  repeat first [wp_step ltac:(apply wp_coro_bind) | by eexists _, _].
Qed.

Lemma wp_history_loop (fuel : nat) (q : list event) :
  wp history_step (reconnect_loop fuel)
     (fun o q' => match o with
                  | Ok _ => q' = Ev ApiConnected true :: q
                            \/ exists b rest,
                                 q' = Ev ApiConnected true :: Ev ApiConnect (Ok b) :: rest
                  | Exc _ => True
                  end) q.
Proof.
  revert q. induction fuel as [|n IH]; intros q; [done|].
  cbn -[reconnect_pass]. intros [|]; cbn -[reconnect_pass]; [by left|].
  apply wp_coro_bind. eapply wp_mono; [|apply wp_history_pass].
  intros [[]|e] q'; cbn; [|done]. intros (b & rest & ->).
  eapply wp_mono; [|apply IH]. intros [[]|e] q'; [|done].
  intros [->|(b' & rest' & ->)]; right; eauto.
Qed.

Lemma monitor_history (q : list event) (tr : list event) :
  monitor history_step q tr = Some (rev tr ++ q).
Proof.
  revert q. induction tr as [|e tr IH]; intros q; simpl; [done|].
  rewrite IH. by rewrite <- app_assoc.
Qed.

Lemma steady_state_S (n : nat) :
  steady_state (S n)
  = (reconnect_loop n;;
     log_debug "subscribe_and_keep_alive: subscribing";;
     api_subscribe n new_state;;
     sleep SUBSCRIBE_RETRY_INTERVAL;;
     steady_state n).
Proof. reflexivity. Qed.


Lemma exec_bind {A B} (m : M A) (f : A -> M B) w s :
  exec w (m ≫= f) s
  = then_run (fun o => match o with Ok a => f a | Exc e => Ret (Exc e) end) (exec w m s).
Proof. apply exec_coro_bind. Qed.

Lemma exec_bind_ok {A B} (m : M A) (f : A -> M B) w s a :
  r_status (exec w m s) = Returned (Ok a) ->
  exec w (m ≫= f) s
  = prepend (r_trace (exec w m s)) (exec (r_world (exec w m s)) (f a) (r_rest (exec w m s))).
Proof. intros H. rewrite exec_bind. unfold then_run. by rewrite H. Qed.

Lemma exec_bind_exc {A B} (m : M A) (f : A -> M B) w s e :
  r_status (exec w m s) = Returned (Exc e) ->
  exec w (m ≫= f) s
  = mkResult (r_trace (exec w m s)) (r_world (exec w m s)) (Returned (Exc e))
             (r_rest (exec w m s)).
Proof. intros H. rewrite exec_bind. unfold then_run. rewrite H. unfold prepend; simpl. by rewrite app_nil_r. Qed.

Lemma reconnect_loop_first (n : nat) (w : World) (c : bool) (rest : list reply) :
  exists r, exec w (reconnect_loop (S n)) (RBool c :: rest) = prepend [Ev ApiConnected c] r.
Proof. eexists. cbn [reconnect_loop]. unfold api_connected, invoke.
  cbn [mbind M_mbind M_bind coro_bind exec internal decode]. by rewrite emit_prepend. Qed.

Lemma steady_state_resubscribes (m : nat) (w : World) (s rest : list reply) (c : bool) :
  let r1 := exec w (api_subscribe (S (S m)) new_state) s in
  r_status r1 = Returned (Ok tt) ->
  r_rest r1 = RUnit :: RBool c :: rest ->
  exists r2,
    exec w (steady_state (S (S (S m)))) (RBool true :: RUnit :: s)
    = prepend ([Ev ApiConnected true;
                Ev (Log DEBUG "subscribe_and_keep_alive: subscribing") tt]
               ++ r_trace r1
               ++ [Ev (Sleep SUBSCRIBE_RETRY_INTERVAL) (Ok tt); Ev ApiConnected c]) r2.
Proof.
  intros r1 Hst Hrest. rewrite steady_state_S.
  rewrite exec_bind, reconnect_loop_exit. unfold then_run at 1.
  cbn [r_status r_trace r_world r_rest].
  rewrite (exec_bind_ok (log_debug _) _ _ _ tt) by reflexivity.
  cbn [log_debug invoke exec internal decode emit traced r_trace r_world r_rest].
  rewrite prepend_prepend.
  rewrite (exec_bind_ok _ _ _ _ tt) by exact Hst. fold r1. rewrite Hrest, prepend_prepend.
  rewrite (exec_bind_ok (sleep _) _ _ _ tt) by reflexivity.
  cbn [sleep exec internal decode emit traced r_trace r_world r_rest].
  rewrite prepend_prepend, steady_state_S, exec_bind.
  destruct (reconnect_loop_first m (r_world r1) c rest) as [r ->].
  rewrite then_run_prepend, prepend_prepend.
  eexists. f_equal. by rewrite <- !app_assoc.
Qed.

Example scenario_B :
  r_trace (exec (world0 Sample.player) (subscribe_and_keep_alive 5) Sample.connect_fails_thrice)
  = [Ev ApiConnected false; Ev ApiConnect (Ok false)]
    ++ Sample.pass_trace 1 true true false
    ++ Sample.pass_trace 2 true true false
    ++ Sample.pass_trace 3 true true true
    ++ [Ev ApiConnected true;
        Ev (Log DEBUG "subscribe_and_keep_alive: subscribing") tt;
        Ev ApiSubscribeNext (Ok Closed);
        Ev (Sleep SUBSCRIBE_RETRY_INTERVAL) (Ok tt);
        Ev ApiConnected true].
Proof. reflexivity. Qed.

(** C8: a pass of the reconnect sub-loop publishes the null snapshot,
    sleeps 10 seconds, refreshes the credential when not linked and
    attempts to connect, in this order, and then evaluates [connected()]
    again; the sub-loop is left when [connected()] is true, and whenever
    it returns this is how it was left, right after a [connect()] that
    returned unless it was the first check; when [subscribe] returns the
    supervisor sleeps 1 second and evaluates [connected()] again; with
    three failed [connect()] attempts and a fourth that succeeds, a
    10 second sleep precedes every attempt after the first.  The null
    snapshot is in the cache before the pass writes the state, and the
    state is written before the pass sleeps. *)
Theorem reconnect_pass_order_and_exit
    (fuel : nat) (w : World) (s s' rest : list reply) (t : datetime)
    (linked refreshed connect c : bool) :
  exec w (reconnect_loop (S fuel)) (Sample.pass_replies t linked refreshed connect ++ rest)
    = prepend (Sample.pass_trace t linked refreshed connect)
              (exec (cleared t w) (reconnect_loop fuel) rest)
  /\ exec w (reconnect_loop (S fuel)) (RBool true :: rest)
     = mkResult [Ev ApiConnected true] w (Returned (Ok tt)) rest
  /\ (r_status (exec w (reconnect_loop fuel) s) = Returned (Ok tt) ->
      exists tr,
        r_trace (exec w (reconnect_loop fuel) s) = tr ++ [Ev ApiConnected true]
        /\ (tr = [] \/ exists tr' b, tr = tr' ++ [Ev ApiConnect (Ok b)]))
  /\ (r_status (exec w (api_subscribe (S (S fuel)) new_state) s') = Returned (Ok tt) ->
      r_rest (exec w (api_subscribe (S (S fuel)) new_state) s') = RUnit :: RBool c :: rest ->
      exists r,
        exec w (steady_state (S (S (S fuel)))) (RBool true :: RUnit :: s')
        = prepend ([Ev ApiConnected true;
                    Ev (Log DEBUG "subscribe_and_keep_alive: subscribing") tt]
                   ++ r_trace (exec w (api_subscribe (S (S fuel)) new_state) s')
                   ++ [Ev (Sleep SUBSCRIBE_RETRY_INTERVAL) (Ok tt); Ev ApiConnected c]) r)
  /\ r_trace (exec (world0 Sample.player) (subscribe_and_keep_alive 5)
                   Sample.connect_fails_thrice)
     = [Ev ApiConnected false; Ev ApiConnect (Ok false)]
       ++ Sample.pass_trace 1 true true false
       ++ Sample.pass_trace 2 true true false
       ++ Sample.pass_trace 3 true true true
       ++ [Ev ApiConnected true;
           Ev (Log DEBUG "subscribe_and_keep_alive: subscribing") tt;
           Ev ApiSubscribeNext (Ok Closed);
           Ev (Sleep SUBSCRIBE_RETRY_INTERVAL) (Ok tt);
           Ev ApiConnected true]
  /\ (exists k,
        exec w (reconnect_loop (S fuel)) [RBool false; RUnit; RTime t]
        = mkResult [Ev ApiConnected false;
                    Ev (Log DEBUG "subscribe_and_keep_alive: reconnecting") tt;
                    Ev UtcNow t]
                   (cleared t w) (Waiting WriteHaState k) [])
  /\ (exists k,
        exec w (reconnect_loop (S fuel)) [RBool false; RUnit; RTime t; RUnit]
        = mkResult [Ev ApiConnected false;
                    Ev (Log DEBUG "subscribe_and_keep_alive: reconnecting") tt;
                    Ev UtcNow t; Ev WriteHaState tt]
                   (cleared t w) (Waiting (Sleep CONNECT_RETRY_INTERVAL) k) []).
Proof.
  split; [apply reconnect_loop_pass|].
  split; [apply reconnect_loop_exit|].
  split; [|split; [apply steady_state_resubscribes|
                   split; [apply scenario_B|apply reconnect_pass_clears_before_sleep]]].
  intros Hst.
  destruct (wp_exec history_step _ _ _ (wp_history_loop fuel []) w s) as (q' & Hmon & Hq).
  specialize (Hq _ Hst). rewrite monitor_history, app_nil_r in Hmon.
  injection Hmon as Hrev.
  assert (Htr : r_trace (exec w (reconnect_loop fuel) s) = rev q')
    by (by rewrite <- Hrev, rev_involutive).
  rewrite Htr. destruct Hq as [->|(b & hist & ->)]; simpl.
  - exists []. split; [done|by left].
  - exists (rev hist ++ [Ev ApiConnect (Ok b)]). split; [done|]. right. by eexists _, _.
Qed.

Lemma reconnect_pass_order_and_exit_witness :
  (exists tr,
     r_trace (exec (world0 Sample.player) (reconnect_loop 3) Sample.two_passes)
       = tr ++ [Ev ApiConnected true]
     /\ (tr = [] \/ exists tr' b, tr = tr' ++ [Ev ApiConnect (Ok b)]))
  /\ (exists r,
        exec (world0 Sample.player) (steady_state 5)
             (RBool true :: RUnit :: [RChannel Closed; RUnit; RBool true])
        = prepend ([Ev ApiConnected true;
                    Ev (Log DEBUG "subscribe_and_keep_alive: subscribing") tt]
                   ++ r_trace (exec (world0 Sample.player) (api_subscribe 4 new_state)
                                    [RChannel Closed; RUnit; RBool true])
                   ++ [Ev (Sleep SUBSCRIBE_RETRY_INTERVAL) (Ok tt); Ev ApiConnected true]) r).
Proof.
  destruct (reconnect_pass_order_and_exit 3 (world0 Sample.player) Sample.two_passes
              [RChannel Closed; RUnit; RBool true] [] 0 true true true true)
    as (_ & _ & Hexit & _).
  destruct (reconnect_pass_order_and_exit 2 (world0 Sample.player) []
              [RChannel Closed; RUnit; RBool true] [] 0 true true true true)
    as (_ & _ & _ & Hsub & _).
  split; [apply Hexit; reflexivity|apply Hsub; reflexivity].
Defined.

(** ** The supervision task *)

Lemma exec_try_except_exc {A} (body : M A) (h : exn -> M A) w s e :
  r_status (exec w body s) = Returned (Exc e) ->
  exec w (try_except body h) s
  = prepend (r_trace (exec w body s))
            (exec (r_world (exec w body s)) (h e) (r_rest (exec w body s))).
Proof. intros H. unfold try_except. rewrite exec_coro_bind. unfold then_run. by rewrite H. Qed.

Lemma subscription_task_S (n : nat) :
  subscription_task (S n)
  = (leave ← try_except (supervised n) on_error;
     if leave : bool then mret tt else subscription_task n).
Proof. reflexivity. Qed.

Lemma exec_supervised_exc (n : nat) (w : World) (s : list reply) (e : exn) :
  r_status (exec w (subscribe_and_keep_alive n) s) = Returned (Exc e) ->
  exec w (supervised n) (RUnit :: s)
  = mkResult (Ev (Log DEBUG "Starting subscribe and keep alive") tt
                :: r_trace (exec w (subscribe_and_keep_alive n) s))
             (r_world (exec w (subscribe_and_keep_alive n) s))
             (Returned (Exc e))
             (r_rest (exec w (subscribe_and_keep_alive n) s)).
Proof.
  intros H. unfold supervised.
  rewrite (exec_bind_ok (log_debug _) _ _ _ tt) by reflexivity.
  cbn [log_debug invoke exec internal decode emit traced r_trace r_world r_rest].
  by rewrite (exec_bind_exc _ _ _ _ e) by exact H.
Qed.

Lemma task_exits_on_cancellation (n : nat) (w : World) (s : list reply) :
  r_status (exec w (subscribe_and_keep_alive n) s) = Returned (Exc CancelledError) ->
  exec w (subscription_task (S n)) (RUnit :: s)
  = mkResult (Ev (Log DEBUG "Starting subscribe and keep alive") tt
                :: r_trace (exec w (subscribe_and_keep_alive n) s))
             (r_world (exec w (subscribe_and_keep_alive n) s))
             (Returned (Ok tt))
             (r_rest (exec w (subscribe_and_keep_alive n) s)).
Proof.
  intros H. rewrite subscription_task_S.
  pose proof (exec_supervised_exc n w s _ H) as Hs.
  rewrite (exec_bind_ok _ _ _ _ true).
  - rewrite exec_try_except_exc with (e := CancelledError) by (by rewrite Hs).
    rewrite Hs. unfold prepend; simpl. by rewrite !app_nil_r.
  - rewrite exec_try_except_exc with (e := CancelledError) by (by rewrite Hs).
    by rewrite Hs.
Qed.

Lemma task_restarts_on_error (n : nat) (w : World) (s rest : list reply) (name : string) :
  r_status (exec w (subscribe_and_keep_alive n) s) = Returned (Exc (Exception name)) ->
  r_rest (exec w (subscribe_and_keep_alive n) s) = RUnit :: RUnit :: rest ->
  exec w (subscription_task (S n)) (RUnit :: s)
  = prepend (Ev (Log DEBUG "Starting subscribe and keep alive") tt
               :: r_trace (exec w (subscribe_and_keep_alive n) s)
               ++ [Ev (Log ERROR "Subscribe and keep alive encountered error, waiting %.0f seconds") tt;
                   Ev (Sleep ERROR_RETRY_INTERVAL) (Ok tt)])
            (exec (r_world (exec w (subscribe_and_keep_alive n) s)) (subscription_task n) rest).
Proof.
  intros H Hrest. rewrite subscription_task_S.
  pose proof (exec_supervised_exc n w s _ H) as Hs.
  assert (Htry : exec w (try_except (supervised n) on_error) (RUnit :: s)
    = mkResult (Ev (Log DEBUG "Starting subscribe and keep alive") tt
                  :: r_trace (exec w (subscribe_and_keep_alive n) s)
                  ++ [Ev (Log ERROR "Subscribe and keep alive encountered error, waiting %.0f seconds") tt;
                      Ev (Sleep ERROR_RETRY_INTERVAL) (Ok tt)])
               (r_world (exec w (subscribe_and_keep_alive n) s))
               (Returned (Ok false)) rest).
  { rewrite exec_try_except_exc with (e := Exception name) by (by rewrite Hs).
    rewrite Hs. cbn [r_trace r_world r_rest]. rewrite Hrest. reflexivity. }
  rewrite (exec_bind_ok _ _ _ _ false) by (by rewrite Htry).
  by rewrite Htry.
Qed.

Lemma task_backs_off (n : nat) (w : World) (s : list reply) (name : string) :
  r_status (exec w (subscribe_and_keep_alive n) s) = Returned (Exc (Exception name)) ->
  r_rest (exec w (subscribe_and_keep_alive n) s) = [RUnit] ->
  r_world (exec w (subscription_task (S n)) (RUnit :: s))
    = r_world (exec w (subscribe_and_keep_alive n) s)
  /\ exists k, r_status (exec w (subscription_task (S n)) (RUnit :: s))
               = Waiting (Sleep ERROR_RETRY_INTERVAL) k.
Proof.
  intros H Hrest. rewrite subscription_task_S.
  pose proof (exec_supervised_exc n w s _ H) as Hs.
  rewrite exec_bind.
  rewrite exec_try_except_exc with (e := Exception name) by (by rewrite Hs).
  rewrite Hs. cbn [r_trace r_world r_rest]. rewrite Hrest.
  split; [reflexivity|]. by eexists.
Qed.

Lemma task_restarts_at_connect_phase (m : nat) (w : World) (c : bool) (rest : list reply) :
  exists r, exec w (subscription_task (S m)) (RUnit :: RBool c :: rest)
            = prepend [Ev (Log DEBUG "Starting subscribe and keep alive") tt;
                       Ev ApiConnected c] r.
Proof.
  rewrite subscription_task_S. rewrite exec_bind. unfold try_except.
  rewrite exec_coro_bind. unfold supervised.
  rewrite (exec_bind_ok (log_debug _) _ _ _ tt) by reflexivity.
  cbn [log_debug invoke exec internal decode emit traced r_trace r_world r_rest].
  rewrite exec_bind. unfold subscribe_and_keep_alive.
  rewrite (exec_bind_ok api_connected _ _ _ c) by reflexivity.
  cbn [api_connected invoke exec internal decode emit traced r_trace r_world r_rest].
  rewrite !then_run_prepend, !prepend_prepend. by eexists.
Qed.

Lemma failing_round_restarts (m : nat) (w : World) (name : string) (rest : list reply) :
  exec w (subscription_task (S (S (S m)))) (Sample.failing_round name ++ rest)
  = prepend (Sample.failing_round_trace name) (exec w (subscription_task (S (S m))) rest).
Proof.
  change (Sample.failing_round name ++ rest)
    with (RUnit :: [RBool true; RBool true; RUnit; RRaise (Exception name)]
                     ++ RUnit :: RUnit :: rest).
  rewrite (task_restarts_on_error _ _ _ rest name); by destruct w.
Qed.

Lemma retries_without_bound (k m : nat) (w : World) (name : string) (rest : list reply) :
  exec w (subscription_task (k + S (S m))) (Sample.times k (Sample.failing_round name) ++ rest)
  = prepend (Sample.times k (Sample.failing_round_trace name))
            (exec w (subscription_task (S (S m))) rest).
Proof.
  induction k as [|k IH]; [by rewrite prepend_nil|].
  cbn [Sample.times]. rewrite <- app_assoc.
  replace (S k + S (S m))%nat with (S (S (S (k + m)))) by lia.
  rewrite failing_round_restarts.
  replace (S (S (k + m))) with (k + S (S m))%nat by lia.
  by rewrite IH, prepend_prepend.
Qed.

(** C3, as the claim states it, fails: the channel raises while a video
    is playing and the connection stays up; the supervisor logs, sleeps
    30 seconds and subscribes again, and from the exception on the
    observable state is PLAYING throughout, never off. *)
Lemma error_leaves_state_playing :
  let run k := exec (world0 Sample.player) (subscription_task 4)
                    (take k Sample.error_while_playing) in
  calls (r_trace (run 14%nat))
  = [Log DEBUG "Starting subscribe and keep alive"; ApiConnected; ApiConnected;
     Log DEBUG "subscribe_and_keep_alive: subscribing";
     ApiSubscribeNext; UtcNow; WriteHaState; ApiSubscribeNext;
     Log ERROR "Subscribe and keep alive encountered error, waiting %.0f seconds";
     Sleep 30;
     Log DEBUG "Starting subscribe and keep alive"; ApiConnected; ApiConnected;
     Log DEBUG "subscribe_and_keep_alive: subscribing"]
  /\ map (fun k => Facade.state (w_self (r_world (run k)))) (seq 8 7)
     = replicate 7 PLAYING.
Proof. split; reflexivity. Qed.

(** C3, amended: when the inner loop raises a cancellation the task
    returns at once, without backoff and without restart; when it raises
    another exception the supervisor logs it, sleeps 30 seconds and runs
    the inner loop again from its connect phase, and it does so however
    often the inner loop fails; the error handling leaves the entity, and
    so its observable state, as the failure left it. *)
Theorem supervision_task_outcomes
    (n k : nat) (w : World) (s rest : list reply) (name : string) (c : bool) :
  (r_status (exec w (subscribe_and_keep_alive n) s) = Returned (Exc CancelledError) ->
   exec w (subscription_task (S n)) (RUnit :: s)
   = mkResult (Ev (Log DEBUG "Starting subscribe and keep alive") tt
                 :: r_trace (exec w (subscribe_and_keep_alive n) s))
              (r_world (exec w (subscribe_and_keep_alive n) s))
              (Returned (Ok tt))
              (r_rest (exec w (subscribe_and_keep_alive n) s)))
  /\ (r_status (exec w (subscribe_and_keep_alive n) s) = Returned (Exc (Exception name)) ->
      r_rest (exec w (subscribe_and_keep_alive n) s) = RUnit :: RUnit :: rest ->
      exec w (subscription_task (S n)) (RUnit :: s)
      = prepend (Ev (Log DEBUG "Starting subscribe and keep alive") tt
                   :: r_trace (exec w (subscribe_and_keep_alive n) s)
                   ++ [Ev (Log ERROR "Subscribe and keep alive encountered error, waiting %.0f seconds") tt;
                       Ev (Sleep ERROR_RETRY_INTERVAL) (Ok tt)])
                (exec (r_world (exec w (subscribe_and_keep_alive n) s))
                      (subscription_task n) rest))
  /\ (r_status (exec w (subscribe_and_keep_alive n) s) = Returned (Exc (Exception name)) ->
      r_rest (exec w (subscribe_and_keep_alive n) s) = [RUnit] ->
      r_world (exec w (subscription_task (S n)) (RUnit :: s))
        = r_world (exec w (subscribe_and_keep_alive n) s)
      /\ exists k', r_status (exec w (subscription_task (S n)) (RUnit :: s))
                    = Waiting (Sleep ERROR_RETRY_INTERVAL) k')
  /\ (exists r, exec w (subscription_task (S n)) (RUnit :: RBool c :: rest)
                = prepend [Ev (Log DEBUG "Starting subscribe and keep alive") tt;
                           Ev ApiConnected c] r)
  /\ exec w (subscription_task (k + S (S n)))
          (Sample.times k (Sample.failing_round name) ++ rest)
     = prepend (Sample.times k (Sample.failing_round_trace name))
               (exec w (subscription_task (S (S n))) rest).
Proof.
  split; [apply task_exits_on_cancellation|].
  split; [apply task_restarts_on_error|].
  split; [apply task_backs_off|].
  split; [apply task_restarts_at_connect_phase|apply retries_without_bound].
Qed.

Lemma supervision_task_outcomes_witness :
  exec (world0 Sample.player) (subscription_task 4) (RUnit :: Sample.cancelled_in_subscribe)
  = mkResult
      [Ev (Log DEBUG "Starting subscribe and keep alive") tt;
       Ev ApiConnected true; Ev ApiConnected true;
       Ev (Log DEBUG "subscribe_and_keep_alive: subscribing") tt;
       Ev ApiSubscribeNext (Exc CancelledError)]
      (world0 Sample.player) (Returned (Ok tt)) []
  /\ exec (world0 Sample.player) (subscription_task 4)
          (RUnit :: Sample.error_in_subscribe "ClientError" ++ [RUnit; RUnit])
     = prepend (Sample.failing_round_trace "ClientError")
               (exec (world0 Sample.player) (subscription_task 3) [])
  /\ r_world (exec (world0 Sample.player) (subscription_task 4)
                   (RUnit :: Sample.error_in_subscribe "ClientError" ++ [RUnit]))
     = world0 Sample.player.
Proof.
  split; [|split].
  - apply (supervision_task_outcomes 3 0 (world0 Sample.player)
             Sample.cancelled_in_subscribe [] "" true). reflexivity.
  - apply (supervision_task_outcomes 3 0 (world0 Sample.player)
             (Sample.error_in_subscribe "ClientError" ++ [RUnit; RUnit]) [] "ClientError" true);
      reflexivity.
  - apply (supervision_task_outcomes 3 0 (world0 Sample.player)
             (Sample.error_in_subscribe "ClientError" ++ [RUnit]) [] "ClientError" true);
      reflexivity.
Defined.

(** ** The subscription callback *)

Lemma new_state_settled (w : World) (n : option PlaybackState) (s : list reply) :
  settled (r_status (exec w (new_state n) s)) = true ->
  is_returned (r_status (exec w (new_state n) s)) = true
  /\ exists t s',
    s = RTime t :: s'
    /\ _state (w_self (r_world (exec w (new_state n) s))) = n
    /\ _state_time (w_self (r_world (exec w (new_state n) s))) = t
    /\ _yt_api (w_self (r_world (exec w (new_state n) s))) = _yt_api (w_self w)
    /\ clock_readings (r_trace (exec w (new_state n) s)) = [t]
    /\ notifications (r_trace (exec w (new_state n) s)) = []
    /\ lookups (r_trace (exec w (new_state n) s))
       = due_lookup (_yt_api (w_self w)) (cached_id (w_self w)) n
    /\ (r_status (exec w (new_state n) s) = Returned (Ok tt) ->
        _yt_api (w_self w) <> None ->
        cached_id (w_self (r_world (exec w (new_state n) s))) = media_id n).
Proof.
  destruct w as [[key yt tm st0 vi sub] tasks].
  destruct s as [|[] s']; try done. intros H.
  enough (Hgoal : is_returned (r_status (exec
            {| w_self := mkEntity key yt tm st0 vi sub; w_tasks := tasks |}
            (new_state n) (RTime t :: s'))) = true /\ _) by
    (split; [exact (proj1 Hgoal)|exists t, s'; split; [done|exact (proj2 Hgoal)]]).
  revert H.
  unfold new_state, update_video_snippet, due_lookup, cached_id, media_id.
  destruct yt as [api|]; destruct n as [[ps [[|ch v]|] ct du]|];
    destruct vi as [[id ti de chn]|]; cbn;
    repeat case_bool_decide; cbn;
    try (destruct s' as [|[| |e| | | | |[|sn items]] s'']; cbn);
    try (destruct s'' as [|[] s3]; cbn);
    try done;
    try (intros _; repeat split; try done; try congruence).
Qed.

Lemma last_or_cons {A} (d x : A) (l : list A) : last_or d (x :: l) = last_or x l.
Proof. unfold last_or. destruct l as [|y l]; [done|]. rewrite !last_cons. by destruct (last l). Qed.

Lemma last_or_snoc {A} (d x : A) (l : list A) : last_or d (l ++ [x]) = x.
Proof. unfold last_or. by rewrite last_snoc. Qed.

Lemma notifications_app (t1 t2 : list event) :
  notifications (t1 ++ t2) = notifications t1 ++ notifications t2.
Proof. apply omap_app. Qed.

Lemma clock_readings_app (t1 t2 : list event) :
  clock_readings (t1 ++ t2) = clock_readings t1 ++ clock_readings t2.
Proof. apply omap_app. Qed.

Lemma lookups_app (t1 t2 : list event) : lookups (t1 ++ t2) = lookups t1 ++ lookups t2.
Proof. apply omap_app. Qed.

Lemma trace_of_notify (st : option PlaybackState) (tr : list event) :
  notifications (Ev ApiSubscribeNext (Ok (Notify st)) :: tr) = st :: notifications tr
  /\ clock_readings (Ev ApiSubscribeNext (Ok (Notify st)) :: tr) = clock_readings tr
  /\ lookups (Ev ApiSubscribeNext (Ok (Notify st)) :: tr) = lookups tr.
Proof. done. Qed.

Lemma api_subscribe_notify (n : nat) (w : World) (st : option PlaybackState) (s : list reply) :
  exec w (api_subscribe (S n) new_state) (RChannel (Notify st) :: s)
  = prepend [Ev ApiSubscribeNext (Ok (Notify st))]
            (then_run (after_callback (api_subscribe n new_state)) (exec w (new_state st) s)).
Proof.
  cbn [api_subscribe]. unfold subscribe_next.
  cbn [mbind M_mbind M_bind coro_bind exec internal decode].
  by rewrite emit_prepend, exec_coro_bind.
Qed.

(** The run of [subscribe] once the callback raised [Exception name]:
    the client's reaction decides. *)
Lemma exec_callback_raised (next : M unit) (w : World) (name : string) (x : reaction)
    (s : list reply) :
  exec w (after_callback next (Exc (Exception name))) (RReaction x :: s)
  = match x with
    | Raises name' => mkResult [] w (Returned (Exc (Exception name'))) s
    | Returns => mkResult [] w (Returned (Ok tt)) s
    | Continues => exec w next s
    end.
Proof. by destruct x. Qed.

Lemma subscribe_settled (fuel : nat) (w : World) (s : list reply) :
  settled (r_status (exec w (api_subscribe fuel new_state) s)) = true ->
  _yt_api (w_self (r_world (exec w (api_subscribe fuel new_state) s))) = _yt_api (w_self w)
  /\ _state (w_self (r_world (exec w (api_subscribe fuel new_state) s)))
     = last_or (_state (w_self w))
               (notifications (r_trace (exec w (api_subscribe fuel new_state) s)))
  /\ _state_time (w_self (r_world (exec w (api_subscribe fuel new_state) s)))
     = last_or (_state_time (w_self w))
               (clock_readings (r_trace (exec w (api_subscribe fuel new_state) s)))
  /\ length (clock_readings (r_trace (exec w (api_subscribe fuel new_state) s)))
     = length (notifications (r_trace (exec w (api_subscribe fuel new_state) s))).
Proof.
  revert w s. induction fuel as [|n IH]; intros w s; [done|].
  destruct s as [|r0 s]; [done|].
  destruct r0 as [| |e| |[st|]| | |]; try done.
  rewrite api_subscribe_notify. unfold then_run.
  pose proof (new_state_settled w st s) as Hcb.
  set (rc := exec w (new_state st) s) in *.
  assert (Hnext : forall rest,
    settled (r_status (exec (r_world rc) (api_subscribe n new_state) rest)) = true ->
    is_returned (r_status rc) = true ->
    let rr := prepend [Ev ApiSubscribeNext (Ok (Notify st))]
                (prepend (r_trace rc) (exec (r_world rc) (api_subscribe n new_state) rest)) in
    _yt_api (w_self (r_world rr)) = _yt_api (w_self w)
    /\ _state (w_self (r_world rr)) = last_or (_state (w_self w)) (notifications (r_trace rr))
    /\ _state_time (w_self (r_world rr))
       = last_or (_state_time (w_self w)) (clock_readings (r_trace rr))
    /\ length (clock_readings (r_trace rr)) = length (notifications (r_trace rr))).
  { intros rest Hset Hret.
    destruct Hcb as (_ & t & s' & _ & Hs & Ht & Hy & Hc & Hn & _).
    { by destruct (r_status rc). }
    specialize (IH _ _ Hset).
    set (rr := exec (r_world rc) (api_subscribe n new_state) rest) in *.
    destruct IH as (IHy & IHs & IHt & IHlen).
    cbn [prepend r_trace r_world r_status r_rest app].
    destruct (trace_of_notify st (r_trace rc ++ r_trace rr)) as (-> & -> & _).
    rewrite notifications_app, clock_readings_app, Hc, Hn.
    cbn [app length].
    rewrite !last_or_cons, IHy, IHs, IHt, IHlen, Hs, Ht, Hy. by repeat split. }
  assert (Hstop : forall (o : outcome unit) rest,
    is_returned (r_status rc) = true ->
    let rr := prepend [Ev ApiSubscribeNext (Ok (Notify st))]
                (prepend (r_trace rc) (mkResult [] (r_world rc) (Returned o) rest)) in
    _yt_api (w_self (r_world rr)) = _yt_api (w_self w)
    /\ _state (w_self (r_world rr)) = last_or (_state (w_self w)) (notifications (r_trace rr))
    /\ _state_time (w_self (r_world rr))
       = last_or (_state_time (w_self w)) (clock_readings (r_trace rr))
    /\ length (clock_readings (r_trace rr)) = length (notifications (r_trace rr))).
  { intros o rest Hret.
    destruct Hcb as (_ & t & s' & _ & Hs & Ht & Hy & Hc & Hn & _).
    { by destruct (r_status rc). }
    cbn [prepend r_trace r_world r_status r_rest app]. rewrite app_nil_r.
    destruct (trace_of_notify st (r_trace rc)) as (-> & -> & _).
    rewrite Hc, Hn. cbn [app length]. rewrite !last_or_cons. by repeat split. }
  destruct (r_status rc) as [[[]|[|name]]|c k| |] eqn:Hst;
    cbn [after_callback prepend r_trace r_world r_status r_rest].
  - intros Hset. by apply (Hnext (r_rest rc)).
  - intros _. by apply (Hstop (Exc CancelledError) (r_rest rc)).
  - destruct (r_rest rc) as [|[| |e| | |[name'| |]| |] rest]; try done.
    + intros _. by apply (Hstop (Exc (Exception name')) rest).
    + intros _. by apply (Hstop (Ok tt) rest).
    + intros Hset. by apply (Hnext rest).
  - intros Hset. destruct c; try done. by destruct Hcb as (Hret & _).
  - done.
  - done.
Qed.

(** C4, as the claim states it, fails: in scenario A the observable
    position timestamp is null before the first notification and still
    null after it; it changes only with the two snapshots. *)
Lemma null_notification_leaves_timestamp_null :
  let after k := w_self (r_world (exec (world0 Sample.player) (api_subscribe 4 new_state)
                                       (take k Sample.scenario_A))) in
  notifications (r_trace (exec (world0 Sample.player) (api_subscribe 4 new_state)
                               Sample.scenario_A))
  = [None; Some (Sample.playing "v1" (S754_zero false));
     Some (Sample.playing "v1" (Sample.seconds 5))]
  /\ map (fun k => Facade.media_position_updated_at (after k)) [0; 3; 6; 9]%nat
     = [None; None; Some 2; Some 3]
  /\ map (fun k => _state_time (after k)) [0; 3; 6; 9]%nat = [0; 1; 2; 3].
Proof. by vm_compute. Qed.

Lemma snoc_of_length {A} (l : list A) (n : nat) :
  length l = S n -> exists l' x, l = l' ++ [x] /\ length l' = n.
Proof.
  destruct l as [|x l] using rev_ind; [done|].
  rewrite length_app; simpl. intros H. exists l, x. split; [done|lia].
Qed.

(** C4, amended: when the subscription has delivered N1..Nk and no
    callback is under way, the cache holds exactly Nk and the time stored
    with it is the clock reading taken for Nk, one reading being taken
    per notification; the observable position timestamp is that reading
    when Nk is a snapshot and null when Nk is null. *)
Theorem cache_holds_last_notification
    (fuel : nat) (w : World) (s : list reply)
    (ns : list (option PlaybackState)) (n : option PlaybackState) :
  settled (r_status (exec w (api_subscribe fuel new_state) s)) = true ->
  notifications (r_trace (exec w (api_subscribe fuel new_state) s)) = ns ++ [n] ->
  _state (w_self (r_world (exec w (api_subscribe fuel new_state) s))) = n
  /\ exists ts t,
       clock_readings (r_trace (exec w (api_subscribe fuel new_state) s)) = ts ++ [t]
       /\ length ts = length ns
       /\ _state_time (w_self (r_world (exec w (api_subscribe fuel new_state) s))) = t
       /\ Facade.media_position_updated_at
            (w_self (r_world (exec w (api_subscribe fuel new_state) s)))
          = match n with Some _ => Some t | None => None end.
Proof.
  intros Hset Hns.
  destruct (subscribe_settled fuel w s Hset) as (_ & Hs & Ht & Hlen).
  rewrite Hns in Hs, Hlen. rewrite last_or_snoc in Hs.
  rewrite length_app, Nat.add_comm in Hlen. simpl in Hlen.
  apply snoc_of_length in Hlen as (ts & t & Hc & Hts).
  rewrite Hc, last_or_snoc in Ht.
  split; [done|]. exists ts, t. repeat split; try done.
  unfold Facade.media_position_updated_at. rewrite Hs, Ht. by destruct n.
Qed.

Lemma cache_holds_last_notification_witness :
  _state (w_self (r_world (exec (world0 Sample.player) (api_subscribe 4 new_state)
                                Sample.scenario_A)))
  = Some (Sample.playing "v1" (Sample.seconds 5))
  /\ exists ts t,
       clock_readings (r_trace (exec (world0 Sample.player) (api_subscribe 4 new_state)
                                     Sample.scenario_A)) = ts ++ [t]
       /\ length ts = 2%nat
       /\ _state_time (w_self (r_world (exec (world0 Sample.player)
                                             (api_subscribe 4 new_state)
                                             Sample.scenario_A))) = t
       /\ Facade.media_position_updated_at
            (w_self (r_world (exec (world0 Sample.player) (api_subscribe 4 new_state)
                                   Sample.scenario_A)))
          = Some t.
Proof.
  apply (cache_holds_last_notification 4 (world0 Sample.player) Sample.scenario_A
           [None; Some (Sample.playing "v1" (S754_zero false))]
           (Some (Sample.playing "v1" (Sample.seconds 5)))); reflexivity.
Defined.


(** ** The metadata cache *)

















(** What the monitor allows and what it does not: the lookup of an id
    that is not in the slot, once; no lookup of the id in the slot; no
    callback that goes on without the lookup that is due. *)
Example cache_step_examples :
  let v id := Ev ApiSubscribeNext (Ok (Notify (Some (Sample.playing id (Sample.seconds 5))))) in
  let looked id := Ev (VideosList id) (Ok [Sample.snippet id]) in
  let allowed slot tr := is_Some (monitor (cache_step (Some YoutubeV3)) (at_rest slot) tr) in
  allowed None [v "v1"; Ev UtcNow 1; looked "v1"; Ev WriteHaState tt;
                v "v1"; Ev UtcNow 2; Ev WriteHaState tt]
  /\ ~ allowed (Some "v1") [v "v1"; Ev UtcNow 1; looked "v1"]
  /\ ~ allowed None [v "v1"; Ev UtcNow 1; Ev WriteHaState tt]
  /\ ~ allowed None [v "v1"; Ev UtcNow 1; looked "v2"]
  /\ allowed None [v "v1"; Ev UtcNow 1; Ev (VideosList "v1") (Exc (Exception "HTTPError"));
                   v "v1"; Ev UtcNow 2; looked "v1"]
  /\ ~ allowed None [v "v1"; Ev UtcNow 1; Ev (VideosList "v1") (Exc (Exception "HTTPError"));
                     v "v1"; Ev UtcNow 2; Ev WriteHaState tt].
Proof.
  cbn. repeat split; try (by eexists); by intros [? [=]].
Qed.

(** A lookup that raised leaves the slot as it was: when the supervisor
    has subscribed again, after its backoff or, with a client that
    swallows the exception, after a second, the next snapshot of the same
    video is looked up again. *)
Example failed_lookup_is_repeated :
  lookups (r_trace (exec (world0 Sample.showing_v1) (subscription_task 4)
                         Sample.lookup_retried))
  = ["v2"; "v2"]
  /\ lookups (r_trace (exec (world0 Sample.showing_v1) (subscription_task 4)
                            (Sample.lookup_fails_quietly ++ Sample.looked_up "v2" 40)))
     = ["v2"; "v2"]
  /\ cached_id (w_self (r_world (exec (world0 Sample.showing_v1) (subscription_task 4)
                                      Sample.lookup_fails)))
     = Some "v1".
Proof. by vm_compute. Qed.

(** C6, as the claim states it, fails: the entity shows v1 with its
    metadata, v2 starts and its lookup raises.  The callback ends with
    the exception, without having written the state to Home Assistant,
    and the metadata is still that of v1, not empty.  With a client that
    lets the exception through it reaches the supervisor, which logs it
    and goes into its backoff. *)
Lemma lookup_error_reaches_supervisor :
  let cb := exec (world0 Sample.showing_v1)
                 (new_state (Some (Sample.playing "v2" (Sample.seconds 1))))
                 [RTime 9; RRaise (Exception "HTTPError")] in
  let r := exec (world0 Sample.showing_v1) (subscription_task 4) Sample.lookup_fails in
  r_status cb = Returned (Exc (Exception "HTTPError"))
  /\ calls (r_trace cb) = [UtcNow; VideosList "v2"]
  /\ current_video_id (w_self (r_world cb)) = Some "v2"
  /\ Facade.media_title (w_self (r_world cb)) = Some "Old title"
  /\ calls (r_trace r)
     = [Log DEBUG "Starting subscribe and keep alive"; ApiConnected; ApiConnected;
        Log DEBUG "subscribe_and_keep_alive: subscribing";
        ApiSubscribeNext; UtcNow; VideosList "v2";
        Log ERROR "Subscribe and keep alive encountered error, waiting %.0f seconds"]
  /\ current_video_id (w_self (r_world r)) = Some "v2"
  /\ Facade.media_title (w_self (r_world r)) = Some "Old title".
Proof. by vm_compute. Qed.

(** C6, amended: when the lookup raises, neither the resolver nor the
    callback catches the exception: the callback ends with it, with the
    metadata record as it was before and without the state being written
    to Home Assistant; the snapshot and its time went into the cache
    before the lookup was awaited.  What becomes of the exception is up
    to the client whose [subscribe] called the callback: the
    subscription raises what the client raises, returns when the client
    swallows the exception, or goes on with the channel.  When the
    client lets the exception through, the supervisor logs it, sleeps
    30 seconds and starts again. *)
Theorem lookup_error_leaves_callback
    (fuel : nat) (w : World) (st : PlaybackState) (v : string) (t : datetime)
    (e : exn) (name : string) (x : reaction) (rest : list reply) :
  _yt_api (w_self w) <> None ->
  media_id (Some st) = Some v ->
  cached_id (w_self w) <> Some v ->
  let w' := with_self (fun self => set_state (Some st) (set_state_time t self)) w in
  exec w (new_state (Some st)) (RTime t :: RRaise e :: rest)
  = mkResult [Ev UtcNow t; Ev (VideosList v) (Exc e)] w' (Returned (Exc e)) rest
  /\ _video_info (w_self w') = _video_info (w_self w)
  /\ (exists k, exec w (new_state (Some st)) [RTime t]
                = mkResult [Ev UtcNow t] w' (Waiting (VideosList v) k) [])
  /\ exec w (api_subscribe (S fuel) new_state)
          (RChannel (Notify (Some st)) :: RTime t :: RRaise (Exception name)
             :: RReaction x :: rest)
     = prepend [Ev ApiSubscribeNext (Ok (Notify (Some st)));
                Ev UtcNow t; Ev (VideosList v) (Exc (Exception name))]
         match x with
         | Raises name' => mkResult [] w' (Returned (Exc (Exception name'))) rest
         | Returns => mkResult [] w' (Returned (Ok tt)) rest
         | Continues => exec w' (api_subscribe fuel new_state) rest
         end
  /\ exec w (subscription_task (S (S (S fuel))))
          (RUnit :: RBool true :: RBool true :: RUnit
             :: RChannel (Notify (Some st)) :: RTime t :: RRaise (Exception name)
             :: RReaction (Raises name) :: RUnit :: RUnit :: rest)
     = prepend [Ev (Log DEBUG "Starting subscribe and keep alive") tt;
                Ev ApiConnected true; Ev ApiConnected true;
                Ev (Log DEBUG "subscribe_and_keep_alive: subscribing") tt;
                Ev ApiSubscribeNext (Ok (Notify (Some st)));
                Ev UtcNow t; Ev (VideosList v) (Exc (Exception name));
                Ev (Log ERROR
                      "Subscribe and keep alive encountered error, waiting %.0f seconds") tt;
                Ev (Sleep ERROR_RETRY_INTERVAL) (Ok tt)]
         (exec w' (subscription_task (S (S fuel))) rest).
Proof.
  intros Hapi Hid Hcache w'.
  assert (Hcb : forall e' rest',
    exec w (new_state (Some st)) (RTime t :: RRaise e' :: rest')
    = mkResult [Ev UtcNow t; Ev (VideosList v) (Exc e')] w' (Returned (Exc e')) rest').
  { intros e' rest'. subst w'.
    destruct w as [[key [api|] tm st0 vi sub] tasks]; [|done].
    destruct st as [ps [[|ch v']|] ct du]; try done.
    injection Hid as <-. unfold cached_id in Hcache. simpl in Hcache.
    unfold new_state, update_video_snippet.
    destruct vi as [[id ti de chn]|]; cbn; [|done].
    simpl in Hcache. case_bool_decide; [congruence|done]. }
  split; [apply Hcb|]. split; [done|]. split; [|split].
  - subst w'. destruct w as [[key [api|] tm st0 vi sub] tasks]; [|done].
    destruct st as [ps [[|ch v']|] ct du]; try done.
    injection Hid as <-. unfold cached_id in Hcache. simpl in Hcache.
    unfold new_state, update_video_snippet.
    destruct vi as [[id ti de chn]|]; cbn; [|by eexists].
    simpl in Hcache. case_bool_decide; [congruence|by eexists].
  - rewrite api_subscribe_notify, Hcb. unfold then_run.
    cbn [r_status r_trace r_world r_rest]. rewrite exec_callback_raised.
    rewrite prepend_prepend. by destruct x.
  - assert (Hsub : exec w (subscribe_and_keep_alive (S (S fuel)))
                     (RBool true :: RBool true :: RUnit
                        :: RChannel (Notify (Some st)) :: RTime t :: RRaise (Exception name)
                        :: RReaction (Raises name) :: RUnit :: RUnit :: rest)
      = mkResult [Ev ApiConnected true; Ev ApiConnected true;
                  Ev (Log DEBUG "subscribe_and_keep_alive: subscribing") tt;
                  Ev ApiSubscribeNext (Ok (Notify (Some st)));
                  Ev UtcNow t; Ev (VideosList v) (Exc (Exception name))]
                 w' (Returned (Exc (Exception name))) (RUnit :: RUnit :: rest)).
    { unfold subscribe_and_keep_alive.
      rewrite (exec_bind_ok api_connected _ _ _ true) by reflexivity.
      cbn [api_connected invoke exec internal decode emit traced r_trace r_world r_rest negb].
      rewrite (exec_bind_ok (mret tt) _ _ _ tt) by reflexivity.
      cbn [mret M_mret exec r_trace r_world r_rest]. rewrite prepend_nil.
      rewrite steady_state_S, exec_bind, reconnect_loop_exit. unfold then_run at 1.
      cbn [r_status r_trace r_world r_rest].
      rewrite (exec_bind_ok (log_debug _) _ _ _ tt) by reflexivity.
      cbn [log_debug invoke exec internal decode emit traced r_trace r_world r_rest].
      rewrite exec_bind, api_subscribe_notify, Hcb. unfold then_run.
      cbn [r_status r_trace r_world r_rest prepend]. rewrite exec_callback_raised.
      reflexivity. }
    rewrite (task_restarts_on_error _ _ _ rest name); by rewrite Hsub.
Qed.

Lemma lookup_error_leaves_callback_witness :
  exec (world0 Sample.showing_v1)
       (new_state (Some (Sample.playing "v2" (Sample.seconds 1))))
       [RTime 9; RRaise (Exception "HTTPError")]
  = mkResult [Ev UtcNow 9; Ev (VideosList "v2") (Exc (Exception "HTTPError"))]
      (with_self (fun self => set_state (Some (Sample.playing "v2" (Sample.seconds 1)))
                                (set_state_time 9 self))
                 (world0 Sample.showing_v1))
      (Returned (Exc (Exception "HTTPError"))) [].
Proof.
  apply (lookup_error_leaves_callback 1 (world0 Sample.showing_v1)
           (Sample.playing "v2" (Sample.seconds 1)) "v2" 9 (Exception "HTTPError")
           "HTTPError" Returns []).
  - discriminate.
  - reflexivity.
  - discriminate.
Defined.

(** ** Cancellation of the supervision task *)

Lemma throw_in_awaitable (e : exn) (c : call) :
  is_Some (throw_in e c) <-> awaitable c = true.
Proof. destruct c; simpl; split; try done; by intros [? [=]]. Qed.

Lemma on_cancel_mono {R} (P Q : call -> coro R -> Prop) (p : coro R) :
  (forall c t, P c t -> Q c t) -> on_cancel P p -> on_cancel Q p.
Proof.
  intros HPQ. induction p as [r|c k IH|]; simpl; [done| |done].
  intros [Hk Hc]. split; [intros a; by apply IH|]. intros a Ha. by apply HPQ, Hc.
Qed.

Lemma on_cancel_bind {A B} (P : call -> coro A -> Prop) (Q : call -> coro B -> Prop)
    (m : coro A) (f : A -> coro B) :
  on_cancel P m ->
  (forall a, on_cancel Q (f a)) ->
  (forall c t, P c t -> Q c (coro_bind t f)) ->
  on_cancel Q (coro_bind m f).
Proof.
  intros Hm Hf HPQ. induction m as [r|c k IH|]; simpl; [apply Hf| |done].
  destruct Hm as [Hk Hc]. split; [intros a; by apply IH|].
  intros a Ha. by apply HPQ, Hc.
Qed.

(** Inside a coroutine that catches nothing, a cancellation goes on as
    an exception through whatever follows. *)
Lemma raises_bind {A B} (m : M A) (f : A -> M B) :
  on_cancel raises_cancelled m ->
  (forall a, on_cancel raises_cancelled (f a)) ->
  on_cancel raises_cancelled (m ≫= f).
Proof.
  intros Hm Hf. apply (on_cancel_bind raises_cancelled); [done| |].
  - intros [a|e]; [apply Hf|done].
  - by intros c t [Hc ->].
Qed.

Lemma new_state_raises (n : option PlaybackState) : on_cancel raises_cancelled (new_state n).
Proof.
  unfold new_state, update_video_snippet. repeat (raises_step ltac:(apply raises_bind)).
Qed.

Lemma api_subscribe_raises (fuel : nat) :
  on_cancel raises_cancelled (api_subscribe fuel new_state).
Proof.
  induction fuel as [|n IH]; [done|].
  cbn [api_subscribe]. apply raises_bind; [repeat (raises_step ltac:(apply raises_bind))|].
  intros [st|]; [|done].
  apply (on_cancel_bind raises_cancelled); [apply new_state_raises| |].
  - intros [[]|[|name]]; cbn; [exact IH|done|]. split; [|done]. by intros [].
  - by intros c t [Hc ->].
Qed.

Lemma reconnect_loop_raises (fuel : nat) : on_cancel raises_cancelled (reconnect_loop fuel).
Proof.
  induction fuel as [|n IH]; [done|].
  cbn [reconnect_loop]. apply raises_bind; [repeat (raises_step ltac:(apply raises_bind))|].
  intros [|]; [done|]. cbn [negb]. apply raises_bind; [|done].
  unfold reconnect_pass.
  repeat first [apply new_state_raises | raises_step ltac:(apply raises_bind)].
Qed.

Lemma steady_state_raises (fuel : nat) : on_cancel raises_cancelled (steady_state fuel).
Proof.
  induction fuel as [|n IH]; [done|].
  cbn [steady_state].
  repeat first [apply reconnect_loop_raises | apply api_subscribe_raises | exact IH
               | raises_step ltac:(apply raises_bind)].
Qed.

Lemma subscribe_and_keep_alive_raises (fuel : nat) :
  on_cancel raises_cancelled (subscribe_and_keep_alive fuel).
Proof.
  unfold subscribe_and_keep_alive.
  repeat first [apply steady_state_raises | raises_step ltac:(apply raises_bind)].
Qed.

(** Wherever the supervision task is suspended, a cancellation ends it
    at once: inside the [try] block the task returns; in the backoff
    sleep of the [except] clause it ends cancelled. *)
Lemma cancellation_ends_task (fuel : nat) : on_cancel ends_task (subscription_task fuel).
Proof.
  induction fuel as [|n IH]; [done|].
  rewrite subscription_task_S.
  apply (on_cancel_bind (fun c t => match c with
                                    | Sleep seconds =>
                                        if decide (seconds = ERROR_RETRY_INTERVAL)
                                        then t = Ret (Exc CancelledError)
                                        else t = Ret (Ok true)
                                    | _ => t = Ret (Ok true)
                                    end)).
  - unfold try_except.
    apply (on_cancel_bind raises_cancelled).
    + unfold supervised.
      repeat first [apply subscribe_and_keep_alive_raises | raises_step ltac:(apply raises_bind)].
    + intros [b|[|name]]; try done. cbn. repeat (raises_step ltac:(apply raises_bind)).
    + intros c t [Hc ->]. cbn. destruct c; try done. by case_decide; [subst|].
  - intros [[|]|e]; [done|exact IH|done].
  - intros c t Ht. unfold ends_task. destruct c; try (by rewrite Ht).
    case_decide; by rewrite Ht.
Qed.


Lemma on_cancel_point {R} (P : call -> coro R -> Prop) (p : coro R)
    (c : call) (k : answer c -> coro R) (a : answer c) :
  on_cancel P p -> point_of p c k -> throw_in CancelledError c = Some a -> P c (k a).
Proof.
  intros Hp Hpt. induction Hpt as [c k|c k x c' k' Hpt IH]; simpl in Hp.
  - intros Ha. by apply Hp.
  - apply IH, Hp.
Qed.

(** Where a run is left waiting is a point of the coroutine. *)
Lemma exec_waits_at_point {R} (w : World) (p : coro R) (s : list reply) :
  match r_status (exec w p s) with
  | Waiting c k => point_of p c k
  | _ => True
  end.
Proof.
  revert w s. induction p as [r|c0 k0 IH|]; intros w s; simpl; [done| |done].
  destruct (internal c0 w) as [a w'| |].
  - rewrite emit_prepend. simpl. specialize (IH a w' s).
    destruct (r_status (exec w' (k0 a) s)); try done. by eapply point_later.
  - constructor.
  - destruct s as [|r s']; [constructor|].
    destruct (decode c0 r) as [a|]; [|done].
    rewrite emit_prepend. simpl. specialize (IH a w s').
    destruct (r_status (exec w (k0 a) s')); try done. by eapply point_later.
Qed.

Lemma exec_point {R} (w : World) (p : coro R) (s : list reply)
    (c : call) (k : answer c -> coro R) :
  r_status (exec w p s) = Waiting c k -> point_of p c k.
Proof. intros H. pose proof (exec_waits_at_point w p s) as Hp. by rewrite H in Hp. Qed.

(** ** Manual reconnect *)

Lemma removed_from_hass_clears_handle (w : World) (s : list reply) :
  _subscription (w_self (r_world (exec w removed_from_hass s))) = None.
Proof.
  destruct w as [[key api tm st vi [t|]] tasks]; [|done].
  unfold removed_from_hass; cbn. destruct (tasks !! t) as [task|]; [|done].
  by destruct (task_done task).
Qed.

(** C10: without a supervision task, manual reconnect asks nothing of
    the lounge client, neither [refresh_auth()] nor [connect()]; it
    creates the supervision task and stores its handle. *)
Theorem manual_reconnect_without_task (turns fuel : nat) (w : World) (s : list reply) :
  _subscription (w_self w) = None ->
  run_until_complete turns fuel w manual_reconnect s
  = mkResult [Ev (CreateTask SubscriptionTask) (length (w_tasks w))]
             (mkWorld (set_subscription (Some (length (w_tasks w))) (w_self w))
                      (w_tasks w ++ [mkTask SubscriptionTask None false]))
             (Returned (Ok tt)) s.
Proof.
  destruct w as [[key api tm st vi sub] tasks]; simpl. intros ->.
  by destruct turns.
Qed.

Lemma manual_reconnect_without_task_witness :
  run_until_complete 1 4 (r_world (exec Sample.subscribed removed_from_hass []))
                     manual_reconnect Sample.reconnect_replies
  = mkResult [Ev (CreateTask SubscriptionTask) 1%nat]
      (mkWorld
         (set_subscription (Some 1%nat)
            (w_self (r_world (exec Sample.subscribed removed_from_hass []))))
         (w_tasks (r_world (exec Sample.subscribed removed_from_hass []))
          ++ [mkTask SubscriptionTask None false]))
      (Returned (Ok tt)) Sample.reconnect_replies.
Proof.
  apply (manual_reconnect_without_task 1 4
           (r_world (exec Sample.subscribed removed_from_hass []))
           Sample.reconnect_replies).
  reflexivity.
Defined.

(** [manual_reconnect] with a task in the handle that is not done: it
    logs, requests the cancellation, logs and waits for the task; what
    follows depends on how the task ended. *)
Lemma manual_reconnect_phases (w : World) (t : task_id) (task : Task) (s : list reply) :
  _subscription (w_self w) = Some t ->
  w_tasks w !! t = Some task ->
  task_done task = false ->
  exists K,
    exec w manual_reconnect (RUnit :: RUnit :: s)
    = mkResult
        [Ev (Log DEBUG "manual_reconnect: cancelling subscription") tt;
         Ev (TaskCancel t) true;
         Ev (Log DEBUG "manual_reconnect: waiting for subscription to end") tt]
        (with_tasks (fun ts => <[t := request_cancel task]> ts) w)
        (Waiting (TaskAwait t) K) s
    /\ (forall (w' : World) (task' : Task) (refreshed connected : bool) (s' : list reply),
         w_tasks w' !! t = Some task' ->
         task_result task' = Some (Ok tt) ->
         exec w' (Vis (TaskAwait t) K)
              (RBool refreshed :: RUnit :: RBool connected :: RUnit :: s')
         = mkResult
             [Ev (TaskAwait t) (Ok tt);
              Ev ApiRefreshAuth (Ok refreshed);
              Ev (Log DEBUG "manual_reconnect: refresh auth %s") tt;
              Ev ApiConnect (Ok connected);
              Ev (Log DEBUG "manual_reconnect: connect %s") tt;
              Ev (CreateTask SubscriptionTask) (length (w_tasks w'))]
             (mkWorld (set_subscription (Some (length (w_tasks w'))) (w_self w'))
                      (w_tasks w' ++ [mkTask SubscriptionTask None false]))
             (Returned (Ok tt)) s')
    /\ forall (w' : World) (task' : Task) (e : exn) (s' : list reply),
         w_tasks w' !! t = Some task' ->
         task_result task' = Some (Exc e) ->
         exec w' (Vis (TaskAwait t) K) s'
         = mkResult [Ev (TaskAwait t) (Exc e)] w' (Returned (Exc e)) s'.
Proof.
  intros Hsub Htask Hdone.
  pose proof (lookup_lt_Some _ _ _ Htask) as Hlt.
  destruct w as [[key api tm st vi sub] tasks]. simpl in *. subst sub.
  unfold manual_reconnect. cbn. rewrite Htask, Hdone. cbn.
  rewrite list_lookup_insert_eq by done.
  assert (Hres : task_result (request_cancel task) = None).
  { unfold task_result, task_done in *. simpl. by destruct (t_status task) as [[]|]. }
  rewrite Hres. eexists. split; [reflexivity|]. split.
  - intros [self' tasks'] task' refreshed connected s' Htask' Hres'.
    simpl in Htask'. cbn. rewrite Htask', Hres'. reflexivity.
  - intros [self' tasks'] task' e s' Htask' Hres'.
    simpl in Htask'. cbn. rewrite Htask', Hres'. reflexivity.
Qed.

(** X19: whenever the handle's task is a supervision task suspended anywhere
    but in its backoff sleep, manual reconnect does what it is meant to:
    the task is cancelled, awaited and ends; [refresh_auth()] and
    [connect()] are called once each; then the new task is created. *)
Lemma manual_reconnect_supersedes
    (fuel n : nat) (w : World) (t : task_id) (c : call)
    (k : answer c -> coro (outcome unit)) (a : answer c)
    (refreshed connected : bool) (s : list reply) :
  _subscription (w_self w) = Some t ->
  w_tasks w !! t = Some (mkTask SubscriptionTask (Some (Waiting c k)) false) ->
  point_of (subscription_task n) c k ->
  throw_in CancelledError c = Some a ->
  c <> Sleep ERROR_RETRY_INTERVAL ->
  run_until_complete 1 fuel w manual_reconnect
    (RUnit :: RUnit :: RBool refreshed :: RUnit :: RBool connected :: RUnit :: s)
  = mkResult
      [Ev (Log DEBUG "manual_reconnect: cancelling subscription") tt;
       Ev (TaskCancel t) true;
       Ev (Log DEBUG "manual_reconnect: waiting for subscription to end") tt;
       Ev c a;
       Ev (TaskAwait t) (Ok tt);
       Ev ApiRefreshAuth (Ok refreshed);
       Ev (Log DEBUG "manual_reconnect: refresh auth %s") tt;
       Ev ApiConnect (Ok connected);
       Ev (Log DEBUG "manual_reconnect: connect %s") tt;
       Ev (CreateTask SubscriptionTask) (length (w_tasks w))]
      (mkWorld (set_subscription (Some (length (w_tasks w))) (w_self w))
               (<[t := mkTask SubscriptionTask (Some (Returned (Ok tt))) false]> (w_tasks w)
                ++ [mkTask SubscriptionTask None false]))
      (Returned (Ok tt)) s.
Proof.
  intros Hsub Htask Hpt Ha Hc.
  pose proof (on_cancel_point _ _ _ _ _ (cancellation_ends_task n) Hpt Ha) as Hend.
  assert (Hka : k a = Ret (Ok tt)).
  { unfold ends_task in Hend. destruct c; try done. by case_decide; [subst|]. }
  assert (Htr : traced c = true) by (by destruct c).
  pose proof (lookup_lt_Some _ _ _ Htask) as Hlt.
  destruct (manual_reconnect_phases w t _
              (RBool refreshed :: RUnit :: RBool connected :: RUnit :: s) Hsub Htask)
    as (K & Hfirst & Hsecond & _); [done|].
  cbn [run_until_complete]. rewrite Hfirst. cbn [r_status r_world r_rest r_trace].
  unfold step_task. cbn [with_tasks w_tasks].
  rewrite list_lookup_insert_eq by done.
  cbn [request_cancel t_status t_must_cancel t_kind]. rewrite Ha.
  unfold emit. rewrite Htr, Hka.
  change (exec ?w0 (Ret ?r0) ?s0) with (mkResult [] w0 (Returned r0) s0).
  cbn [commit r_trace r_world r_status r_rest]. unfold with_tasks. cbn [w_tasks w_self].
  rewrite list_insert_insert_eq.
  erewrite Hsecond;
    [|cbn [w_tasks]; by rewrite list_lookup_insert_eq by done|done].
  unfold prepend; cbn. by rewrite length_insert.
Qed.

(** X20: the general form of the failure: whenever the handle's task is a
    supervision task suspended in its backoff sleep, manual reconnect
    ends with [CancelledError] after cancelling and awaiting the task,
    and leaves the dead task in the handle. *)
Lemma manual_reconnect_fails_in_backoff
    (fuel n : nat) (w : World) (t : task_id)
    (k : outcome unit -> coro (outcome unit)) (s : list reply) :
  _subscription (w_self w) = Some t ->
  w_tasks w !! t
    = Some (mkTask SubscriptionTask (Some (Waiting (Sleep ERROR_RETRY_INTERVAL) k)) false) ->
  point_of (subscription_task n) (Sleep ERROR_RETRY_INTERVAL) k ->
  run_until_complete 1 fuel w manual_reconnect (RUnit :: RUnit :: s)
  = mkResult
      [Ev (Log DEBUG "manual_reconnect: cancelling subscription") tt;
       Ev (TaskCancel t) true;
       Ev (Log DEBUG "manual_reconnect: waiting for subscription to end") tt;
       Ev (Sleep ERROR_RETRY_INTERVAL) (Exc CancelledError);
       Ev (TaskAwait t) (Exc CancelledError)]
      (mkWorld (w_self w)
               (<[t := mkTask SubscriptionTask (Some (Returned (Exc CancelledError))) false]>
                  (w_tasks w)))
      (Returned (Exc CancelledError)) s.
Proof.
  intros Hsub Htask Hpt.
  pose proof (on_cancel_point _ _ _ _ _ (cancellation_ends_task n) Hpt eq_refl) as Hend.
  assert (Hka : k (Exc CancelledError) = Ret (Exc CancelledError)).
  { unfold ends_task in Hend. by case_decide. }
  pose proof (lookup_lt_Some _ _ _ Htask) as Hlt.
  destruct (manual_reconnect_phases w t _ s Hsub Htask) as (K & Hfirst & _ & Hsecond); [done|].
  cbn [run_until_complete]. rewrite Hfirst. cbn [r_status r_world r_rest r_trace].
  unfold step_task. cbn [with_tasks w_tasks].
  rewrite list_lookup_insert_eq by done.
  cbn [request_cancel t_status t_must_cancel t_kind throw_in].
  unfold emit. cbn [traced]. rewrite Hka.
  change (exec ?w0 (Ret ?r0) ?s0) with (mkResult [] w0 (Returned r0) s0).
  cbn [commit r_trace r_world r_status r_rest]. unfold with_tasks. cbn [w_tasks w_self].
  rewrite list_insert_insert_eq.
  erewrite Hsecond;
    [|cbn [w_tasks]; by rewrite list_lookup_insert_eq by done|done].
  reflexivity.
Qed.

(** Both general forms apply to the sample worlds. *)
Example sample_worlds_are_points :
  (exists c k,
     w_tasks Sample.subscribed !! 0%nat
       = Some (mkTask SubscriptionTask (Some (Waiting c k)) false)
     /\ point_of (subscription_task 4) c k
     /\ c = ApiSubscribeNext)
  /\ (exists k,
        w_tasks (Sample.backing_off "ClientError") !! 0%nat
          = Some (mkTask SubscriptionTask
                         (Some (Waiting (Sleep ERROR_RETRY_INTERVAL) k)) false)
        /\ point_of (subscription_task 4) (Sleep ERROR_RETRY_INTERVAL) k).
Proof.
  split.
  - eexists _, _. split; [reflexivity|]. split; [|reflexivity].
    apply (exec_point Sample.added _ [RUnit; RBool true; RBool true; RUnit]). reflexivity.
  - eexists. split; [reflexivity|].
    apply (exec_point Sample.added _
             (RUnit :: Sample.error_in_subscribe "ClientError" ++ [RUnit])).
    reflexivity.
Qed.

(** With the supervision task suspended in [subscribe], manual reconnect
    does what it is meant to: the task is cancelled and awaited and ends;
    [refresh_auth()] and [connect()] are called once each; a new task is
    created, and it is the only one alive. *)
Example manual_reconnect_while_subscribed :
  let r := run_until_complete 1 4 Sample.subscribed manual_reconnect Sample.reconnect_replies in
  r_status r = Returned (Ok tt)
  /\ r_trace r
     = [Ev (Log DEBUG "manual_reconnect: cancelling subscription") tt;
        Ev (TaskCancel 0%nat) true;
        Ev (Log DEBUG "manual_reconnect: waiting for subscription to end") tt;
        Ev ApiSubscribeNext (Exc CancelledError);
        Ev (TaskAwait 0%nat) (Ok tt);
        Ev ApiRefreshAuth (Ok true);
        Ev (Log DEBUG "manual_reconnect: refresh auth %s") tt;
        Ev ApiConnect (Ok true);
        Ev (Log DEBUG "manual_reconnect: connect %s") tt;
        Ev (CreateTask SubscriptionTask) 1%nat]
  /\ map task_alive (w_tasks (r_world r)) = [false; true]
  /\ _subscription (w_self (r_world r)) = Some 1%nat.
Proof. by vm_compute. Qed.

(** C1 fails on the code: manual reconnect while the supervision task
    is in its 30 second backoff.  The cancellation hits the sleep inside
    the [except] clause, so the task ends cancelled and awaiting it
    raises [CancelledError] in [manual_reconnect]: neither
    [refresh_auth()] nor [connect()] is called, no new task is created,
    no task is left alive, the handle still names the dead task, and the
    next manual reconnect fails in the same way. *)
Theorem manual_reconnect_during_backoff (turns : nat) (name : string) (s : list reply) :
  let r := run_until_complete (S turns) 4 (Sample.backing_off name) manual_reconnect
                              (RUnit :: RUnit :: s) in
  r_status r = Returned (Exc CancelledError)
  /\ r_trace r
     = [Ev (Log DEBUG "manual_reconnect: cancelling subscription") tt;
        Ev (TaskCancel 0%nat) true;
        Ev (Log DEBUG "manual_reconnect: waiting for subscription to end") tt;
        Ev (Sleep ERROR_RETRY_INTERVAL) (Exc CancelledError);
        Ev (TaskAwait 0%nat) (Exc CancelledError)]
  /\ r_rest r = s
  /\ map task_alive (w_tasks (r_world r)) = [false]
  /\ _subscription (w_self (r_world r)) = Some 0%nat
  /\ r_status (run_until_complete (S turns) 4 (r_world r) manual_reconnect
                                  (RUnit :: RUnit :: s))
     = Returned (Exc CancelledError).
Proof. destruct turns; repeat split. Qed.

(** Two manual reconnects that overlap: both cancel and await task 0,
    both go on when it has ended, and each creates a task.  Two
    supervision tasks are alive, and the handle names only the second. *)
Example overlapping_reconnects_leave_two_tasks :
  let first := exec Sample.subscribed manual_reconnect [RUnit; RUnit] in
  let second := exec (r_world first) manual_reconnect [RUnit; RUnit] in
  let ended := Sample.let_run 4 0%nat [] (r_world second) in
  let first' := resume first ended [RBool true; RUnit; RBool true; RUnit] in
  let second' := resume second (r_world first') [RBool true; RUnit; RBool true; RUnit] in
  r_status first' = Returned (Ok tt) /\ r_status second' = Returned (Ok tt)
  /\ map task_alive (w_tasks (r_world second')) = [false; true; true]
  /\ _subscription (w_self (r_world second')) = Some 2%nat.
Proof. by vm_compute. Qed.

(** * Further properties *)

(** ** Pacing of the supervision task *)

Lemma wp_pace_new_state (n : option PlaybackState) (q : pace) :
  wp pace_step (new_state n) (keeps_pace q) q.
Proof.
  destruct q as [c s j]. unfold keeps_pace, new_state, update_video_snippet.
  repeat first [wp_step ltac:(apply wp_coro_bind) | split].
Qed.

Lemma wp_pace_subscribe (fuel : nat) (q : pace) :
  wp pace_step (api_subscribe fuel new_state) (keeps_pace q) q.
Proof.
  revert q. induction fuel as [|n IH]; intros q; [done|].
  cbn -[new_state after_callback].
  intros [[st|]|e]; cbn -[new_state after_callback]; [|done|done].
  apply wp_coro_bind. eapply wp_mono; [|apply wp_pace_new_state].
  assert (Hnext : forall q', keeps_pace q (Ok tt) q' ->
            wp pace_step (api_subscribe n new_state) (keeps_pace q) q').
  { intros q' [Hc Hs]. eapply wp_mono; [|apply IH]. intros o q'' [Hc' Hs'].
    unfold keeps_pace in *. split; congruence. }
  intros [[]|[|name]] q' Hq; cbn; [by apply Hnext|done|].
  intros [name'| |]; cbn; [done|done|by apply Hnext].
Qed.

Lemma wp_pace_pass (q : pace) :
  wp pace_step reconnect_pass
     (fun o q' => match o with Ok _ => may_subscribe q' = true | Exc _ => True end) q.
Proof.
  destruct q as [c s j]. unfold reconnect_pass, new_state, update_video_snippet.
  repeat first [wp_step ltac:(apply wp_coro_bind) | split].
Qed.

Lemma wp_pace_loop (fuel : nat) (q : pace) :
  may_subscribe q = true ->
  wp pace_step (reconnect_loop fuel)
     (fun o q' => match o with
                  | Ok _ => may_subscribe q' = true /\ just_connected q' = true
                  | Exc _ => True
                  end) q.
Proof.
  revert q. induction fuel as [|n IH]; intros q Hq; [done|].
  cbn -[reconnect_pass]. intros [|]; cbn -[reconnect_pass]; [done|].
  apply wp_coro_bind. eapply wp_mono; [|apply wp_pace_pass].
  intros [[]|e] q'; cbn; [apply IH|done].
Qed.

Lemma wp_pace_steady (fuel : nat) (q : pace) :
  may_subscribe q = true ->
  wp pace_step (steady_state fuel) never_returns q.
Proof.
  revert q. induction fuel as [|n IH]; intros q Hq; [done|].
  rewrite steady_state_S.
  apply wp_coro_bind. eapply wp_mono; [|by apply wp_pace_loop].
  intros [[]|e] q' H; cbn -[api_subscribe steady_state new_state]; [|done].
  destruct H as [Hs Hj]. intros []. rewrite Hs, Hj. cbn -[api_subscribe steady_state new_state].
  apply wp_coro_bind. eapply wp_mono; [|apply wp_pace_subscribe].
  intros [[]|e] q'' _; cbn -[steady_state]; [|done].
  intros [[]|e]; cbn -[steady_state]; [|done]. by apply IH.
Qed.

Lemma wp_pace_keep_alive (fuel : nat) (q : pace) :
  may_connect q = true -> may_subscribe q = true ->
  wp pace_step (subscribe_and_keep_alive fuel) never_returns q.
Proof.
  intros Hc Hs. unfold subscribe_and_keep_alive. cbn -[steady_state].
  intros [|]; cbn -[steady_state].
  - by apply wp_pace_steady.
  - rewrite Hc. intros [b|e]; cbn -[steady_state]; [|done]. by apply wp_pace_steady.
Qed.

Lemma wp_pace_task (fuel : nat) :
  wp pace_step (subscription_task fuel) (fun _ _ => True) rested.
Proof.
  induction fuel as [|n IH]; [done|].
  rewrite subscription_task_S. unfold supervised, try_except.
  cbn -[subscribe_and_keep_alive subscription_task]. intros [].
  cbn -[subscribe_and_keep_alive subscription_task].
  do 3 apply wp_coro_bind.
  eapply wp_mono; [|by apply wp_pace_keep_alive].
  intros [[]|[|name]] q' H; cbn -[subscription_task]; try done.
  intros []. cbn -[subscription_task]. intros [[]|e]; cbn -[subscription_task]; [|done].
  exact IH.
Qed.

(** What the pacing monitor accepts. *)
Lemma pace_no_sleep (q q' : pace) (tr : list event) :
  monitor pace_step q tr = Some q' ->
  existsb is_slept tr = false ->
  (may_connect q = false -> may_connect q' = false)
  /\ (may_subscribe q = false -> may_subscribe q' = false).
Proof.
  revert q. induction tr as [|e tr IH]; simpl; intros q Hm Hs.
  - by injection Hm as <-.
  - apply orb_false_elim in Hs as [He Hs].
    unfold pace_step, is_slept in *. destruct (pace_view e); try done.
    + destruct (may_connect q); [|done]. destruct (IH _ Hm Hs) as [H1 H2].
      split; [done|]. intros Hq. apply H2. done.
    + destruct (may_subscribe q && just_connected q) eqn:Hb; [|done].
      destruct (IH _ Hm Hs) as [H1 H2]. split; [|auto]. intros Hq. by apply H1.
    + destruct (IH _ Hm Hs) as [H1 H2]. split; intros Hq; [by apply H1|by apply H2].
    + destruct (IH _ Hm Hs) as [H1 H2]. split; intros Hq; [by apply H1|by apply H2].
Qed.

Lemma is_slept_elem (tr : list event) :
  existsb is_slept tr = true -> exists n, Ev (Sleep n) (Ok tt) ∈ tr.
Proof.
  induction tr as [|e tr IH]; simpl; [done|].
  intros [He|Htr]%orb_prop.
  - destruct e as [c a]. unfold is_slept in He. destruct c; simpl in *; try done.
    + destruct a as [[]|]; [|done]. exists seconds. apply list_elem_of_here.
    + destruct level; [|done]. by destruct (String.eqb _ _).
  - destruct (IH Htr) as [n Hn]. exists n. by apply list_elem_of_further.
Qed.

Lemma pace_view_connected (e : event) :
  pace_view e = PConnected true -> e = Ev ApiConnected true.
Proof.
  destruct e as [c a]. destruct c; simpl; try done.
  - by intros [= ->].
  - by destruct (returned a).
  - destruct level; [|done]. by destruct (String.eqb _ _).
Qed.

Lemma pace_just_connected (q q' : pace) (tr : list event) :
  monitor pace_step q tr = Some q' ->
  just_connected q' = true ->
  (tr = [] /\ just_connected q = true) \/ exists tr', tr = tr' ++ [Ev ApiConnected true].
Proof.
  destruct tr as [|e tr _] using rev_ind; simpl.
  - intros [= <-] H. by left.
  - intros Hm Hj. right.
    apply monitor_app in Hm as (q1 & _ & Hm). simpl in Hm.
    destruct (pace_step q1 e) as [q2|] eqn:He; [|done]. injection Hm as ->.
    unfold pace_step in He. destruct (pace_view e) eqn:Hv.
    + destruct (may_connect q1); [|done]. by injection He as <-.
    + destruct (may_subscribe q1 && just_connected q1); [|done]. by injection He as <-.
    + by injection He as <-.
    + injection He as <-. simpl in Hj. subst b.
      exists tr. by rewrite (pace_view_connected _ Hv).
    + by injection He as <-.
Qed.

(** X1: in every run of the supervision task, a sleep that ran to its
    end lies between any two [connect()] attempts: the supervisor never
    retries the connection back to back. *)
Theorem connects_are_paced
    (fuel : nat) (w : World) (s : list reply)
    (pre mid post : list event) (o1 o2 : outcome bool) :
  r_trace (exec w (subscription_task fuel) s)
    = pre ++ Ev ApiConnect o1 :: mid ++ Ev ApiConnect o2 :: post ->
  exists n, Ev (Sleep n) (Ok tt) ∈ mid.
Proof.
  intros Htr.
  destruct (wp_exec pace_step _ _ _ (wp_pace_task fuel) w s) as (q' & Hmon & _).
  rewrite Htr in Hmon. apply monitor_app in Hmon as (q1 & _ & Hmon).
  simpl in Hmon. unfold pace_step in Hmon at 1. simpl in Hmon.
  destruct (may_connect q1); [|done].
  apply monitor_app in Hmon as (q2 & Hmid & Hmon).
  apply is_slept_elem. destruct (existsb is_slept mid) eqn:Hs; [done|].
  destruct (pace_no_sleep _ _ _ Hmid Hs) as [Hc _].
  simpl in Hmon. unfold pace_step in Hmon at 1. simpl in Hmon.
  by rewrite Hc in Hmon.
Qed.

Lemma connects_are_paced_witness :
  exists n, Ev (Sleep n) (Ok tt)
            ∈ [Ev ApiConnected false;
               Ev (Log DEBUG "subscribe_and_keep_alive: reconnecting") tt;
               Ev UtcNow 1; Ev WriteHaState tt;
               Ev (Sleep CONNECT_RETRY_INTERVAL) (Ok tt); Ev ApiLinked true].
Proof.
  apply (connects_are_paced 4 (world0 Sample.player)
           (RUnit :: [RBool false; RBool false] ++ Sample.pass_replies 1 true true false)
           [Ev (Log DEBUG "Starting subscribe and keep alive") tt; Ev ApiConnected false]
           _ [] (Ok false) (Ok false)).
  reflexivity.
Defined.

(** X2: in every run of the supervision task, a sleep that ran to its
    end lies between any two entries into [subscribe()]. *)
Theorem subscribes_are_paced
    (fuel : nat) (w : World) (s : list reply) (pre mid post : list event) :
  r_trace (exec w (subscription_task fuel) s)
    = pre ++ subscribing :: mid ++ subscribing :: post ->
  exists n, Ev (Sleep n) (Ok tt) ∈ mid.
Proof.
  intros Htr.
  destruct (wp_exec pace_step _ _ _ (wp_pace_task fuel) w s) as (q' & Hmon & _).
  rewrite Htr in Hmon. apply monitor_app in Hmon as (q1 & _ & Hmon).
  simpl in Hmon. unfold pace_step in Hmon at 1. simpl in Hmon.
  destruct (may_subscribe q1 && just_connected q1); [|done].
  apply monitor_app in Hmon as (q2 & Hmid & Hmon).
  apply is_slept_elem. destruct (existsb is_slept mid) eqn:Hs; [done|].
  destruct (pace_no_sleep _ _ _ Hmid Hs) as [_ Hc].
  simpl in Hmon. unfold pace_step in Hmon at 1. simpl in Hmon.
  by rewrite Hc in Hmon.
Qed.

Lemma subscribes_are_paced_witness :
  exists n, Ev (Sleep n) (Ok tt)
            ∈ [Ev ApiSubscribeNext (Ok Closed);
               Ev (Sleep SUBSCRIBE_RETRY_INTERVAL) (Ok tt); Ev ApiConnected true].
Proof.
  apply (subscribes_are_paced 4 (world0 Sample.player)
           [RUnit; RBool true; RBool true; RUnit; RChannel Closed; RUnit; RBool true; RUnit]
           [Ev (Log DEBUG "Starting subscribe and keep alive") tt;
            Ev ApiConnected true; Ev ApiConnected true]
           _ []).
  reflexivity.
Defined.

(** X3: in every run of the supervision task, the call right before an
    entry into [subscribe()] is a [connected()] that answered true. *)
Theorem subscribes_only_when_connected
    (fuel : nat) (w : World) (s : list reply) (pre post : list event) :
  r_trace (exec w (subscription_task fuel) s) = pre ++ subscribing :: post ->
  exists pre', pre = pre' ++ [Ev ApiConnected true].
Proof.
  intros Htr.
  destruct (wp_exec pace_step _ _ _ (wp_pace_task fuel) w s) as (q' & Hmon & _).
  rewrite Htr in Hmon. apply monitor_app in Hmon as (q1 & Hpre & Hmon).
  simpl in Hmon. unfold pace_step in Hmon at 1. simpl in Hmon.
  destruct (may_subscribe q1 && just_connected q1) eqn:Hb; [|done].
  apply andb_prop in Hb as [_ Hj].
  by destruct (pace_just_connected _ _ _ Hpre Hj) as [[_ ?]|?].
Qed.

Lemma subscribes_only_when_connected_witness :
  exists pre',
    [Ev (Log DEBUG "Starting subscribe and keep alive") tt;
     Ev ApiConnected true; Ev ApiConnected true]
    = pre' ++ [Ev ApiConnected true].
Proof.
  apply (subscribes_only_when_connected 4 (world0 Sample.player)
           [RUnit; RBool true; RBool true; RUnit] _ []).
  reflexivity.
Defined.

(** ** Removal of the entity *)

Lemma run_suspended {R} (w : World) (p : coro R) (s : list reply) :
  waits_awaitable (r_status (exec w p s)) = true ->
  suspended_in p (r_status (exec w p s)).
Proof.
  intros H. pose proof (exec_waits_at_point w p s) as Hp.
  by destruct (r_status (exec w p s)).
Qed.

Lemma awaitable_throw_in (c : call) :
  awaitable c = true -> exists a, throw_in CancelledError c = Some a.
Proof. intros H. by apply (throw_in_awaitable CancelledError c) in H as [a Ha]; eauto. Qed.

(** X4: [__removed_from_hass] always returns, asks nothing of its
    collaborators but the cancellation of the task in the handle, clears
    the handle, and leaves the cache and every task's progress as they
    were: the task is not awaited and stays where it is suspended. *)
Theorem removed_from_hass_only_cancels (w : World) (s : list reply) :
  r_status (exec w removed_from_hass s) = Returned (Ok tt)
  /\ r_rest (exec w removed_from_hass s) = s
  /\ w_self (r_world (exec w removed_from_hass s)) = set_subscription None (w_self w)
  /\ map t_status (w_tasks (r_world (exec w removed_from_hass s)))
     = map t_status (w_tasks w)
  /\ calls (r_trace (exec w removed_from_hass s))
     = match _subscription (w_self w) with
       | Some t => [TaskCancel t]
       | None => []
       end.
Proof.
  destruct w as [[key api tm st vi [t|]] tasks]; [|done].
  unfold removed_from_hass; cbn. destruct (tasks !! t) as [task|] eqn:Ht; [|done].
  destruct (task_done task); [done|]. cbn. repeat split.
  rewrite list_fmap_insert. simpl. apply list_insert_id.
  rewrite list_lookup_fmap. exact (f_equal (fmap t_status) Ht).
Qed.

Lemma ends_task_outcome (c : call) (t : M unit) :
  ends_task c t -> t = Ret (cancel_outcome c).
Proof. unfold ends_task, cancel_outcome. destruct c; try done. by case_decide. Qed.

Lemma removed_from_hass_world (w : World) (t : task_id) (task : Task) (s : list reply) :
  _subscription (w_self w) = Some t ->
  w_tasks w !! t = Some task ->
  task_done task = false ->
  r_world (exec w removed_from_hass s)
  = mkWorld (set_subscription None (w_self w)) (<[t := request_cancel task]> (w_tasks w)).
Proof.
  destruct w as [[key api tm st vi sub] tasks]. simpl. intros -> Htask Hdone.
  unfold removed_from_hass; cbn. by rewrite Htask, Hdone.
Qed.

(** X5: removal stops the supervision task wherever it is suspended.
    When the task gets its next turn after [__removed_from_hass], the
    cancellation is delivered at the call it waits in and the task is
    done at once, without a further call: cancelled when it was in the
    backoff sleep, with a plain return anywhere else. *)
Theorem removal_stops_supervisor
    (fuel n : nat) (w : World) (t : task_id) (c : call)
    (k : answer c -> coro (outcome unit)) (s s' : list reply) :
  _subscription (w_self w) = Some t ->
  w_tasks w !! t = Some (mkTask SubscriptionTask (Some (Waiting c k)) false) ->
  suspended_in (subscription_task n) (Waiting c k) ->
  exists a,
    throw_in CancelledError c = Some a
    /\ step_task fuel t (r_world (exec w removed_from_hass s)) s'
       = Some (mkResult [Ev c a]
                 (mkWorld (set_subscription None (w_self w))
                    (<[t := mkTask SubscriptionTask (Some (Returned (cancel_outcome c))) false]>
                       (w_tasks w)))
                 (Returned (cancel_outcome c)) s').
Proof.
  intros Hsub Htask [Hpt Haw].
  destruct (awaitable_throw_in c Haw) as [a Ha]. exists a. split; [done|].
  pose proof (on_cancel_point _ _ _ _ _ (cancellation_ends_task n) Hpt Ha) as Hend.
  apply ends_task_outcome in Hend.
  assert (Htr : traced c = true) by (by destruct c).
  pose proof (lookup_lt_Some _ _ _ Htask) as Hlt.
  rewrite (removed_from_hass_world w t _ s Hsub Htask) by done.
  unfold step_task. cbn [w_tasks w_self].
  rewrite list_lookup_insert_eq by done.
  cbn [request_cancel t_status t_must_cancel t_kind]. rewrite Ha.
  unfold emit. rewrite Htr, Hend.
  change (exec ?w0 (Ret ?r0) ?s0) with (mkResult [] w0 (Returned r0) s0).
  unfold commit, with_tasks. cbn [r_trace r_world r_status r_rest w_tasks w_self].
  by rewrite list_insert_insert_eq.
Qed.

Lemma removal_stops_supervisor_witness :
  exists a,
    throw_in CancelledError ApiSubscribeNext = Some a
    /\ step_task 4 0%nat (r_world (exec Sample.subscribed removed_from_hass [])) []
       = Some (mkResult [Ev ApiSubscribeNext a]
                 (mkWorld (set_subscription None (w_self Sample.subscribed))
                    (<[0%nat := mkTask SubscriptionTask
                                  (Some (Returned (cancel_outcome ApiSubscribeNext))) false]>
                       (w_tasks Sample.subscribed)))
                 (Returned (cancel_outcome ApiSubscribeNext)) []).
Proof.
  eapply (removal_stops_supervisor 4 4 Sample.subscribed 0%nat ApiSubscribeNext _ [] []).
  - reflexivity.
  - reflexivity.
  - split; [|reflexivity].
    apply (exec_point Sample.added _ [RUnit; RBool true; RBool true; RUnit]). reflexivity.
Defined.

(** ** Adding the entity *)

Lemma exec_async_added_to_hass (w : World) (s : list reply) :
  exec w async_added_to_hass (RUnit :: s)
  = mkResult
      (Ev (CreateTask SubscriptionTask) (length (w_tasks w))
         :: (if key_given (w_self w)
             then [Ev (CreateTask SetupYoutubeApi) (S (length (w_tasks w)))]
             else [])
         ++ [Ev OnRemove tt])
      (mkWorld (set_subscription (Some (length (w_tasks w))) (w_self w))
               (w_tasks w ++ scheduled (w_self w)))
      (Returned (Ok tt)) s.
Proof.
  destruct w as [[[[|ch key]|] api tm st vi sub] tasks]; cbn; try done.
  unfold with_tasks, with_self. cbn [w_tasks w_self].
  rewrite length_app, Nat.add_comm, <- app_assoc. reflexivity.
Qed.

(** X6: [async_added_to_hass] always schedules the supervision task and
    stores its handle; it schedules the metadata setup exactly when the
    API key is a non-empty string (a missing key and an empty key are
    treated alike); it registers the removal hook last; nothing has run
    when it returns, and but for the handle the entity is untouched. *)
Theorem added_to_hass_schedules (w : World) (s : list reply) :
  let r := exec w async_added_to_hass (RUnit :: s) in
  r_status r = Returned (Ok tt)
  /\ r_rest r = s
  /\ _subscription (w_self (r_world r)) = Some (length (w_tasks w))
  /\ w_tasks (r_world r) !! length (w_tasks w) = Some (mkTask SubscriptionTask None false)
  /\ w_tasks (r_world r) = w_tasks w ++ scheduled (w_self w)
  /\ calls (r_trace r)
     = map (fun task => CreateTask (t_kind task)) (scheduled (w_self w)) ++ [OnRemove]
  /\ set_subscription (_subscription (w_self w)) (w_self (r_world r)) = w_self w.
Proof.
  cbn zeta. rewrite exec_async_added_to_hass. cbn [r_status r_rest r_world r_trace w_self w_tasks].
  repeat split.
  - unfold scheduled. by rewrite list_lookup_middle.
  - unfold scheduled. by destruct (key_given (w_self w)).
  - by destruct w as [[]].
Qed.

(** X7: an entity that is removed before the event loop gave the
    supervision task its first turn never talks to the lounge: the task
    ends cancelled without having made a single call, whatever the
    entity was before. *)
Theorem removed_before_first_turn (fuel : nat) (w : World) (s s' s'' : list reply) :
  let added := r_world (exec w async_added_to_hass (RUnit :: s)) in
  let removed := r_world (exec added removed_from_hass s') in
  step_task fuel (length (w_tasks w)) removed s''
  = Some (mkResult []
            (mkWorld (set_subscription None (w_self w))
               (w_tasks w
                ++ mkTask SubscriptionTask (Some (Returned (Exc CancelledError))) false
                   :: (if key_given (w_self w) then [mkTask SetupYoutubeApi None false] else [])))
            (Returned (Exc CancelledError)) s'').
Proof.
  cbn zeta. rewrite exec_async_added_to_hass. cbn [r_world].
  destruct w as [self tasks]. cbn [w_tasks w_self].
  assert (Hlk : forall task rest, (tasks ++ task :: rest) !! length tasks = Some task).
  { intros task rest. by rewrite list_lookup_middle. }
  unfold scheduled.
  rewrite (removed_from_hass_world _ (length tasks) (mkTask SubscriptionTask None false) s')
    by (try done; apply Hlk).
  unfold step_task. cbn [w_tasks w_self].
  rewrite list_lookup_insert_eq by (rewrite length_app; simpl; lia).
  cbn [request_cancel t_status t_must_cancel t_kind].
  unfold commit, with_tasks. cbn [r_trace r_world r_status r_rest w_tasks w_self].
  rewrite list_insert_insert_eq.
  rewrite insert_app_r_alt by lia. rewrite Nat.sub_diag.
  by destruct self.
Qed.

(** X8: removal cancels the supervision task only.  The metadata setup
    scheduled for an entity with an API key is not cancelled by
    [__removed_from_hass]: it is still due after the removal, and when
    it gets its turn it runs the discovery and stores the service in the
    removed entity. *)
Theorem removal_leaves_setup_running
    (fuel : nat) (w : World) (api : YtApi) (s s' s'' : list reply) :
  key_given (w_self w) = true ->
  current_video_id (w_self w) = None ->
  let added := r_world (exec w async_added_to_hass (RUnit :: s)) in
  let removed := r_world (exec added removed_from_hass s') in
  w_tasks removed !! S (length (w_tasks w)) = Some (mkTask SetupYoutubeApi None false)
  /\ exists r,
       step_task fuel (S (length (w_tasks w))) removed (RApi api :: s'') = Some r
       /\ r_trace r = [Ev Discover (Ok api)]
       /\ r_status r = Returned (Ok tt)
       /\ _yt_api (w_self (r_world r)) = Some api.
Proof.
  intros Hkey Hvid. cbn zeta. rewrite exec_async_added_to_hass. cbn [r_world].
  destruct w as [self tasks]. cbn [w_tasks w_self] in *.
  unfold scheduled. rewrite Hkey.
  assert (Hlk : forall (a b : Task), (tasks ++ [a; b]) !! length tasks = Some a).
  { intros a b. by rewrite list_lookup_middle. }
  assert (Hlk2 : forall (a b : Task), (tasks ++ [a; b]) !! S (length tasks) = Some b).
  { intros a b. rewrite lookup_app_r by lia.
    by replace (S (length tasks) - length tasks)%nat with 1%nat by lia. }
  rewrite (removed_from_hass_world _ (length tasks) (mkTask SubscriptionTask None false) s')
    by (try done; apply Hlk).
  cbn [w_tasks w_self].
  assert (Hne : length tasks <> S (length tasks)) by lia.
  split.
  - rewrite list_lookup_insert_ne by done. apply Hlk2.
  - unfold step_task. cbn [w_tasks].
    rewrite list_lookup_insert_ne by done. rewrite Hlk2. cbn [t_status t_must_cancel t_kind].
    eexists. split; [reflexivity|].
    destruct self as [key yt tm st vi sub].
    unfold current_video_id in Hvid. simpl in Hvid.
    unfold task_body, setup_youtube_api, current_video_id. cbn.
    destruct st as [[ps [vid|] ct du]|]; cbn; try done.
    simpl in Hvid. destruct (truthy_str vid); [done|]. by cbn.
Qed.

Lemma removal_leaves_setup_running_witness :
  let w := world0 (YtMediaPlayer_init (Some "key") 0) in
  let added := r_world (exec w async_added_to_hass [RUnit]) in
  let removed := r_world (exec added removed_from_hass []) in
  w_tasks removed !! 1%nat = Some (mkTask SetupYoutubeApi None false)
  /\ exists r,
       step_task 4 1%nat removed [RApi YoutubeV3] = Some r
       /\ r_trace r = [Ev Discover (Ok YoutubeV3)]
       /\ r_status r = Returned (Ok tt)
       /\ _yt_api (w_self (r_world r)) = Some YoutubeV3.
Proof.
  apply (removal_leaves_setup_running 4 (world0 (YtMediaPlayer_init (Some "key") 0))
           YoutubeV3 [] [] []); reflexivity.
Defined.

(** ** The callback, case by case *)

Lemma callback_without_lookup_run
    (w : World) (n : option PlaybackState) (t : datetime) (s : list reply) :
  due_lookup (_yt_api (w_self w)) (cached_id (w_self w)) n = [] ->
  exec w (new_state n) (RTime t :: RUnit :: s)
  = mkResult [Ev UtcNow t; Ev WriteHaState tt]
      (with_self (fun self => set_video_info (kept_info self n)
                                (set_state n (set_state_time t self))) w)
      (Returned (Ok tt)) s
  /\ kept_info (w_self w) n
     = match _yt_api (w_self w), media_id n with
       | Some _, Some _ => _video_info (w_self w)
       | _, _ => None
       end.
Proof.
  intros Hdue. split; [|done].
  destruct w as [[key yt tm st0 vi sub] tasks]. revert Hdue.
  unfold new_state, update_video_snippet, due_lookup, cached_id, media_id, kept_info.
  destruct yt as [api|]; destruct n as [[ps [[|ch v]|] ct du]|];
    destruct vi as [[id ti de chn]|]; cbn;
    repeat case_bool_decide; cbn; try done; congruence.
Qed.

(** X9: a snapshot that needs no lookup (no metadata service, no media
    id, or the id of the cached record) is handled with one clock
    reading and one write to Home Assistant and nothing else; the
    metadata record is kept on a cache hit and dropped otherwise, so
    that without a service or without a media id title and channel read
    null. *)
Theorem callback_without_lookup
    (w : World) (n : option PlaybackState) (t : datetime) (s : list reply) :
  due_lookup (_yt_api (w_self w)) (cached_id (w_self w)) n = [] ->
  exec w (new_state n) (RTime t :: RUnit :: s)
  = mkResult [Ev UtcNow t; Ev WriteHaState tt]
      (with_self (fun self => set_video_info (kept_info self n)
                                (set_state n (set_state_time t self))) w)
      (Returned (Ok tt)) s
  /\ (kept_info (w_self w) n = None ->
      Facade.media_title (w_self (r_world (exec w (new_state n) (RTime t :: RUnit :: s)))) = None
      /\ Facade.media_channel (w_self (r_world (exec w (new_state n) (RTime t :: RUnit :: s))))
         = None).
Proof.
  intros Hdue. destruct (callback_without_lookup_run w n t s Hdue) as [Hrun _].
  split; [done|]. rewrite Hrun. unfold Facade.media_title, Facade.media_channel.
  cbn. by intros ->.
Qed.

Lemma callback_without_lookup_witness :
  exec (world0 Sample.player) (new_state (Some (Sample.playing "v1" (Sample.seconds 5))))
       [RTime 7; RUnit]
  = mkResult [Ev UtcNow 7; Ev WriteHaState tt]
      (with_self (fun self =>
                    set_video_info
                      (kept_info self (Some (Sample.playing "v1" (Sample.seconds 5))))
                      (set_state (Some (Sample.playing "v1" (Sample.seconds 5)))
                                 (set_state_time 7 self)))
                 (world0 Sample.player))
      (Returned (Ok tt)) []
  /\ Facade.media_title
       (w_self (r_world (exec (world0 Sample.player)
                              (new_state (Some (Sample.playing "v1" (Sample.seconds 5))))
                              [RTime 7; RUnit]))) = None
  /\ Facade.media_channel
       (w_self (r_world (exec (world0 Sample.player)
                              (new_state (Some (Sample.playing "v1" (Sample.seconds 5))))
                              [RTime 7; RUnit]))) = None.
Proof.
  destruct (callback_without_lookup (world0 Sample.player)
              (Some (Sample.playing "v1" (Sample.seconds 5))) 7 [] eq_refl) as [Hrun Hnull].
  split; [exact Hrun|exact (Hnull eq_refl)].
Defined.

(** X10: when a lookup is due and the service answers with at least one
    item, the record is built from the first item and the others are
    ignored; the state is written after the record is stored, and title
    and channel read what the first item says (null when it is empty). *)
Theorem callback_stores_first_item
    (w : World) (n : option PlaybackState) (v : string) (t : datetime)
    (snippet : VideoSnippet) (items : list VideoSnippet) (s : list reply) :
  due_lookup (_yt_api (w_self w)) (cached_id (w_self w)) n = [v] ->
  let r := exec w (new_state n) (RTime t :: RItems (snippet :: items) :: RUnit :: s) in
  r = mkResult [Ev UtcNow t; Ev (VideosList v) (Ok (snippet :: items)); Ev WriteHaState tt]
        (with_self (fun self => set_video_info (Some (VideoInfo_init (Some v) snippet))
                                  (set_state n (set_state_time t self))) w)
        (Returned (Ok tt)) s
  /\ Facade.media_title (w_self (r_world r)) = str_or_None (sn_title snippet)
  /\ Facade.media_channel (w_self (r_world r)) = str_or_None (sn_channelTitle snippet)
  /\ cached_id (w_self (r_world r)) = Some v
  /\ (exists k,
        exec w (new_state n) [RTime t; RItems (snippet :: items)]
        = mkResult [Ev UtcNow t; Ev (VideosList v) (Ok (snippet :: items))]
            (r_world r) (Waiting WriteHaState k) []).
Proof.
  intros Hdue r.
  assert (Hpending : exists k,
    exec w (new_state n) [RTime t; RItems (snippet :: items)]
    = mkResult [Ev UtcNow t; Ev (VideosList v) (Ok (snippet :: items))]
        (with_self (fun self => set_video_info (Some (VideoInfo_init (Some v) snippet))
                                  (set_state n (set_state_time t self))) w)
        (Waiting WriteHaState k) []).
  { destruct w as [[key yt tm st0 vi sub] tasks]. revert Hdue.
    unfold new_state, update_video_snippet, due_lookup, cached_id, media_id.
    destruct yt as [api|]; destruct n as [[ps [[|ch v']|] ct du]|];
      destruct vi as [[id ti de chn]|]; cbn;
      repeat case_bool_decide; cbn; try done; intros [= <-]; by eexists. }
  assert (Hrun : r
    = mkResult [Ev UtcNow t; Ev (VideosList v) (Ok (snippet :: items)); Ev WriteHaState tt]
        (with_self (fun self => set_video_info (Some (VideoInfo_init (Some v) snippet))
                                  (set_state n (set_state_time t self))) w)
        (Returned (Ok tt)) s).
  { subst r. destruct w as [[key yt tm st0 vi sub] tasks]. revert Hdue.
    unfold new_state, update_video_snippet, due_lookup, cached_id, media_id.
    destruct yt as [api|]; destruct n as [[ps [[|ch v']|] ct du]|];
      destruct vi as [[id ti de chn]|]; cbn;
      repeat case_bool_decide; cbn; try done; by intros [= <-]. }
  rewrite Hrun. split; [done|]. split; [done|]. split; [done|]. split; [done|].
  exact Hpending.
Qed.

Lemma callback_stores_first_item_witness :
  let r := exec (world0 Sample.with_service)
                (new_state (Some (Sample.playing "v1" (Sample.seconds 5))))
                [RTime 7; RItems [Sample.snippet "First"; Sample.snippet "Second"]; RUnit] in
  r = mkResult [Ev UtcNow 7;
                Ev (VideosList "v1") (Ok [Sample.snippet "First"; Sample.snippet "Second"]);
                Ev WriteHaState tt]
        (with_self (fun self =>
                      set_video_info (Some (VideoInfo_init (Some "v1") (Sample.snippet "First")))
                        (set_state (Some (Sample.playing "v1" (Sample.seconds 5)))
                                   (set_state_time 7 self)))
                   (world0 Sample.with_service))
        (Returned (Ok tt)) []
  /\ Facade.media_title (w_self (r_world r)) = str_or_None (sn_title (Sample.snippet "First"))
  /\ Facade.media_channel (w_self (r_world r))
     = str_or_None (sn_channelTitle (Sample.snippet "First"))
  /\ cached_id (w_self (r_world r)) = Some "v1".
Proof.
  destruct (callback_stores_first_item (world0 Sample.with_service)
              (Some (Sample.playing "v1" (Sample.seconds 5))) "v1" 7
              (Sample.snippet "First") [Sample.snippet "Second"] [])
    as (Hrun & Htitle & Hchannel & Hid & _); [reflexivity|].
  by repeat split.
Defined.

(** X11: when a lookup is due and the service answers with no item, the
    callback raises [IndexError]: the snapshot and its time are in the
    cache, the metadata record is the one of the video before, and the
    state is not written to Home Assistant. *)
Theorem callback_raises_on_empty_result
    (w : World) (n : option PlaybackState) (v : string) (t : datetime) (s : list reply) :
  due_lookup (_yt_api (w_self w)) (cached_id (w_self w)) n = [v] ->
  exec w (new_state n) (RTime t :: RItems [] :: s)
  = mkResult [Ev UtcNow t; Ev (VideosList v) (Ok [])]
      (with_self (fun self => set_state n (set_state_time t self)) w)
      (Returned (Exc (Exception "IndexError"))) s.
Proof.
  intros Hdue. destruct w as [[key yt tm st0 vi sub] tasks]. revert Hdue.
  unfold new_state, update_video_snippet, due_lookup, cached_id, media_id.
  destruct yt as [api|]; destruct n as [[ps [[|ch v']|] ct du]|];
    destruct vi as [[id ti de chn]|]; cbn;
    repeat case_bool_decide; cbn; try done; by intros [= <-].
Qed.

Lemma callback_raises_on_empty_result_witness :
  exec (world0 Sample.showing_v1)
       (new_state (Some (Sample.playing "v2" (Sample.seconds 1)))) [RTime 9; RItems []]
  = mkResult [Ev UtcNow 9; Ev (VideosList "v2") (Ok [])]
      (with_self (fun self => set_state (Some (Sample.playing "v2" (Sample.seconds 1)))
                                (set_state_time 9 self))
                 (world0 Sample.showing_v1))
      (Returned (Exc (Exception "IndexError"))) [].
Proof.
  apply (callback_raises_on_empty_result (world0 Sample.showing_v1)
           (Some (Sample.playing "v2" (Sample.seconds 1))) "v2" 9 []).
  reflexivity.
Defined.

(** ** Writes to Home Assistant *)

Lemma writes_app (t1 t2 : list event) : writes (t1 ++ t2) = (writes t1 + writes t2)%nat.
Proof. unfold writes. by rewrite List.filter_app, length_app. Qed.

Lemma failed_lookups_app (t1 t2 : list event) :
  failed_lookups (t1 ++ t2) = (failed_lookups t1 + failed_lookups t2)%nat.
Proof. unfold failed_lookups. by rewrite List.filter_app, length_app. Qed.

(** One run of the callback: it writes once when it returns, never when
    it raises; it raises when its lookup fails and only then; and it is
    not left waiting for the channel. *)
Lemma new_state_writes (w : World) (n : option PlaybackState) (s : list reply) :
  notifications (r_trace (exec w (new_state n) s)) = []
  /\ match r_status (exec w (new_state n) s) with
     | Returned o =>
         writes (r_trace (exec w (new_state n) s)) = (if returned o then 1%nat else 0%nat)
         /\ failed_lookups (r_trace (exec w (new_state n) s))
            = (if returned o then 0%nat else 1%nat)
     | Waiting c _ =>
         c <> ApiSubscribeNext
         /\ (c = WriteHaState ->
             _state (w_self (r_world (exec w (new_state n) s))) = n
             /\ clock_readings (r_trace (exec w (new_state n) s))
                = [_state_time (w_self (r_world (exec w (new_state n) s)))]
             /\ cached_id (w_self (r_world (exec w (new_state n) s)))
                = match _yt_api (w_self w) with Some _ => media_id n | None => None end
             /\ writes (r_trace (exec w (new_state n) s)) = 0%nat)
     | _ => True
     end.
Proof.
  destruct w as [[key yt tm st0 vi sub] tasks].
  unfold new_state, update_video_snippet, cached_id, media_id.
  destruct s as [|[] s']; try done.
  destruct yt as [api|]; destruct n as [[ps [[|ch v]|] ct du]|];
    destruct vi as [[id ti de chn]|]; cbn;
    repeat case_bool_decide; cbn;
    try (destruct s' as [|[| |e| | | | |[|sn items]] s'']; cbn);
    try (destruct s'' as [|[] s3]; cbn);
    done.
Qed.

Lemma subscribe_writes (fuel : nat) (w : World) (s : list reply) :
  quiet (r_status (exec w (api_subscribe fuel new_state) s)) = true ->
  (writes (r_trace (exec w (api_subscribe fuel new_state) s))
   + failed_lookups (r_trace (exec w (api_subscribe fuel new_state) s)))%nat
  = length (notifications (r_trace (exec w (api_subscribe fuel new_state) s))).
Proof.
  revert w s. induction fuel as [|m IH]; intros w s; [done|].
  destruct s as [|r0 s]; [done|].
  destruct r0 as [| |e| |[st|]| | |]; try done.
  rewrite api_subscribe_notify. unfold then_run.
  destruct (new_state_writes w st s) as [Hn Hw].
  set (rc := exec w (new_state st) s) in *.
  assert (Hnext : forall rest (b : bool),
    writes (r_trace rc) = (if b then 1%nat else 0%nat) ->
    failed_lookups (r_trace rc) = (if b then 0%nat else 1%nat) ->
    quiet (r_status (exec (r_world rc) (api_subscribe m new_state) rest)) = true ->
    let rr := prepend [Ev ApiSubscribeNext (Ok (Notify st))]
                (prepend (r_trace rc) (exec (r_world rc) (api_subscribe m new_state) rest)) in
    (writes (r_trace rr) + failed_lookups (r_trace rr))%nat
    = length (notifications (r_trace rr))).
  { intros rest b Hwr Hfl Hq. specialize (IH _ _ Hq).
    cbn [prepend r_trace r_world r_status r_rest app].
    destruct (trace_of_notify st (r_trace rc ++ r_trace (exec (r_world rc)
                (api_subscribe m new_state) rest))) as (-> & _ & _).
    rewrite notifications_app, Hn. cbn [app length].
    change (writes (?e :: ?tr)) with (writes tr).
    change (failed_lookups (?e :: ?tr)) with (failed_lookups tr).
    rewrite writes_app, failed_lookups_app, Hwr, Hfl, <- IH. destruct b; lia. }
  destruct (r_status rc) as [[[]|[|name]]|c k| |] eqn:Hst;
    cbn [after_callback prepend r_trace r_world r_status r_rest]; try done.
  - destruct Hw as [Hwr Hfl]. intros Hq. by apply (Hnext (r_rest rc) true).
  - destruct Hw as [Hwr Hfl].
    destruct (r_rest rc) as [|[| |e| | |[name'| |]| |] rest]; try done.
    + intros _. cbn [exec callback_raised invoke mbind M_mbind M_bind coro_bind internal
                       decode emit traced prepend r_trace r_world r_status r_rest app].
      rewrite app_nil_r.
      destruct (trace_of_notify st (r_trace rc)) as (-> & _ & _). rewrite Hn.
      change (writes (?e :: ?tr)) with (writes tr).
      change (failed_lookups (?e :: ?tr)) with (failed_lookups tr).
      by rewrite Hwr, Hfl.
    + intros Hq. by apply (Hnext rest false).
  - intros Hq. destruct Hw as [Hc _]. by destruct c.
Qed.

(** X12: every notification the subscription has handled was either
    written to Home Assistant, once, or its lookup failed.  In a run of
    [subscribe] that returned without an exception or waits for the next
    event, the [async_write_ha_state()] calls and the lookups that raised
    or brought no item are together as many as the notifications; one
    run of the callback writes once when it returns and not at all when
    it raises, and it raises exactly when its lookup fails; the write is
    the callback's last call: while it is pending, the snapshot and the
    clock reading are in the cache already and, with a service, the
    record in the slot is the one of the snapshot's id. *)
Theorem notification_written_or_lookup_failed
    (fuel : nat) (w : World) (s s' s'' : list reply) (n : option PlaybackState)
    (o : outcome unit) (k : unit -> M unit) :
  (quiet (r_status (exec w (api_subscribe fuel new_state) s)) = true ->
   (writes (r_trace (exec w (api_subscribe fuel new_state) s))
    + failed_lookups (r_trace (exec w (api_subscribe fuel new_state) s)))%nat
   = length (notifications (r_trace (exec w (api_subscribe fuel new_state) s))))
  /\ (r_status (exec w (new_state n) s') = Returned o ->
      writes (r_trace (exec w (new_state n) s')) = (if returned o then 1%nat else 0%nat)
      /\ failed_lookups (r_trace (exec w (new_state n) s'))
         = (if returned o then 0%nat else 1%nat))
  /\ (r_status (exec w (new_state n) s'') = Waiting WriteHaState k ->
      _state (w_self (r_world (exec w (new_state n) s''))) = n
      /\ clock_readings (r_trace (exec w (new_state n) s''))
         = [_state_time (w_self (r_world (exec w (new_state n) s'')))]
      /\ cached_id (w_self (r_world (exec w (new_state n) s'')))
         = match _yt_api (w_self w) with Some _ => media_id n | None => None end
      /\ writes (r_trace (exec w (new_state n) s'')) = 0%nat).
Proof.
  split; [apply subscribe_writes|]. split.
  - intros Hst. destruct (new_state_writes w n s') as [_ Hw]. by rewrite Hst in Hw.
  - intros Hst. destruct (new_state_writes w n s'') as [_ Hw]. rewrite Hst in Hw.
    by apply Hw.
Qed.

Lemma notification_written_or_lookup_failed_witness :
  (writes (r_trace (exec (world0 Sample.showing_v1) (api_subscribe 4 new_state)
                         (Sample.looked_up "v2" 1%Z
                          ++ [RChannel (Notify (Some (Sample.playing "v3" (Sample.seconds 1))));
                              RTime 2%Z; RRaise (Exception "HTTPError"); RReaction Returns])))
   + failed_lookups
       (r_trace (exec (world0 Sample.showing_v1) (api_subscribe 4 new_state)
                      (Sample.looked_up "v2" 1%Z
                       ++ [RChannel (Notify (Some (Sample.playing "v3" (Sample.seconds 1))));
                           RTime 2%Z; RRaise (Exception "HTTPError"); RReaction Returns]))))%nat
  = 2%nat
  /\ writes (r_trace (exec (world0 Sample.showing_v1)
                           (new_state (Some (Sample.playing "v2" (Sample.seconds 1))))
                           [RTime 9%Z; RRaise (Exception "HTTPError")]))
     = 0%nat.
Proof.
  destruct (notification_written_or_lookup_failed 4 (world0 Sample.showing_v1)
              (Sample.looked_up "v2" 1%Z
               ++ [RChannel (Notify (Some (Sample.playing "v3" (Sample.seconds 1))));
                   RTime 2%Z; RRaise (Exception "HTTPError"); RReaction Returns])
              [RTime 9%Z; RRaise (Exception "HTTPError")] []
              (Some (Sample.playing "v2" (Sample.seconds 1)))
              (Exc (Exception "HTTPError")) (fun _ => Ret (Ok tt))) as (Hsub & Hcb & _).
  split; [apply Hsub; reflexivity|apply Hcb; reflexivity].
Defined.

(** ** The metadata setup *)

(** X13: [__setup_youtube_api] stores the discovered service and, when a
    video is current, looks its metadata up unless the cached record is
    already for it, and writes the state once; with no current video it
    neither looks up nor writes.  It never changes the snapshot, its
    time, the handle or the task table.  When the discovery raises, the
    exception comes out and the entity is as it was. *)
Theorem setup_youtube_api_outcomes (w : World) (s : list reply) (e : exn) :
  (r_status (exec w setup_youtube_api s) = Returned (Ok tt) ->
   exists api,
     head s = Some (RApi api)
     /\ _yt_api (w_self (r_world (exec w setup_youtube_api s))) = Some api
     /\ lookups (r_trace (exec w setup_youtube_api s))
        = due_lookup (Some api) (cached_id (w_self w)) (_state (w_self w))
     /\ writes (r_trace (exec w setup_youtube_api s))
        = match current_video_id (w_self w) with Some _ => 1%nat | None => 0%nat end
     /\ set_video_info (_video_info (w_self w))
          (set_yt_api (_yt_api (w_self w)) (w_self (r_world (exec w setup_youtube_api s))))
        = w_self w
     /\ w_tasks (r_world (exec w setup_youtube_api s)) = w_tasks w)
  /\ exec w setup_youtube_api (RRaise e :: s)
     = mkResult [Ev Discover (Exc e)] w (Returned (Exc e)) s.
Proof.
  split; [|by destruct w].
  destruct w as [[key yt tm st0 vi sub] tasks].
  destruct s as [|[| | | | | |api|] s']; try done.
  intros H. exists api. split; [done|]. revert H.
  unfold setup_youtube_api, update_video_snippet, current_video_id, due_lookup, cached_id,
    media_id.
  destruct st0 as [[ps [[|ch v]|] ct du]|];
    destruct vi as [[id ti de chn]|]; cbn;
    repeat case_bool_decide; cbn;
    try (destruct s' as [|[| |e'| | | | |[|sn items]] s'']; cbn);
    try (destruct s'' as [|[] s3]; cbn);
    try done; try congruence.
Qed.

Lemma setup_youtube_api_outcomes_witness :
  let self := set_state (Some (Sample.playing "v1" (Sample.seconds 5))) Sample.player in
  let r := exec (world0 self) setup_youtube_api
                [RApi YoutubeV3; RItems [Sample.snippet "Title"]; RUnit] in
  exists api,
    head [RApi YoutubeV3; RItems [Sample.snippet "Title"]; RUnit] = Some (RApi api)
    /\ _yt_api (w_self (r_world r)) = Some api
    /\ lookups (r_trace r)
       = due_lookup (Some api) None (Some (Sample.playing "v1" (Sample.seconds 5)))
    /\ writes (r_trace r) = 1%nat
    /\ set_video_info None (set_yt_api None (w_self (r_world r))) = self
    /\ w_tasks (r_world r) = [].
Proof.
  apply (setup_youtube_api_outcomes
           (world0 (set_state (Some (Sample.playing "v1" (Sample.seconds 5))) Sample.player))
           [RApi YoutubeV3; RItems [Sample.snippet "Title"]; RUnit] CancelledError).
  reflexivity.
Defined.

(** X14: metadata arrives late when the discovery ends after the first
    snapshot.  An entity without the service handles a snapshot with a
    media id: title and channel read null.  When [__setup_youtube_api]
    then runs, it looks that video up and writes the state, and title
    and channel read what the service said, for the unchanged snapshot
    and snapshot time. *)
Theorem late_discovery_fills_metadata
    (w : World) (st : PlaybackState) (v : string) (t : datetime) (api : YtApi)
    (snippet : VideoSnippet) (items : list VideoSnippet) (s s' : list reply) :
  _yt_api (w_self w) = None ->
  media_id (Some st) = Some v ->
  let first := exec w (new_state (Some st)) (RTime t :: RUnit :: s) in
  let second := exec (r_world first) setup_youtube_api
                     (RApi api :: RItems (snippet :: items) :: RUnit :: s') in
  r_status first = Returned (Ok tt)
  /\ Facade.media_title (w_self (r_world first)) = None
  /\ Facade.media_channel (w_self (r_world first)) = None
  /\ r_status second = Returned (Ok tt)
  /\ r_trace second
     = [Ev Discover (Ok api); Ev (VideosList v) (Ok (snippet :: items)); Ev WriteHaState tt]
  /\ Facade.media_title (w_self (r_world second)) = str_or_None (sn_title snippet)
  /\ Facade.media_channel (w_self (r_world second)) = str_or_None (sn_channelTitle snippet)
  /\ _state (w_self (r_world second)) = Some st
  /\ _state_time (w_self (r_world second)) = t.
Proof.
  intros Hapi Hid first second.
  assert (Hdue : due_lookup (_yt_api (w_self w)) (cached_id (w_self w)) (Some st) = [])
    by (by rewrite Hapi).
  destruct (callback_without_lookup_run w (Some st) t s Hdue) as [Hfirst Hkept].
  subst first second. rewrite Hfirst. cbn [r_status r_world].
  destruct w as [[key yt tm st0 vi sub] tasks]. simpl in Hapi. subst yt.
  revert Hid. unfold media_id, setup_youtube_api, update_video_snippet, current_video_id.
  destruct st as [ps [[|ch v']|] ct du]; cbn; try done. by intros [= <-].
Qed.

Lemma late_discovery_fills_metadata_witness :
  let first := exec (world0 Sample.player)
                    (new_state (Some (Sample.playing "v1" (Sample.seconds 5))))
                    [RTime 7; RUnit] in
  let second := exec (r_world first) setup_youtube_api
                     [RApi YoutubeV3; RItems [Sample.snippet "Title"]; RUnit] in
  r_status first = Returned (Ok tt)
  /\ Facade.media_title (w_self (r_world first)) = None
  /\ Facade.media_channel (w_self (r_world first)) = None
  /\ r_status second = Returned (Ok tt)
  /\ r_trace second
     = [Ev Discover (Ok YoutubeV3); Ev (VideosList "v1") (Ok [Sample.snippet "Title"]);
        Ev WriteHaState tt]
  /\ Facade.media_title (w_self (r_world second)) = str_or_None (sn_title (Sample.snippet "Title"))
  /\ Facade.media_channel (w_self (r_world second))
     = str_or_None (sn_channelTitle (Sample.snippet "Title"))
  /\ _state (w_self (r_world second)) = Some (Sample.playing "v1" (Sample.seconds 5))
  /\ _state_time (w_self (r_world second)) = 7.
Proof.
  apply (late_discovery_fills_metadata (world0 Sample.player)
           (Sample.playing "v1" (Sample.seconds 5)) "v1" 7 YoutubeV3
           (Sample.snippet "Title") [] [] []); reflexivity.
Defined.

(** ** More on the facade *)

Lemma digits2_pos_bounds (m : positive) :
  2 ^ (Z.pos (digits2_pos m) - 1) <= Z.pos m < 2 ^ Z.pos (digits2_pos m).
Proof.
  induction m as [m IH|m IH|]; cbn [digits2_pos]; [| |by compute].
  - rewrite Pos2Z.inj_succ. replace (Z.succ (Z.pos (digits2_pos m)) - 1)
      with (Z.succ (Z.pos (digits2_pos m) - 1)) by lia.
    rewrite !Z.pow_succ_r by lia. lia.
  - rewrite Pos2Z.inj_succ. replace (Z.succ (Z.pos (digits2_pos m)) - 1)
      with (Z.succ (Z.pos (digits2_pos m) - 1)) by lia.
    rewrite !Z.pow_succ_r by lia. lia.
Qed.

(** On binary64 floats [below_one] is the comparison with [1.0]. *)
Lemma below_one_binary64 (x : spec_float) :
  valid_binary 53 1024 x = true ->
  below_one x = SFltb (SFabs x) one64.
Proof.
  destruct x as [neg|neg| |neg m e]; try done.
  unfold valid_binary, bounded, canonical_mantissa, fexp, emin.
  intros [Hc _]%andb_prop. apply Z.eqb_eq in Hc.
  pose proof (digits2_pos_bounds m) as [Hlo Hhi].
  unfold below_one, SFltb, SFabs, SFcompare, one64.
  destruct (Z.compare_spec e (-52)) as [->|He|He].
  - change (2 ^ (- (-52))) with (Z.pos (2 ^ 52)). change (-52 <? 0) with true. cbn [andb].
    unfold Z.ltb. cbn [Z.compare]. unfold Pos.compare.
    by destruct (Pos.compare_cont Eq m (2 ^ 52)).
  - assert (Hd : Z.pos (digits2_pos m) <= 53) by lia.
    assert (Hp : 2 ^ Z.pos (digits2_pos m) <= 2 ^ (- e)) by (apply Z.pow_le_mono_r; lia).
    apply andb_true_intro. split; [apply Z.ltb_lt; lia|apply Z.ltb_lt; lia].
  - destruct (Z.ltb_spec e 0) as [Hneg|Hpos]; [|done]. cbn [andb].
    apply Z.ltb_ge.
    assert (Hd : Z.pos (digits2_pos m) = 53) by lia.
    rewrite Hd in Hlo.
    assert (Hp : 2 ^ (- e) <= 2 ^ (53 - 1)) by (apply Z.pow_le_mono_r; lia).
    lia.
Qed.

(** X15: the entity shows OFF exactly when the snapshot is null.  Each
    of the six playback states is shown as PLAYING, PAUSED or ON, so the
    last [return MediaPlayerState.OFF] of the property is not reached
    with a snapshot; and the entity never shows IDLE, STANDBY or
    BUFFERING. *)
Theorem state_off_only_when_null (self : Entity) :
  is_off (Facade.state self)
  = match _state self with
    | None => true
    | Some _ => false
    end
  /\ (forall st, _state self = Some st ->
      Facade.state self
      = if existsb (YtState_eqb (ps_state st)) [Playing; Starting; Buffering; Advertisement]
        then PLAYING
        else if YtState_eqb (ps_state st) Paused then PAUSED else ON)
  /\ Facade.state self <> IDLE
  /\ Facade.state self <> STANDBY
  /\ Facade.state self <> BUFFERING.
Proof.
  unfold Facade.state. destruct (_state self) as [[[] vid pos dur]|]; cbn;
    repeat split; try done; by intros st [= <-].
Qed.

Lemma state_off_only_when_null_witness :
  Facade.state Sample.showing_v1 = PLAYING.
Proof.
  destruct (state_off_only_when_null Sample.showing_v1) as (_ & H & _).
  exact (H _ eq_refl).
Defined.

(** X16: with a snapshot in the cache, the position is read as null
    exactly when the snapshot's time is a number below one second in
    absolute value (on binary64 floats: below [1.0]), and reading it
    raises exactly when the time is an infinity or a NaN; the same holds
    of the duration. *)
Theorem position_null_below_one_second
    (self : Entity) (s : YtState) (vid : option string) (x other : spec_float) :
  let at_time := set_state (Some (mkPlaybackState s vid x other)) self in
  let of_length := set_state (Some (mkPlaybackState s vid other x)) self in
  reads_null (Facade.media_position at_time) = below_one x
  /\ returned (Facade.media_position at_time) = is_number x
  /\ reads_null (Facade.media_duration of_length) = below_one x
  /\ returned (Facade.media_duration of_length) = is_number x
  /\ (valid_binary 53 1024 x = true -> below_one x = SFltb (SFabs x) one64).
Proof.
  cbn zeta.
  assert (Hint : forall neg m e,
    reads_null (match Py.int (S754_finite neg m e) with
                | Ok z => Ok (int_or_None z)
                | Exc e => Exc e
                end)
    = below_one (S754_finite neg m e)).
  { intros neg m e. unfold Py.int, below_one, int_or_None, truthy_int.
    destruct (Z.leb_spec 0 e) as [Hpos|Hneg].
    - replace (e <? 0) with false by (symmetry; apply Z.ltb_ge; lia). cbn [andb].
      assert (0 < 2 ^ e) by (apply Z.pow_pos_nonneg; lia).
      assert (Hmag : Z.pos m * 2 ^ e <> 0) by nia.
      destruct neg.
      + destruct (Z.eqb_spec (- (Z.pos m * 2 ^ e)) 0); [lia|done].
      + destruct (Z.eqb_spec (Z.pos m * 2 ^ e) 0); [lia|done].
    - replace (e <? 0) with true by (symmetry; apply Z.ltb_lt; lia). cbn [andb].
      assert (Hp : 0 < 2 ^ (- e)) by (apply Z.pow_pos_nonneg; lia).
      destruct (Z.ltb_spec (Z.pos m) (2 ^ (- e))) as [Hlt|Hge].
      + rewrite Z.div_small by lia. by destruct neg.
      + assert (Hq : 1 <= Z.pos m / 2 ^ (- e)).
        { apply Z.div_le_lower_bound; lia. }
        destruct neg.
        * destruct (Z.eqb_spec (- (Z.pos m / 2 ^ (- e))) 0); [lia|done].
        * destruct (Z.eqb_spec (Z.pos m / 2 ^ (- e)) 0); [lia|done]. }
  unfold Facade.media_position, Facade.media_duration. cbn [_state set_state currentTime duration].
  destruct x as [neg|neg| |neg m e]; try (by repeat split).
  rewrite Hint. repeat split; try done.
  apply below_one_binary64.
Qed.

Lemma position_null_below_one_second_witness :
  below_one (S754_finite false (2 ^ 52) (-53))
  = SFltb (SFabs (S754_finite false (2 ^ 52) (-53))) one64.
Proof.
  destruct (position_null_below_one_second Sample.player Playing None
              (S754_finite false (2 ^ 52) (-53)) (S754_zero false))
    as (_ & _ & _ & _ & H).
  apply H. reflexivity.
Defined.

(** ** How the supervision task ends *)

Lemma monitor_last (q : option event) (tr : list event) :
  monitor last_step q tr = Some (match last tr with Some e => Some e | None => q end).
Proof.
  revert q. induction tr as [|e tr IH]; intros q; [done|].
  cbn [monitor last_step]. rewrite IH. rewrite last_cons. by destruct (last tr).
Qed.

Lemma wp_last_new_state (n : option PlaybackState) (q : option event) :
  wp last_step (new_state n) cancelled_by_last q.
Proof.
  unfold new_state, update_video_snippet, cancelled_by_last, cancelled_outside_backoff.
  repeat first [wp_step ltac:(apply wp_coro_bind) | by eexists].
Qed.

Lemma wp_last_subscribe (fuel : nat) (q : option event) :
  wp last_step (api_subscribe fuel new_state) cancelled_by_last q.
Proof.
  revert q. induction fuel as [|n IH]; intros q; [done|].
  cbn -[new_state after_callback].
  intros [[st|]|[|name]]; cbn -[new_state after_callback]; try done.
  - apply wp_coro_bind. eapply wp_mono; [|apply wp_last_new_state].
    intros [[]|[|name]] q' H; cbn; [apply IH|done|].
    intros [name'| |]; cbn; [done|done|apply IH].
  - by eexists.
Qed.

Lemma wp_last_pass (q : option event) :
  wp last_step reconnect_pass cancelled_by_last q.
Proof.
  unfold reconnect_pass, new_state, update_video_snippet, cancelled_by_last,
    cancelled_outside_backoff.
  repeat first [wp_step ltac:(apply wp_coro_bind) | by eexists].
Qed.

Lemma wp_last_loop (fuel : nat) (q : option event) :
  wp last_step (reconnect_loop fuel) cancelled_by_last q.
Proof.
  revert q. induction fuel as [|n IH]; intros q; [done|].
  cbn -[reconnect_pass]. intros [|]; cbn -[reconnect_pass]; [done|].
  apply wp_coro_bind. eapply wp_mono; [|apply wp_last_pass].
  intros [[]|[|name]] q' H; cbn; first [done|apply IH].
Qed.

Lemma wp_last_steady (fuel : nat) (q : option event) :
  wp last_step (steady_state fuel) cancelled_by_last q.
Proof.
  revert q. induction fuel as [|n IH]; intros q; [done|].
  rewrite steady_state_S.
  apply wp_coro_bind. eapply wp_mono; [|apply wp_last_loop].
  intros [[]|[|name]] q' H; cbn -[api_subscribe steady_state new_state]; try done.
  intros []. cbn -[api_subscribe steady_state new_state].
  apply wp_coro_bind. eapply wp_mono; [|apply wp_last_subscribe].
  intros [[]|[|name]] q'' H'; cbn -[steady_state]; try done.
  intros [[]|[|name]]; cbn -[steady_state]; first [done|apply IH|by eexists].
Qed.

Lemma wp_last_keep_alive (fuel : nat) (q : option event) :
  wp last_step (subscribe_and_keep_alive fuel) cancelled_by_last q.
Proof.
  unfold subscribe_and_keep_alive. cbn -[steady_state].
  intros [|]; cbn -[steady_state]; [apply wp_last_steady|].
  intros [b|[|name]]; cbn -[steady_state]; first [done|apply wp_last_steady|by eexists].
Qed.

Lemma wp_last_task (fuel : nat) (q : option event) :
  wp last_step (subscription_task fuel)
     (fun o q' => match o with
                  | Ok _ => cancelled_outside_backoff q'
                  | Exc e => q' = Some (Ev (Sleep ERROR_RETRY_INTERVAL) (Exc e))
                  end) q.
Proof.
  revert q. induction fuel as [|n IH]; intros q; [done|].
  rewrite subscription_task_S. unfold supervised, try_except.
  cbn -[subscribe_and_keep_alive subscription_task]. intros [].
  cbn -[subscribe_and_keep_alive subscription_task].
  do 3 apply wp_coro_bind.
  eapply wp_mono; [|apply wp_last_keep_alive].
  intros [[]|[|name]] q' H; cbn -[subscription_task]; try done.
  intros []. cbn -[subscription_task]. intros [[]|e]; cbn -[subscription_task]; [|done].
  apply IH.
Qed.

(** X17: the supervision task never ends by itself.  Whenever a run of
    it returns, the last thing that happened is an exception raised into
    it: it returns normally only right after a call of the [try] body
    raised [CancelledError], and it ends with an exception only when the
    backoff sleep of the [except] clause raised that exception. *)
Theorem supervisor_ends_only_on_exception
    (fuel : nat) (w : World) (s : list reply) (o : outcome unit) :
  r_status (exec w (subscription_task fuel) s) = Returned o ->
  exists tr ev,
    r_trace (exec w (subscription_task fuel) s) = tr ++ [ev]
    /\ match o with
       | Ok _ => raised ev = Some CancelledError /\ ev_call ev <> Sleep ERROR_RETRY_INTERVAL
       | Exc e => ev = Ev (Sleep ERROR_RETRY_INTERVAL) (Exc e)
       end.
Proof.
  intros Hst.
  destruct (wp_exec last_step _ _ _ (wp_last_task fuel None) w s) as (q' & Hmon & Hq).
  specialize (Hq _ Hst). rewrite monitor_last in Hmon. injection Hmon as Hlast.
  assert (Hev : exists ev, q' = Some ev
            /\ match o with
               | Ok _ => raised ev = Some CancelledError
                         /\ ev_call ev <> Sleep ERROR_RETRY_INTERVAL
               | Exc e => ev = Ev (Sleep ERROR_RETRY_INTERVAL) (Exc e)
               end).
  { destruct o as [[]|e]; [destruct Hq as (ev & -> & H1 & H2)|]; eauto. }
  destruct Hev as (ev & -> & Hev).
  destruct (last (r_trace (exec w (subscription_task fuel) s))) as [ev'|] eqn:Hl; [|done].
  injection Hlast as ->. apply last_Some in Hl as [tr Htr]. eauto.
Qed.

Lemma supervisor_ends_only_on_exception_witness :
  exists tr ev,
    r_trace (exec (world0 Sample.player) (subscription_task 4)
                  (RUnit :: Sample.cancelled_in_subscribe)) = tr ++ [ev]
    /\ raised ev = Some CancelledError /\ ev_call ev <> Sleep ERROR_RETRY_INTERVAL.
Proof.
  apply (supervisor_ends_only_on_exception 4 (world0 Sample.player)
           (RUnit :: Sample.cancelled_in_subscribe) (Ok tt)).
  reflexivity.
Defined.

(** ** What the supervision task leaves alone *)

Lemma all_calls_bind {A B} (P : call -> bool) (m : coro A) (f : A -> coro B) :
  all_calls P m -> (forall a, all_calls P (f a)) -> all_calls P (coro_bind m f).
Proof.
  intros Hm Hf. induction m as [a|c k IH|]; simpl in *; [by apply Hf| |done].
  destruct Hm as [Hc Hk]. split; [done|]. intros a. by apply IH.
Qed.

Lemma all_calls_mbind {A B} (P : call -> bool) (m : M A) (f : A -> M B) :
  all_calls P m -> (forall a, all_calls P (f a)) -> all_calls P (m ≫= f).
Proof. intros Hm Hf. apply all_calls_bind; [done|]. by intros [a|e]. Qed.

Lemma same_frame_refl (w : World) : same_frame w w.
Proof. by repeat split. Qed.

Lemma same_frame_trans (w1 w2 w3 : World) :
  same_frame w1 w2 -> same_frame w2 w3 -> same_frame w1 w3.
Proof. unfold same_frame. intros (?&?&?&?) (?&?&?&?). repeat split; congruence. Qed.

Lemma internal_frame (c : call) (w w' : World) (a : answer c) :
  keeps_handle c = true -> internal c w = Answered a w' -> same_frame w w'.
Proof.
  destruct c; simpl in *; try done.
  - destruct (w_tasks w !! t) as [task|]; [|done].
    destruct (task_result task); [|done]. intros _ H. inversion H. apply same_frame_refl.
  - intros _ H. inversion H. apply same_frame_refl.
  - destruct a0; try done; intros _ H; inversion H; by destruct w as [[]].
Qed.

Lemma exec_frame {R} (p : coro R) (w : World) (s : list reply) :
  all_calls keeps_handle p -> same_frame w (r_world (exec w p s)).
Proof.
  revert w s. induction p as [r|c k IH|]; intros w s Hp; simpl;
    [apply same_frame_refl| |apply same_frame_refl].
  destruct Hp as [Hc Hk].
  destruct (internal c w) as [a w'| |] eqn:Hi.
  - rewrite emit_prepend. simpl. eapply same_frame_trans; [|by apply IH].
    by eapply internal_frame.
  - apply same_frame_refl.
  - destruct s as [|r s']; [apply same_frame_refl|].
    destruct (decode c r) as [a|]; [|apply same_frame_refl].
    rewrite emit_prepend. simpl. by apply IH.
Qed.

Lemma new_state_keeps_handle (n : option PlaybackState) :
  all_calls keeps_handle (new_state n).
Proof.
  unfold new_state, update_video_snippet.
  repeat (calls_step ltac:(apply all_calls_mbind)).
Qed.

Lemma api_subscribe_keeps_handle (fuel : nat) :
  all_calls keeps_handle (api_subscribe fuel new_state).
Proof.
  induction fuel as [|n IH]; [done|].
  cbn -[new_state after_callback]. split; [done|].
  intros [[st|]|e]; cbn -[new_state after_callback]; try done.
  apply all_calls_bind; [apply new_state_keeps_handle|].
  intros [[]|[|name]]; cbn; [exact IH|done|]. split; [done|]. by intros [].
Qed.

Lemma reconnect_loop_keeps_handle (fuel : nat) :
  all_calls keeps_handle (reconnect_loop fuel).
Proof.
  induction fuel as [|n IH]; [done|].
  cbn -[reconnect_pass]. split; [done|]. intros [|]; cbn -[reconnect_pass]; [done|].
  apply all_calls_bind.
  - unfold reconnect_pass, new_state, update_video_snippet.
    repeat (calls_step ltac:(apply all_calls_mbind)).
  - by intros [[]|e].
Qed.

Lemma steady_state_keeps_handle (fuel : nat) :
  all_calls keeps_handle (steady_state fuel).
Proof.
  induction fuel as [|n IH]; [done|].
  rewrite steady_state_S.
  apply all_calls_mbind; [apply reconnect_loop_keeps_handle|]. intros [].
  apply all_calls_mbind; [done|]. intros [].
  apply all_calls_mbind; [apply api_subscribe_keeps_handle|]. intros [].
  apply all_calls_mbind; [|by intros []]. cbn. split; [done|]. by intros [[]|e].
Qed.

Lemma subscription_task_keeps_handle (fuel : nat) :
  all_calls keeps_handle (subscription_task fuel).
Proof.
  induction fuel as [|n IH]; [done|].
  rewrite subscription_task_S.
  apply all_calls_mbind; [|by intros []].
  unfold try_except, supervised, subscribe_and_keep_alive. apply all_calls_bind.
  - apply all_calls_mbind; [done|]. intros [].
    apply all_calls_mbind; [|done].
    apply all_calls_mbind; [done|]. intros connected.
    apply all_calls_mbind; [|intros []; apply steady_state_keeps_handle].
    destruct connected; cbn; [done|]. split; [done|]. by intros [b|e].
  - intros [b|[|name]]; cbn; try done. split; [done|]. intros [].
    cbn. split; [done|]. by intros [[]|e].
Qed.

Lemma exec_calls {R} (P : call -> bool) (p : coro R) (w : World) (s : list reply) :
  all_calls P p -> forallb (fun e => P (ev_call e)) (r_trace (exec w p s)) = true.
Proof.
  revert w s. induction p as [r|c k IH|]; intros w s Hp; simpl; [done| |done].
  destruct Hp as [Hc Hk].
  assert (Hemit : forall a w' s',
            forallb (fun e => P (ev_call e)) (r_trace (emit c a (exec w' (k a) s'))) = true).
  { intros a w' s'. rewrite emit_prepend. simpl. rewrite forallb_app, IH by done.
    destruct (traced c); simpl; [by rewrite Hc|done]. }
  destruct (internal c w) as [a w'| |]; [apply Hemit|done|].
  destruct s as [|r s']; [done|].
  destruct (decode c r) as [a|]; [apply Hemit|done].
Qed.

(** X18: the supervision task works on the cache only.  In every run,
    however long and whatever the collaborators answer, it leaves the
    task handle, the metadata service, the API key and the event loop's
    task table as they were, and it never creates or cancels a task. *)
Theorem supervisor_keeps_handle (fuel : nat) (w : World) (s : list reply) :
  same_frame w (r_world (exec w (subscription_task fuel) s))
  /\ forallb (fun e => keeps_handle (ev_call e)) (r_trace (exec w (subscription_task fuel) s))
     = true.
Proof.
  split.
  - apply exec_frame, subscription_task_keeps_handle.
  - apply exec_calls, subscription_task_keeps_handle.
Qed.

(** ** More on manual reconnect *)

Lemma manual_reconnect_supersedes_witness :
  run_until_complete 1 4 Sample.subscribed manual_reconnect
    [RUnit; RUnit; RBool true; RUnit; RBool false; RUnit]
  = mkResult
      [Ev (Log DEBUG "manual_reconnect: cancelling subscription") tt;
       Ev (TaskCancel 0%nat) true;
       Ev (Log DEBUG "manual_reconnect: waiting for subscription to end") tt;
       Ev ApiSubscribeNext (Exc CancelledError);
       Ev (TaskAwait 0%nat) (Ok tt);
       Ev ApiRefreshAuth (Ok true);
       Ev (Log DEBUG "manual_reconnect: refresh auth %s") tt;
       Ev ApiConnect (Ok false);
       Ev (Log DEBUG "manual_reconnect: connect %s") tt;
       Ev (CreateTask SubscriptionTask) (length (w_tasks Sample.subscribed))]
      (mkWorld (set_subscription (Some (length (w_tasks Sample.subscribed)))
                                 (w_self Sample.subscribed))
               (<[0%nat := mkTask SubscriptionTask (Some (Returned (Ok tt))) false]>
                  (w_tasks Sample.subscribed)
                ++ [mkTask SubscriptionTask None false]))
      (Returned (Ok tt)) [].
Proof.
  eapply (manual_reconnect_supersedes 4 4 Sample.subscribed 0%nat ApiSubscribeNext _
            (Exc CancelledError) true false []).
  - reflexivity.
  - reflexivity.
  - apply (exec_point Sample.added _ [RUnit; RBool true; RBool true; RUnit]). reflexivity.
  - reflexivity.
  - discriminate.
Defined.

Lemma manual_reconnect_fails_in_backoff_witness :
  run_until_complete 1 4 (Sample.backing_off "ClientError") manual_reconnect [RUnit; RUnit]
  = mkResult
      [Ev (Log DEBUG "manual_reconnect: cancelling subscription") tt;
       Ev (TaskCancel 0%nat) true;
       Ev (Log DEBUG "manual_reconnect: waiting for subscription to end") tt;
       Ev (Sleep ERROR_RETRY_INTERVAL) (Exc CancelledError);
       Ev (TaskAwait 0%nat) (Exc CancelledError)]
      (mkWorld (w_self (Sample.backing_off "ClientError"))
               (<[0%nat := mkTask SubscriptionTask (Some (Returned (Exc CancelledError))) false]>
                  (w_tasks (Sample.backing_off "ClientError"))))
      (Returned (Exc CancelledError)) [].
Proof.
  eapply (manual_reconnect_fails_in_backoff 4 4 (Sample.backing_off "ClientError") 0%nat _ []).
  - reflexivity.
  - reflexivity.
  - apply (exec_point Sample.added _
             (RUnit :: Sample.error_in_subscribe "ClientError" ++ [RUnit])).
    reflexivity.
Defined.

(** [manual_reconnect] with a task in the handle that is done: the
    cancellation is refused and the await ends at once with the task's
    outcome. *)
Lemma manual_reconnect_done_task (w : World) (t : task_id) (task : Task) (o : outcome unit)
    (s : list reply) :
  _subscription (w_self w) = Some t ->
  w_tasks w !! t = Some task ->
  task_result task = Some o ->
  exec w manual_reconnect (RUnit :: RUnit :: s)
  = prepend
      [Ev (Log DEBUG "manual_reconnect: cancelling subscription") tt;
       Ev (TaskCancel t) false;
       Ev (Log DEBUG "manual_reconnect: waiting for subscription to end") tt;
       Ev (TaskAwait t) o]
      (match o with
       | Exc e => mkResult [] w (Returned (Exc e)) s
       | Ok _ => exec w reconnect_tail s
       end).
Proof.
  intros Hsub Htask Hres.
  assert (Hdone : task_done task = true).
  { unfold task_done, task_result in *. by destruct (t_status task) as [[]|]. }
  destruct w as [[key api tm st vi sub] tasks]. simpl in *. subst sub.
  unfold manual_reconnect.
  cbn [mbind M_mbind M_bind coro_bind get_self invoke exec internal emit traced
       _subscription w_self log_debug decode task_cancel task_await w_tasks].
  rewrite Htask, Hdone.
  cbn [mbind M_mbind M_bind coro_bind get_self invoke exec internal emit traced
       _subscription w_self log_debug decode task_cancel task_await w_tasks].
  rewrite Htask, Hres.
  destruct o as [[]|e]; reflexivity.
Qed.

(** X21: a handle that names a task which ended with an exception is
    never repaired.  [manual_reconnect] asks for the cancellation, which
    is refused, awaits the task, which raises the task's exception, and
    ends with it: no [refresh_auth()], no [connect()], no new task, and
    the entity and the task table are exactly as before, so that every
    later manual reconnect does the same. *)
Theorem manual_reconnect_dead_handle
    (turns fuel : nat) (w : World) (t : task_id) (task : Task) (e : exn) (s : list reply) :
  _subscription (w_self w) = Some t ->
  w_tasks w !! t = Some task ->
  task_result task = Some (Exc e) ->
  run_until_complete turns fuel w manual_reconnect (RUnit :: RUnit :: s)
  = mkResult
      [Ev (Log DEBUG "manual_reconnect: cancelling subscription") tt;
       Ev (TaskCancel t) false;
       Ev (Log DEBUG "manual_reconnect: waiting for subscription to end") tt;
       Ev (TaskAwait t) (Exc e)]
      w (Returned (Exc e)) s.
Proof.
  intros Hsub Htask Hres.
  pose proof (manual_reconnect_done_task w t task _ s Hsub Htask Hres) as Hrun.
  destruct turns; cbn [run_until_complete]; rewrite Hrun; reflexivity.
Qed.

Lemma manual_reconnect_dead_handle_witness :
  let dead := r_world (run_until_complete 1 4 (Sample.backing_off "ClientError")
                                          manual_reconnect [RUnit; RUnit]) in
  run_until_complete 3 4 dead manual_reconnect [RUnit; RUnit]
  = mkResult
      [Ev (Log DEBUG "manual_reconnect: cancelling subscription") tt;
       Ev (TaskCancel 0%nat) false;
       Ev (Log DEBUG "manual_reconnect: waiting for subscription to end") tt;
       Ev (TaskAwait 0%nat) (Exc CancelledError)]
      dead (Returned (Exc CancelledError)) [].
Proof.
  eapply (manual_reconnect_dead_handle 3 4 _ 0%nat _ CancelledError []); reflexivity.
Defined.

(** [manual_reconnect] with a task in the handle that is not done, up
    to the await and from the await on. *)
Lemma manual_reconnect_awaits (w : World) (t : task_id) (task : Task) (s : list reply) :
  _subscription (w_self w) = Some t ->
  w_tasks w !! t = Some task ->
  task_done task = false ->
  exists K,
    exec w manual_reconnect (RUnit :: RUnit :: s)
    = mkResult
        [Ev (Log DEBUG "manual_reconnect: cancelling subscription") tt;
         Ev (TaskCancel t) true;
         Ev (Log DEBUG "manual_reconnect: waiting for subscription to end") tt]
        (with_tasks (fun ts => <[t := request_cancel task]> ts) w)
        (Waiting (TaskAwait t) K) s
    /\ forall (w' : World) (task' : Task) (o : outcome unit) (s' : list reply),
         w_tasks w' !! t = Some task' ->
         task_result task' = Some o ->
         exec w' (Vis (TaskAwait t) K) s'
         = prepend [Ev (TaskAwait t) o]
             (match o with
              | Exc e => mkResult [] w' (Returned (Exc e)) s'
              | Ok _ => exec w' reconnect_tail s'
              end).
Proof.
  intros Hsub Htask Hdone.
  pose proof (lookup_lt_Some _ _ _ Htask) as Hlt.
  destruct w as [[key api tm st vi sub] tasks]. simpl in *. subst sub.
  unfold manual_reconnect. cbn. rewrite Htask, Hdone. cbn.
  rewrite list_lookup_insert_eq by done.
  assert (Hres : task_result (request_cancel task) = None).
  { unfold task_result, task_done in *. simpl. by destruct (t_status task) as [[]|]. }
  rewrite Hres. eexists. split; [reflexivity|].
  intros [self' tasks'] task' o s' Htask' Hres'. simpl in Htask'.
  cbn [exec internal w_tasks]. rewrite Htask', Hres'.
  destruct o as [[]|e]; reflexivity.
Qed.

(** The supervision task is cancelled anywhere but in its backoff
    sleep, awaited, and ended; what [manual_reconnect] does from there
    depends on the answers that follow. *)
Lemma manual_reconnect_cancels
    (fuel n : nat) (w : World) (t : task_id) (c : call)
    (k : answer c -> coro (outcome unit)) (a : answer c) (s : list reply) :
  _subscription (w_self w) = Some t ->
  w_tasks w !! t = Some (mkTask SubscriptionTask (Some (Waiting c k)) false) ->
  point_of (subscription_task n) c k ->
  throw_in CancelledError c = Some a ->
  c <> Sleep ERROR_RETRY_INTERVAL ->
  run_until_complete 1 fuel w manual_reconnect (RUnit :: RUnit :: s)
  = prepend
      [Ev (Log DEBUG "manual_reconnect: cancelling subscription") tt;
       Ev (TaskCancel t) true;
       Ev (Log DEBUG "manual_reconnect: waiting for subscription to end") tt;
       Ev c a;
       Ev (TaskAwait t) (Ok tt)]
      (exec (mkWorld (w_self w)
                     (<[t := mkTask SubscriptionTask (Some (Returned (Ok tt))) false]>
                        (w_tasks w)))
            reconnect_tail s).
Proof.
  intros Hsub Htask Hpt Ha Hc.
  pose proof (on_cancel_point _ _ _ _ _ (cancellation_ends_task n) Hpt Ha) as Hend.
  assert (Hka : k a = Ret (Ok tt)).
  { unfold ends_task in Hend. destruct c; try done. by case_decide; [subst|]. }
  assert (Htr : traced c = true) by (by destruct c).
  pose proof (lookup_lt_Some _ _ _ Htask) as Hlt.
  destruct (manual_reconnect_awaits w t _ s Hsub Htask) as (K & Hfirst & Hsecond); [done|].
  cbn [run_until_complete]. rewrite Hfirst. cbn [r_status r_world r_rest r_trace].
  unfold step_task. cbn [with_tasks w_tasks].
  rewrite list_lookup_insert_eq by done.
  cbn [request_cancel t_status t_must_cancel t_kind]. rewrite Ha.
  unfold emit. rewrite Htr, Hka.
  change (exec ?w0 (Ret ?r0) ?s0) with (mkResult [] w0 (Returned r0) s0).
  unfold commit, with_tasks. cbn [r_trace r_world r_status r_rest w_tasks w_self].
  rewrite list_insert_insert_eq.
  erewrite (Hsecond _ _ (Ok tt));
    [|cbn [w_tasks]; by rewrite list_lookup_insert_eq by done|done].
  by rewrite !prepend_prepend.
Qed.

(** X22: when [refresh_auth()] or [connect()] raises in
    [manual_reconnect], the old supervision task is already cancelled
    and ended and no new one is created: the exception comes out, the
    handle names the ended task and nothing supervises the connection.
    Unlike after a cancellation in the backoff sleep, the next manual
    reconnect gets through: the cancellation is refused, the await ends
    at once, and the new task is created. *)
Theorem failed_reconnect_leaves_no_supervisor
    (fuel n : nat) (w : World) (t : task_id) (c : call)
    (k : answer c -> coro (outcome unit)) (a : answer c) (e : exn)
    (refreshed connected : bool) (s s' : list reply) :
  _subscription (w_self w) = Some t ->
  w_tasks w !! t = Some (mkTask SubscriptionTask (Some (Waiting c k)) false) ->
  point_of (subscription_task n) c k ->
  throw_in CancelledError c = Some a ->
  c <> Sleep ERROR_RETRY_INTERVAL ->
  let ended :=
    mkWorld (w_self w)
            (<[t := mkTask SubscriptionTask (Some (Returned (Ok tt))) false]> (w_tasks w)) in
  run_until_complete 1 fuel w manual_reconnect (RUnit :: RUnit :: RRaise e :: s)
  = mkResult
      [Ev (Log DEBUG "manual_reconnect: cancelling subscription") tt;
       Ev (TaskCancel t) true;
       Ev (Log DEBUG "manual_reconnect: waiting for subscription to end") tt;
       Ev c a;
       Ev (TaskAwait t) (Ok tt);
       Ev ApiRefreshAuth (Exc e)]
      ended (Returned (Exc e)) s
  /\ run_until_complete 1 fuel w manual_reconnect
       (RUnit :: RUnit :: RBool refreshed :: RUnit :: RRaise e :: s)
     = mkResult
         [Ev (Log DEBUG "manual_reconnect: cancelling subscription") tt;
          Ev (TaskCancel t) true;
          Ev (Log DEBUG "manual_reconnect: waiting for subscription to end") tt;
          Ev c a;
          Ev (TaskAwait t) (Ok tt);
          Ev ApiRefreshAuth (Ok refreshed);
          Ev (Log DEBUG "manual_reconnect: refresh auth %s") tt;
          Ev ApiConnect (Exc e)]
         ended (Returned (Exc e)) s
  /\ run_until_complete 1 fuel ended manual_reconnect
       (RUnit :: RUnit :: RBool refreshed :: RUnit :: RBool connected :: RUnit :: s')
     = mkResult
         [Ev (Log DEBUG "manual_reconnect: cancelling subscription") tt;
          Ev (TaskCancel t) false;
          Ev (Log DEBUG "manual_reconnect: waiting for subscription to end") tt;
          Ev (TaskAwait t) (Ok tt);
          Ev ApiRefreshAuth (Ok refreshed);
          Ev (Log DEBUG "manual_reconnect: refresh auth %s") tt;
          Ev ApiConnect (Ok connected);
          Ev (Log DEBUG "manual_reconnect: connect %s") tt;
          Ev (CreateTask SubscriptionTask) (length (w_tasks w))]
         (mkWorld (set_subscription (Some (length (w_tasks w))) (w_self w))
                  (<[t := mkTask SubscriptionTask (Some (Returned (Ok tt))) false]> (w_tasks w)
                   ++ [mkTask SubscriptionTask None false]))
         (Returned (Ok tt)) s'.
Proof.
  intros Hsub Htask Hpt Ha Hc ended.
  pose proof (lookup_lt_Some _ _ _ Htask) as Hlt.
  split; [|split].
  - rewrite (manual_reconnect_cancels fuel n w t c k a _ Hsub Htask Hpt Ha Hc). reflexivity.
  - rewrite (manual_reconnect_cancels fuel n w t c k a _ Hsub Htask Hpt Ha Hc). reflexivity.
  - assert (Hrun : exec ended manual_reconnect
               (RUnit :: RUnit :: RBool refreshed :: RUnit :: RBool connected :: RUnit :: s')
             = prepend
                 [Ev (Log DEBUG "manual_reconnect: cancelling subscription") tt;
                  Ev (TaskCancel t) false;
                  Ev (Log DEBUG "manual_reconnect: waiting for subscription to end") tt;
                  Ev (TaskAwait t) (Ok tt)]
                 (exec ended reconnect_tail
                       (RBool refreshed :: RUnit :: RBool connected :: RUnit :: s'))).
    { apply (manual_reconnect_done_task ended t
               (mkTask SubscriptionTask (Some (Returned (Ok tt))) false) (Ok tt)).
      - exact Hsub.
      - subst ended. cbn [w_tasks]. by rewrite list_lookup_insert_eq.
      - reflexivity. }
    cbn [run_until_complete]. rewrite Hrun. subst ended.
    unfold prepend; cbn. by rewrite length_insert.
Qed.

Lemma failed_reconnect_leaves_no_supervisor_witness :
  let ended :=
    mkWorld (w_self Sample.subscribed)
            (<[0%nat := mkTask SubscriptionTask (Some (Returned (Ok tt))) false]>
               (w_tasks Sample.subscribed)) in
  run_until_complete 1 4 Sample.subscribed manual_reconnect
    [RUnit; RUnit; RRaise (Exception "ClientError")]
  = mkResult
      [Ev (Log DEBUG "manual_reconnect: cancelling subscription") tt;
       Ev (TaskCancel 0%nat) true;
       Ev (Log DEBUG "manual_reconnect: waiting for subscription to end") tt;
       Ev ApiSubscribeNext (Exc CancelledError);
       Ev (TaskAwait 0%nat) (Ok tt);
       Ev ApiRefreshAuth (Exc (Exception "ClientError"))]
      ended (Returned (Exc (Exception "ClientError"))) []
  /\ run_until_complete 1 4 Sample.subscribed manual_reconnect
       [RUnit; RUnit; RBool true; RUnit; RRaise (Exception "ClientError")]
     = mkResult
         [Ev (Log DEBUG "manual_reconnect: cancelling subscription") tt;
          Ev (TaskCancel 0%nat) true;
          Ev (Log DEBUG "manual_reconnect: waiting for subscription to end") tt;
          Ev ApiSubscribeNext (Exc CancelledError);
          Ev (TaskAwait 0%nat) (Ok tt);
          Ev ApiRefreshAuth (Ok true);
          Ev (Log DEBUG "manual_reconnect: refresh auth %s") tt;
          Ev ApiConnect (Exc (Exception "ClientError"))]
         ended (Returned (Exc (Exception "ClientError"))) []
  /\ run_until_complete 1 4 ended manual_reconnect
       [RUnit; RUnit; RBool true; RUnit; RBool true; RUnit]
     = mkResult
         [Ev (Log DEBUG "manual_reconnect: cancelling subscription") tt;
          Ev (TaskCancel 0%nat) false;
          Ev (Log DEBUG "manual_reconnect: waiting for subscription to end") tt;
          Ev (TaskAwait 0%nat) (Ok tt);
          Ev ApiRefreshAuth (Ok true);
          Ev (Log DEBUG "manual_reconnect: refresh auth %s") tt;
          Ev ApiConnect (Ok true);
          Ev (Log DEBUG "manual_reconnect: connect %s") tt;
          Ev (CreateTask SubscriptionTask) (length (w_tasks Sample.subscribed))]
         (mkWorld (set_subscription (Some (length (w_tasks Sample.subscribed)))
                                    (w_self Sample.subscribed))
                  (<[0%nat := mkTask SubscriptionTask (Some (Returned (Ok tt))) false]>
                     (w_tasks Sample.subscribed)
                   ++ [mkTask SubscriptionTask None false]))
         (Returned (Ok tt)) [].
Proof.
  eapply (failed_reconnect_leaves_no_supervisor 4 4 Sample.subscribed 0%nat ApiSubscribeNext _
            (Exc CancelledError) (Exception "ClientError") true true [] []).
  - reflexivity.
  - reflexivity.
  - apply (exec_point Sample.added _ [RUnit; RBool true; RBool true; RUnit]). reflexivity.
  - reflexivity.
  - discriminate.
Defined.

(** * The integration's entry points and its config flow *)

Section IntegrationFacts.
Import Integration.

Lemma with_domain_lookup (data : hass_data) :
  with_domain data !! DOMAIN = Some (default ∅ (data !! DOMAIN)).
Proof.
  unfold with_domain. destruct (data !! DOMAIN) as [apis|] eqn:Hd; [done|].
  by rewrite lookup_insert_eq.
Qed.

Lemma with_domain_insert (data : hass_data) (apis : gmap string Api) :
  <[DOMAIN := apis]> (with_domain data) = <[DOMAIN := apis]> data.
Proof.
  unfold with_domain. destruct (data !! DOMAIN); [done|]. by rewrite insert_insert_eq.
Qed.

(** X23: [async_setup_entry] of the integration, answer by answer.
    Without the ["auth"] key it raises [KeyError] and calls nothing.  An
    unpaired client gives [ConfigEntryAuthFailed] with no further call.
    Otherwise [connect()] is awaited: when it returns true the client is
    stored under the entry's id and the entry is forwarded to the
    platform, and [True] is returned, or the exception of the forwarding
    with the client left stored; when it returns false [refresh_auth()]
    is awaited, and only when that returns true is [connect()] awaited a
    second time, with the same consequences; in all other cases [False]
    is returned with nothing stored.  An exception of [connect()] or of
    [refresh_auth()] comes out at once.  [hass.data] has the domain's
    dictionary from the start. *)
Theorem setup_entry_protocol (o : oracle) (location_name : string) (entry : ConfigEntry)
    (data : hass_data) :
  let paired := Occ ApiPaired true in
  let connect (n : nat) := Occ ApiConnect (o n ApiConnect) in
  let refresh := Occ ApiRefreshAuth (o 2%nat ApiRefreshAuth) in
  let forwarded (n : nat) (serialized : string) (before : list occ)
    : list occ * (res bool * hass_data) :=
    (before ++ [Occ ForwardEntrySetups (o n ForwardEntrySetups)],
     (match o n ForwardEntrySetups with Val _ => Val true | Raise e => Raise e end,
      stored (entry_id entry) (mkApi (device_name location_name) serialized) data)) in
  let stopped (r : res bool) (calls : list occ) : list occ * (res bool * hass_data) :=
    (calls, (r, with_domain data)) in
  run o 0 (async_setup_entry location_name entry data)
  = match entry_data entry !! "auth" with
    | None => stopped (Raise (KeyError "auth")) []
    | Some serialized =>
        if o 0%nat ApiPaired then
          match o 1%nat ApiConnect with
          | Raise e => stopped (Raise e) [paired; connect 1%nat]
          | Val true => forwarded 2%nat serialized [paired; connect 1%nat]
          | Val false =>
              match o 2%nat ApiRefreshAuth with
              | Raise e => stopped (Raise e) [paired; connect 1%nat; refresh]
              | Val false => stopped (Val false) [paired; connect 1%nat; refresh]
              | Val true =>
                  match o 3%nat ApiConnect with
                  | Raise e => stopped (Raise e) [paired; connect 1%nat; refresh; connect 3%nat]
                  | Val false =>
                      stopped (Val false) [paired; connect 1%nat; refresh; connect 3%nat]
                  | Val true =>
                      forwarded 4%nat serialized
                        [paired; connect 1%nat; refresh; connect 3%nat]
                  end
              end
          end
        else stopped (Raise (ConfigEntryAuthFailed "Not paired")) [Occ ApiPaired false]
    end
  /\ asked o (async_setup_entry location_name entry) data ∈ [] :: setup_shapes
  /\ forall api, api_of (entry_id entry) (stored (entry_id entry) api data) = Some api.
Proof.
  cbn zeta. unfold asked, async_setup_entry, create_entry.
  destruct (entry_data entry !! "auth") as [serialized|].
  - flow_crunch ltac:(rewrite with_domain_lookup).
    all: unfold stored, setup_shapes, api_of; rewrite ?with_domain_insert; cbn.
    all: repeat split; try done; try elem_of_list.
    all: try (by simplify_eq).
    all: intros api; rewrite lookup_insert_eq; cbn; by rewrite lookup_insert_eq.
  - flow_cbn. repeat split; [elem_of_list|].
    intros api. unfold api_of, stored. rewrite lookup_insert_eq. cbn.
    by rewrite lookup_insert_eq.
Qed.

Lemma setup_entry_protocol_witness :
  let entry := mkConfigEntry "e1" (<["auth" := "token"]> ∅) in
  let o : oracle := fun n c =>
    match n with
    | 1%nat => match c return ans c with
               | ApiConnect => Val false
               | c' => obliging None (mkConnectResult "TV" "s1" "token") c'
               end
    | _ => obliging None (mkConnectResult "TV" "s1" "token") c
    end in
  asked o (async_setup_entry "Home" entry) ∅
  = [ApiPaired; ApiConnect; ApiRefreshAuth; ApiConnect; ForwardEntrySetups]
  /\ outcome_of o (async_setup_entry "Home" entry) ∅ = Val true
  /\ state_of o (async_setup_entry "Home" entry) ∅
     = stored "e1" (mkApi (device_name "Home") "token") ∅.
Proof.
  cbn zeta. unfold asked, outcome_of, state_of.
  destruct (setup_entry_protocol
              (fun n c =>
                 match n with
                 | 1%nat => match c return ans c with
                            | ApiConnect => Val false
                            | c' => obliging None (mkConnectResult "TV" "s1" "token") c'
                            end
                 | _ => obliging None (mkConnectResult "TV" "s1" "token") c
                 end)
              "Home" (mkConfigEntry "e1" (<["auth" := "token"]> ∅)) ∅) as (-> & _).
  by repeat split.
Defined.

Lemma setup_success_stores (o : oracle) (location_name : string) (entry : ConfigEntry)
    (data : hass_data) :
  outcome_of o (async_setup_entry location_name entry) data = Val true ->
  exists serialized,
    entry_data entry !! "auth" = Some serialized
    /\ state_of o (async_setup_entry location_name entry) data
       = stored (entry_id entry) (mkApi (device_name location_name) serialized) data.
Proof.
  unfold outcome_of, state_of, async_setup_entry, create_entry.
  destruct (entry_data entry !! "auth") as [serialized|]; [|by flow_cbn].
  intros H. exists serialized. split; [done|]. revert H.
  flow_crunch ltac:(rewrite with_domain_lookup).
  all: unfold stored; rewrite ?with_domain_insert; cbn; done.
Qed.

Lemma api_of_stored (id : string) (api : Api) (data : hass_data) :
  api_of id (stored id api data) = Some api.
Proof. unfold api_of, stored. rewrite lookup_insert_eq. cbn. by rewrite lookup_insert_eq. Qed.

Lemma unstore_stored (id : string) (api : Api) (data : hass_data) :
  api_of id data = None ->
  <[DOMAIN := delete id (default ∅ (stored id api data !! DOMAIN))]> (stored id api data)
  = with_domain data.
Proof.
  unfold stored, with_domain, api_of. intros Hnew.
  rewrite lookup_insert_eq. cbn. rewrite insert_insert_eq, delete_insert_eq.
  destruct (data !! DOMAIN) as [apis|] eqn:Hdom; cbn in *.
  - rewrite delete_id by done. by rewrite insert_id.
  - by rewrite delete_id.
Qed.

(** [async_unload_entry], case by case. *)
Lemma async_unload_entry_runs (o : oracle) (entry : ConfigEntry) (data : hass_data) :
  match o 0%nat UnloadPlatforms with
  | Val true =>
      match api_of (entry_id entry) data with
      | Some _ =>
          run o 0 (async_unload_entry entry data)
          = ([Occ UnloadPlatforms (Val true); Occ ApiClose (o 1%nat ApiClose)],
             (Val true,
              <[DOMAIN := delete (entry_id entry) (default ∅ (data !! DOMAIN))]> data))
          /\ api_of (entry_id entry) (state_of o (async_unload_entry entry) data) = None
      | None =>
          run o 0 (async_unload_entry entry data)
          = ([Occ UnloadPlatforms (Val true)],
             (Raise (KeyError (match data !! DOMAIN with
                               | Some _ => entry_id entry
                               | None => DOMAIN
                               end)), data))
      end
  | Val false =>
      run o 0 (async_unload_entry entry data)
      = ([Occ UnloadPlatforms (Val false)], (Val false, data))
  | Raise e =>
      run o 0 (async_unload_entry entry data)
      = ([Occ UnloadPlatforms (Raise e)], (Raise e, data))
  end.
Proof.
  unfold state_of, async_unload_entry, api_of.
  destruct (data !! DOMAIN) as [apis|] eqn:Hd; cbn [mbind option_bind];
    [destruct (apis !! entry_id entry) as [api|] eqn:Ha|].
  all: flow_crunch ltac:(rewrite ?Hd, ?Ha).
  all: cbn; repeat split; try done.
  all: rewrite lookup_insert_eq; cbn; by rewrite lookup_delete_eq.
Qed.

(** X24: [async_unload_entry] unloads the platforms first.  When that
    succeeded it takes the entry's client out of [hass.data] and calls
    its [close()], and that is its last call: what [close()] gives is
    not awaited, so the client is closed by the unload only when
    [close()] is a plain method, and stays open when it is a coroutine
    function.  When the platforms were not unloaded, or unloading
    raised, [hass.data] is untouched and [close()] is not called; when
    no client is stored for the entry, [KeyError] comes out before
    [close()].  Unloading after a successful setup of an entry that was
    not stored before leaves [hass.data] as the setup found it, but for
    the domain's (then empty) dictionary. *)
Theorem unload_drops_client_unawaited
    (o o' : oracle) (location_name : string) (entry : ConfigEntry) (data : hass_data) :
  let out := run o' 0 (async_unload_entry entry data) in
  let loaded := state_of o (async_setup_entry location_name entry) data in
  match o' 0%nat UnloadPlatforms with
  | Val true =>
      match api_of (entry_id entry) data with
      | Some _ =>
          out.1 = [Occ UnloadPlatforms (Val true); Occ ApiClose (o' 1%nat ApiClose)]
          /\ out.2.1 = Val true
          /\ api_of (entry_id entry) out.2.2 = None
          /\ existsb closes out.1
             = match o' 1%nat ApiClose with ClosedNow => true | CoroutineObject => false end
      | None =>
          out.1 = [Occ UnloadPlatforms (Val true)] /\ out.2.2 = data
          /\ (exists key, out.2.1 = Raise (KeyError key))
          /\ (outcome_of o (async_setup_entry location_name entry) data = Val true ->
              run o' 0 (async_unload_entry entry loaded)
              = ([Occ UnloadPlatforms (Val true); Occ ApiClose (o' 1%nat ApiClose)],
                 (Val true, with_domain data)))
      end
  | Val false => out = ([Occ UnloadPlatforms (Val false)], (Val false, data))
  | Raise e => out = ([Occ UnloadPlatforms (Raise e)], (Raise e, data))
  end.
Proof.
  cbn zeta. pose proof (async_unload_entry_runs o' entry data) as Hd.
  destruct (o' 0%nat UnloadPlatforms) as [[|]|e] eqn:Hun; try done.
  destruct (api_of (entry_id entry) data) eqn:Hnew.
  - destruct Hd as [Hrun Hgone]. unfold state_of in Hgone. rewrite Hrun in *.
    repeat split; try done. cbn. by destruct (o' 1%nat ApiClose).
  - rewrite Hd. repeat split; try done; [by eexists|]. intros Hok.
    destruct (setup_success_stores o location_name entry data Hok) as (serialized & _ & ->).
    pose proof (async_unload_entry_runs o' entry
                  (stored (entry_id entry)
                     (mkApi (device_name location_name) serialized) data)) as Hl.
    rewrite Hun, api_of_stored in Hl. destruct Hl as [-> _].
    do 3 f_equal. unfold stored at 1. rewrite lookup_insert_eq. cbn [default].
    pose proof (unstore_stored (entry_id entry)
                  (mkApi (device_name location_name) serialized) data Hnew) as Hu.
    unfold stored at 1 in Hu. rewrite lookup_insert_eq in Hu. exact Hu.
Qed.

Lemma unload_drops_client_unawaited_witness :
  let entry := mkConfigEntry "e1" (<["auth" := "token"]> ∅) in
  let o : oracle := fun _ => obliging None (mkConnectResult "TV" "s1" "token") in
  let loaded := state_of o (async_setup_entry "Home" entry) ∅ in
  run o 0 (async_unload_entry entry loaded)
  = ([Occ UnloadPlatforms (Val true); Occ ApiClose CoroutineObject],
     (Val true, with_domain ∅)).
Proof.
  pose proof (unload_drops_client_unawaited
                (fun _ => obliging None (mkConnectResult "TV" "s1" "token"))
                (fun _ => obliging None (mkConnectResult "TV" "s1" "token"))
                "Home" (mkConfigEntry "e1" (<["auth" := "token"]> ∅)) ∅) as H.
  cbn zeta in H. change (api_of _ ∅) with (@None Api) in H.
  cbn iota beta in H. destruct H as (_ & _ & _ & H). apply H. reflexivity.
Defined.

(** X25: after [async_setup_entry] of the integration returned [True],
    the platform's [async_setup_entry] finds the client and builds the
    entity with the entry's [google_api_key]; without the entry in
    [hass.data] it raises [KeyError].  Added to Home Assistant, that
    entity gets the supervision task, and the metadata setup exactly
    when the entry holds a non-empty key. *)
Theorem platform_builds_entity (o : oracle) (location_name : string) (entry : ConfigEntry)
    (data : hass_data) (now : datetime) (s : list reply) :
  outcome_of o (async_setup_entry location_name entry) data = Val true ->
  let loaded := state_of o (async_setup_entry location_name entry) data in
  let self := YtMediaPlayer_init (entry_data entry !! "google_api_key") now in
  platform_setup_entry loaded entry now = Val self
  /\ (api_of (entry_id entry) data = None ->
      exists key, platform_setup_entry (with_domain data) entry now = Raise (KeyError key))
  /\ w_tasks (r_world (exec (world0 self) async_added_to_hass (RUnit :: s)))
     = mkTask SubscriptionTask None false
         :: match entry_data entry !! "google_api_key" with
            | Some (String _ _) => [mkTask SetupYoutubeApi None false]
            | _ => []
            end.
Proof.
  intros Hok loaded self.
  destruct (setup_success_stores o location_name entry data Hok) as (serialized & _ & Hst).
  subst loaded. rewrite Hst. split; [|split].
  - unfold platform_setup_entry, stored. rewrite lookup_insert_eq. by rewrite lookup_insert_eq.
  - unfold platform_setup_entry, api_of, with_domain.
    destruct (data !! DOMAIN) as [apis|] eqn:Hd; cbn.
    + rewrite Hd. intros ->. by eexists.
    + intros _. rewrite lookup_insert_eq, lookup_empty. by eexists.
  - rewrite exec_async_added_to_hass. cbn [r_world w_tasks world0 app].
    subst self. unfold scheduled, key_given, YtMediaPlayer_init; cbn.
    by destruct (entry_data entry !! "google_api_key") as [[|ch key]|].
Qed.

Lemma platform_builds_entity_witness :
  let entry := mkConfigEntry "e1" (<["auth" := "token"]> (<["google_api_key" := ""]> ∅)) in
  let o : oracle := fun _ => obliging None (mkConnectResult "TV" "s1" "token") in
  let loaded := state_of o (async_setup_entry "Home" entry) ∅ in
  let self := YtMediaPlayer_init (entry_data entry !! "google_api_key") 0 in
  platform_setup_entry loaded entry 0 = Val self
  /\ (api_of (entry_id entry) ∅ = None ->
      exists key, platform_setup_entry (with_domain ∅) entry 0 = Raise (KeyError key))
  /\ w_tasks (r_world (exec (world0 self) async_added_to_hass [RUnit]))
     = mkTask SubscriptionTask None false
         :: match entry_data entry !! "google_api_key" with
            | Some (String _ _) => [mkTask SetupYoutubeApi None false]
            | _ => []
            end.
Proof.
  apply (platform_builds_entity
           (fun _ => obliging None (mkConnectResult "TV" "s1" "token")) "Home"
           (mkConfigEntry "e1" (<["auth" := "token"]> (<["google_api_key" := ""]> ∅)))
           ∅ 0 []).
  reflexivity.
Defined.

(** X26: what the three validators make of failures.
    [validate_google_api_key] asks nothing for an empty key; a failure
    of the discovery comes out as it is, a failure of the test request
    as [InvalidAuth] for an HTTP 400 and as [CannotConnect] for any
    other exception, a cancellation as itself.  The pairing validators
    return [None] when the pairing is refused, turn
    [ClientConnectionError] into [CannotConnect] and any other exception
    into [InvalidAuth]; [validate_pairing_code] lets a cancellation
    through while [validate_screen_id], with its bare [except:], turns
    it into [InvalidAuth] too.  None of them touches the handler. *)
Theorem validators_translate_errors {St : Type} (o : oracle) (key code id name : string)
    (st : St) :
  run o 0 (validate_google_api_key key st)
  = (if truthy_str key
     then match o 0%nat (GoogleDiscover key) with
          | Raise e => ([Occ (GoogleDiscover key) (Raise e)], (Raise e, st))
          | Val a =>
              ([Occ (GoogleDiscover key) (Val a); Occ GoogleAsApiKey (o 1%nat GoogleAsApiKey)],
               (match o 1%nat GoogleAsApiKey with
                | Val _ => Val tt
                | Raise e => Raise (request_error e)
                end, st))
          end
     else ([], (Val tt, st)))
  /\ outcome_of o (validate_pairing_code code) st
     = match o 0%nat (ApiPair code) with
       | Val true => Val (Some (o 1%nat ApiReadResult))
       | Val false => Val None
       | Raise e => Raise (pairing_error e)
       end
  /\ outcome_of o (validate_screen_id id name) st
     = match o 0%nat (ApiPairWithScreenId id name) with
       | Val true => Val (Some (o 1%nat ApiReadResult))
       | Val false => Val None
       | Raise e => Raise (if is_exception e then pairing_error e else InvalidAuth)
       end
  /\ state_of o (validate_pairing_code code) st = st
  /\ state_of o (validate_screen_id id name) st = st.
Proof.
  unfold outcome_of, state_of, validate_google_api_key, validate_pairing_code,
    validate_screen_id, pairing_result.
  split; [|split; [|split; [|split]]].
  - destruct (truthy_str key); [|done].
    flow_cbn. destruct (o 0%nat (GoogleDiscover key)) as [[]|e] eqn:H0; flow_cbn; [|done].
    destruct (o 1%nat GoogleAsApiKey) as [[]|[]] eqn:H1; flow_cbn; try done.
    cbn. match goal with |- context [bad_request ?x] => by destruct (bad_request x) end.
  - flow_cbn. destruct (o 0%nat (ApiPair code)) as [[|]|[]] eqn:H0; by flow_cbn.
  - flow_cbn. destruct (o 0%nat (ApiPairWithScreenId id name)) as [[|]|[]] eqn:H0; by flow_cbn.
  - flow_cbn. destruct (o 0%nat (ApiPair code)) as [[|]|[]] eqn:H0; by flow_cbn.
  - flow_cbn. destruct (o 0%nat (ApiPairWithScreenId id name)) as [[|]|[]] eqn:H0; by flow_cbn.
Qed.

(** X27: the API key step.  Without a key in the input the form is
    shown again and nothing is asked, so the step cannot be passed
    without a key; an empty key creates the entry without any request;
    a non-empty key is tested first.  A failure of the discovery is
    reported as what it is ("unknown" and logged unless it is one of the
    two flow errors), a failure of the test request as "invalid_auth"
    for an HTTP 400 and "cannot_connect" otherwise; a cancellation goes
    on.  The entry carries the screen's authorization and the key; with
    no pairing result the step raises [AttributeError].  The handler is
    never changed. *)
Theorem google_api_key_step (o : oracle) (user_input : option (gmap string string))
    (self : ConfigFlow) :
  let out := run o 0 (async_step_google_api_key user_input self) in
  out.2.2 = self
  /\ match user_input ≫= (.!! "google_api_key") with
     | None => out = ([], (Val (key_form ∅), self))
     | Some key =>
         let entry :=
           match connect_result self with
           | Some result =>
               Val (CreateEntry (screen_name result)
                      (<["auth" := auth result]> (<["google_api_key" := key]> ∅)))
           | None => Raise AttributeError
           end in
         let report (e : error) :=
           match reported e with
           | Some msg => Val (key_form (base_error msg))
           | None => Raise e
           end in
         if truthy_str key
         then match o 0%nat (GoogleDiscover key) with
              | Raise e =>
                  out.2.1 = report e
                  /\ map occ_cmd out.1
                     = GoogleDiscover key
                         :: (if bool_decide (reported e = Some "unknown")
                             then [LogException] else [])
              | Val _ =>
                  match o 1%nat GoogleAsApiKey with
                  | Val _ =>
                      out.2.1 = entry
                      /\ map occ_cmd out.1 = [GoogleDiscover key; GoogleAsApiKey]
                  | Raise e =>
                      out.2.1 = report (request_error e)
                      /\ map occ_cmd out.1 = [GoogleDiscover key; GoogleAsApiKey]
                  end
              end
         else out = ([], (entry, self))
     end.
Proof.
  cbn zeta. unfold async_step_google_api_key, validate_google_api_key, the_connect_result,
    step_error, key_form.
  destruct self as [[result|]];
    (destruct (user_input ≫= (.!! "google_api_key")) as [key|] eqn:Hkey; [|done]);
    (destruct (truthy_str key) eqn:Htruthy; [|by flow_cbn]).
  all: flow_cbn.
  all: destruct (o 0%nat (GoogleDiscover key)) as [[]|e] eqn:H0; flow_cbn.
  all: try (destruct (o 1%nat GoogleAsApiKey) as [[]|e] eqn:H1; flow_cbn).
  all: try done.
  all: try (destruct e; flow_cbn; cbn; try done;
            match goal with |- context [bad_request ?x] => by destruct (bad_request x) end).
Qed.

Lemma google_api_key_step_keeps (o : oracle) (n : nat)
    (user_input : option (gmap string string)) (self : ConfigFlow) :
  (run o n (async_step_google_api_key user_input self)).2.2 = self.
Proof.
  unfold async_step_google_api_key, validate_google_api_key, the_connect_result, step_error.
  destruct self as [[result|]];
    (destruct (user_input ≫= (.!! "google_api_key")) as [key|] eqn:Hkey; [|done]);
    (destruct (truthy_str key) eqn:Htruthy; [|by flow_cbn]).
  all: flow_cbn.
  all: destruct (o n (GoogleDiscover key)) as [[]|e] eqn:H0; flow_cbn.
  all: try (destruct (o (S n) GoogleAsApiKey) as [[]|e] eqn:H1; flow_cbn).
  all: try done.
  all: try (destruct e; flow_cbn; cbn; try done;
            match goal with |- context [bad_request ?x] => by destruct (bad_request x) end).
Qed.

(** X28: the pairing step.  Without a code the form is shown and
    nothing is asked.  A failure of the pairing is reported as
    "cannot_connect" or "invalid_auth", never as "unknown", and a
    cancellation goes on, the handler being unchanged.  When the pairing
    is refused the handler's result is overwritten with [None] and the
    step raises [AttributeError].  When it succeeds the result is stored
    first; then the unique id is set and checked, either of which may
    end the step with its exception; then the API key step runs with the
    same input. *)
Theorem pair_step (o : oracle) (user_input : option (gmap string string)) (self : ConfigFlow) :
  let out := run o 0 (async_step_pair user_input self) in
  match user_input ≫= (.!! "pairing_code") with
  | None => out = ([], (Val (pair_form ∅), self))
  | Some code =>
      match o 0%nat (ApiPair code) with
      | Raise e =>
          out = ([Occ (ApiPair code) (Raise e)],
                 (match reported (pairing_error e) with
                  | Some msg => Val (pair_form (base_error msg))
                  | None => Raise e
                  end, self))
          /\ reported (pairing_error e) <> Some "unknown"
      | Val false =>
          out = ([Occ (ApiPair code) (Val false)], (Raise AttributeError, mkConfigFlow None))
      | Val true =>
          let result := o 1%nat ApiReadResult in
          let paired := mkConfigFlow (Some result) in
          let begun := [Occ (ApiPair code) (Val true); Occ ApiReadResult result] in
          match o 2%nat (SetUniqueId (screen_id result)) with
          | Raise e =>
              out = (begun ++ [Occ (SetUniqueId (screen_id result)) (Raise e)],
                     (Raise e, paired))
          | Val u =>
              match o 3%nat AbortIfUniqueIdConfigured with
              | Raise e =>
                  out = (begun ++ [Occ (SetUniqueId (screen_id result)) (Val u);
                                   Occ AbortIfUniqueIdConfigured (Raise e)],
                         (Raise e, paired))
              | Val u' =>
                  out = (begun ++ [Occ (SetUniqueId (screen_id result)) (Val u);
                                   Occ AbortIfUniqueIdConfigured (Val u')]
                               ++ (run o 4 (async_step_google_api_key user_input paired)).1,
                         (run o 4 (async_step_google_api_key user_input paired)).2)
              end
          end
      end
  end.
Proof.
  cbn zeta. unfold async_step_pair, validate_pairing_code, pairing_result, the_connect_result,
    step_error, pair_form.
  destruct (user_input ≫= (.!! "pairing_code")) as [code|] eqn:Hcode; [|done].
  flow_cbn. destruct (o 0%nat (ApiPair code)) as [[|]|e] eqn:H0; flow_cbn.
  - destruct (o 2%nat (SetUniqueId (screen_id (o 1%nat ApiReadResult)))) as [[]|e] eqn:H2;
      flow_cbn; [|done].
    destruct (o 3%nat AbortIfUniqueIdConfigured) as [[]|e] eqn:H3; flow_cbn; [|done].
    by destruct (run o 4 _) as [tr [[r|e] st]].
  - done.
  - by destruct e.
Qed.

(** X29: the discovery step never creates an entry.  It aborts when
    the DIAL device has no YouTube and when the screen id is empty, then
    without a pairing attempt; the unique id is set and checked before
    the pairing and their exceptions go on; every exception of the
    pairing, a cancellation included, ends in the abort "Screen id
    failed" with the handler unchanged and nothing logged; a refused
    pairing ends in [AttributeError]; a successful one stores the result
    and shows the confirmation form with the screen's name. *)
Theorem ssdp_step (o : oracle) (ssdp_location : string) (self : ConfigFlow) :
  let out := run o 0 (async_step_ssdp ssdp_location self) in
  let calls := map occ_cmd out.1 in
  created out.2.1 = None
  /\ match o 1%nat (GetScreenIdFromDial ssdp_location) with
     | Raise e => out.2 = (Raise e, self) /\ calls = [LogDebug; GetScreenIdFromDial ssdp_location]
     | Val None =>
         out.2 = (Val (Abort "Could not find YouTube on DIAL device"), self)
         /\ calls = [LogDebug; GetScreenIdFromDial ssdp_location]
     | Val (Some found) =>
         let id := dial_screen_id found in
         let name := dial_screen_name found in
         let begun := [LogDebug; GetScreenIdFromDial ssdp_location; LogInfo] in
         if truthy_str id
         then match o 3%nat (SetUniqueId id) with
              | Raise e => out.2 = (Raise e, self) /\ calls = begun ++ [SetUniqueId id]
              | Val _ =>
                  match o 4%nat AbortIfUniqueIdConfigured with
                  | Raise e =>
                      out.2 = (Raise e, self)
                      /\ calls = begun ++ [SetUniqueId id; AbortIfUniqueIdConfigured]
                  | Val _ =>
                      match o 5%nat (ApiPairWithScreenId id name) with
                      | Raise e =>
                          out.2 = (Val (Abort "Screen id failed"), self)
                          /\ calls = begun ++ [SetUniqueId id; AbortIfUniqueIdConfigured;
                                               ApiPairWithScreenId id name]
                      | Val false =>
                          out.2 = (Raise AttributeError, mkConfigFlow None)
                          /\ calls = begun ++ [SetUniqueId id; AbortIfUniqueIdConfigured;
                                               ApiPairWithScreenId id name]
                      | Val true =>
                          out.2 = (Val (ShowForm (Some "confirm_discovery") NoSchema ∅
                                          (Some (screen_name (o 6%nat ApiReadResult)))),
                                   mkConfigFlow (Some (o 6%nat ApiReadResult)))
                          /\ calls = begun ++ [SetUniqueId id; AbortIfUniqueIdConfigured;
                                               ApiPairWithScreenId id name; ApiReadResult]
                      end
                  end
              end
         else out.2 = (Val (Abort "Screen id missing"), self) /\ calls = begun
     end.
Proof.
  cbn zeta. unfold async_step_ssdp, connect_with_screen_id, validate_screen_id, pairing_result,
    async_step_confirm_discovery, the_connect_result, step_error.
  flow_cbn. destruct (o 1%nat (GetScreenIdFromDial ssdp_location)) as [[found|]|e] eqn:H1;
    flow_cbn; try done.
  destruct (truthy_str (dial_screen_id found)) eqn:Hid; flow_cbn; [|done].
  destruct (o 3%nat (SetUniqueId (dial_screen_id found))) as [[]|e] eqn:H3; flow_cbn; [|done].
  destruct (o 4%nat AbortIfUniqueIdConfigured) as [[]|e] eqn:H4; flow_cbn; [|done].
  destruct (o 5%nat (ApiPairWithScreenId (dial_screen_id found) (dial_screen_name found)))
    as [[|]|e] eqn:H5; flow_cbn; try done.
  by destruct e.
Qed.

Lemma google_api_key_step_creates (o : oracle) (n : nat)
    (user_input : option (gmap string string)) (self : ConfigFlow)
    (data : gmap string string) :
  created (run o n (async_step_google_api_key user_input self)).2.1 = Some data ->
  exists result key,
    connect_result self = Some result
    /\ user_input ≫= (.!! "google_api_key") = Some key
    /\ data = <["auth" := auth result]> (<["google_api_key" := key]> ∅)
    /\ (run o n (async_step_google_api_key user_input self)).2.1
       = Val (CreateEntry (screen_name result) data)
    /\ (truthy_str key = true ->
        last (map occ_cmd (run o n (async_step_google_api_key user_input self)).1)
        = Some GoogleAsApiKey).
Proof.
  unfold async_step_google_api_key, validate_google_api_key, the_connect_result, step_error.
  destruct self as [[result|]];
    (destruct (user_input ≫= (.!! "google_api_key")) as [key|] eqn:Hkey; [|done]);
    (destruct (truthy_str key) eqn:Htruthy).
  all: flow_cbn.
  all: try (destruct (o n (GoogleDiscover key)) as [[]|e] eqn:H0; flow_cbn).
  all: try (destruct (o (S n) GoogleAsApiKey) as [[]|e] eqn:H1; flow_cbn).
  all: try (destruct e; flow_cbn; cbn; try done;
            match goal with |- context [bad_request ?x] => by destruct (bad_request x) end).
  all: cbn; try done.
  all: intros [= <-]; exists result, key; repeat split; try done; congruence.
Qed.

(** X30: whichever step is called, with whatever input and answers and
    from whatever state of the handler, an entry is only created by a
    step that was given an API key, for the pairing result the handler
    then holds: the entry's title is that screen's name and its data are
    that screen's authorization and the key; and when the key is not
    empty the last call before was the test request. *)
Theorem entries_carry_the_pairing (o : oracle) (n : nat) (i : invocation) (self : ConfigFlow)
    (data : gmap string string) :
  created (run o n (invoke i self)).2.1 = Some data ->
  exists result key,
    connect_result (run o n (invoke i self)).2.2 = Some result
    /\ key_of i = Some key
    /\ (run o n (invoke i self)).2.1
       = Val (CreateEntry (screen_name result)
                (<["auth" := auth result]> (<["google_api_key" := key]> ∅)))
    /\ (truthy_str key = true ->
        last (map occ_cmd (run o n (invoke i self)).1) = Some GoogleAsApiKey).
Proof.
  assert (Hpair : forall user_input,
    created (run o n (async_step_pair user_input self)).2.1 = Some data ->
    exists result key,
      connect_result (run o n (async_step_pair user_input self)).2.2 = Some result
      /\ user_input ≫= (.!! "google_api_key") = Some key
      /\ (run o n (async_step_pair user_input self)).2.1
         = Val (CreateEntry (screen_name result)
                  (<["auth" := auth result]> (<["google_api_key" := key]> ∅)))
      /\ (truthy_str key = true ->
          last (map occ_cmd (run o n (async_step_pair user_input self)).1)
          = Some GoogleAsApiKey)).
  { intros user_input.
    unfold async_step_pair, validate_pairing_code, pairing_result, the_connect_result,
      step_error, pair_form.
    destruct (user_input ≫= (.!! "pairing_code")) as [code|] eqn:Hcode; [|done].
    flow_cbn. destruct (o n (ApiPair code)) as [[|]|e] eqn:H0; flow_cbn;
      [|done|by destruct e].
    destruct (o (S (S n)) (SetUniqueId (screen_id (o (S n) ApiReadResult)))) as [[]|e] eqn:H2;
      flow_cbn; [|done].
    destruct (o (S (S (S n))) AbortIfUniqueIdConfigured) as [[]|e] eqn:H3; flow_cbn; [|done].
    pose proof (google_api_key_step_keeps o (S (S (S (S n)))) user_input
                  (mkConfigFlow (Some (o (S n) ApiReadResult)))) as Hkeep.
    pose proof (google_api_key_step_creates o (S (S (S (S n)))) user_input
                  (mkConfigFlow (Some (o (S n) ApiReadResult))) data) as Hcreate.
    destruct (run o (S (S (S (S n)))) _) as [tr [r st]]. cbn in *. subst st.
    intros Hc. destruct (Hcreate Hc) as (result & key & [= <-] & Hkey & -> & Hr & Hlast).
    exists (o (S n) ApiReadResult), key. repeat split; try done.
    intros Ht. specialize (Hlast Ht).
    destruct (map occ_cmd tr) as [|c0 cs] eqn:Htr; [done|].
    by rewrite !last_cons, Hlast in *. }
  destruct i as [ui|ui|ui|ui|loc]; cbn [invoke key_of async_step_user].
  - apply Hpair.
  - apply Hpair.
  - intros Hc.
    destruct (google_api_key_step_creates o n ui self data Hc)
      as (result & key & Hres & Hkey & -> & Hr & Hlast).
    exists result, key. by rewrite google_api_key_step_keeps.
  - unfold async_step_confirm_discovery, async_step_google_api_key, the_connect_result.
    destruct ui; destruct self as [[result|]]; by flow_cbn.
  - unfold async_step_ssdp, connect_with_screen_id, validate_screen_id, pairing_result,
      async_step_confirm_discovery, the_connect_result, step_error.
    flow_cbn. destruct (o (S n) (GetScreenIdFromDial loc)) as [[found|]|e] eqn:H1;
      flow_cbn; try done.
    destruct (truthy_str (dial_screen_id found)) eqn:Hid; flow_cbn; [|done].
    destruct (o (S (S (S n))) (SetUniqueId (dial_screen_id found))) as [[]|e] eqn:H3;
      flow_cbn; [|done].
    destruct (o (S (S (S (S n)))) AbortIfUniqueIdConfigured) as [[]|e] eqn:H4;
      flow_cbn; [|done].
    destruct (o (S (S (S (S (S n)))))
                (ApiPairWithScreenId (dial_screen_id found) (dial_screen_name found)))
      as [[|]|e] eqn:H5; flow_cbn; try done.
    by destruct e.
Qed.

Lemma entries_carry_the_pairing_witness :
  let o : oracle := fun _ => obliging None (mkConnectResult "TV" "s1" "token") in
  let i := StepUser (Some (<["pairing_code" := "123"]> (<["google_api_key" := "key"]> ∅))) in
  exists result key,
    connect_result (run o 0 (invoke i ConfigFlow_init)).2.2 = Some result
    /\ key_of i = Some key
    /\ (run o 0 (invoke i ConfigFlow_init)).2.1
       = Val (CreateEntry (screen_name result)
                (<["auth" := auth result]> (<["google_api_key" := key]> ∅)))
    /\ (truthy_str key = true ->
        last (map occ_cmd (run o 0 (invoke i ConfigFlow_init)).1) = Some GoogleAsApiKey).
Proof.
  apply (entries_carry_the_pairing
           (fun _ => obliging None (mkConnectResult "TV" "s1" "token")) 0
           (StepUser (Some (<["pairing_code" := "123"]> (<["google_api_key" := "key"]> ∅))))
           ConfigFlow_init
           (<["auth" := "token"]> (<["google_api_key" := "key"]> ∅))).
  vm_compute. reflexivity.
Defined.

End IntegrationFacts.
